(** * SyncLink: the link lifecycle and registry engine

    A shallow embedding of the Go packages [internal/util], [internal/config],
    [internal/link] and of the bulk commands of [cmd], followed by the
    properties of the engine.

    The Go code talks to the operating system all the time.  The embedding
    makes that explicit: every function is a computation over a [World]
    (the file tree, the registry file, the package variables of [config])
    that returns its Go results together with the list of system calls it
    made.  What the environment decides on its own (a call that is refused,
    the JSON codec, the clock, path resolution) is collected in [Env]. *)

From stdpp Require Import gmap strings list fin_maps.
From Stdlib Require Import ZArith Ascii String Lia.

Open Scope string_scope.
Open Scope list_scope.

(* ===================================================================== *)
(** ** Data model of package config *)
(* ===================================================================== *)

(** type LinkInfo struct *)
Record LinkInfo := mkLinkInfo {
  Shortcut : bool;
  OriginalPath : string;
  SyncedPath : string;
  CreatedAt : Z;
}.

(** type Settings struct *)
Record Settings := mkSettings {
  DefaultSyncPath : string;
}.

(** type Config struct.  A nil Go map reads like the empty map and the only
    write to [Links] (in AddLink) allocates it first, so nil and empty are
    one value here. *)
Record Config := mkConfig {
  CfgSettings : Settings;
  Links : gmap string LinkInfo;
  Version : string;
}.

#[global] Instance LinkInfo_eq_dec : EqDecision LinkInfo.
Proof. solve_decision. Defined.

Definition CurrentVersion : string := "1.0".

Definition set_Links (l : gmap string LinkInfo) (c : Config) : Config :=
  mkConfig (CfgSettings c) l (Version c).
Definition set_Version (v : string) (c : Config) : Config :=
  mkConfig (CfgSettings c) (Links c) v.
Definition set_DefaultSyncPath (p : string) (c : Config) : Config :=
  mkConfig (mkSettings p) (Links c) (Version c).

(* ===================================================================== *)
(** ** Errors, system calls, events *)
(* ===================================================================== *)

Inductive errno :=
| ENOENT | EEXIST | ENOTDIR | EISDIR | ENOTEMPTY | EINVAL | ELOOP
| EXDEV | ERROR_NOT_SAME_DEVICE | S_FALSE | EIO.

#[global] Instance errno_eq_dec : EqDecision errno.
Proof. solve_decision. Defined.

(** One tag per error message of the source. *)
Inductive msg :=
(* util *)
| MPathCheck | MStatInfo | MLstatInfo | MMkdir | MAbs
| MMove | MMoveSrcType | MMoveCopyDir | MMoveCopyFile | MMoveRemoveSrc
| MCopyMkDstDir | MCopyOpenSrc | MCopyStatSrc | MCopyCreateDst | MCopyContent
| MCopySizeMismatch
| MCopyDirStat | MCopyDirNotDir | MCopyDirMkRoot | MCopyDirWalk | MCopyDirInfo
| MCopyDirMkSub | MCopyDirFailed
(* config *)
| MCfgPathUnknown | MLoadPath | MLoadExists | MLoadMkdir | MLoadSaveDefault
| MLoadRead | MLoadParseEmpty | MLoadParse | MLoadNil | MGetConfigNil
| MSaveNotLoaded | MSavePath | MSaveMkdir | MSaveMarshal | MSaveWrite
| MSyncPathUnset | MInvalidPath | MRemovedButNotSaved | MNilReceiver
(* link *)
| MTargetMissing | MNameExists | MSyncTargetExists | MMkSyncParent
| MUnsupportedTarget | MMoveToSync | MCreateSymlink | MLinkedButNotSaved
| MLoadConfig | MLinkNotFound | MIsShortcut | MIncomplete
| MRemoveSymlink | MConflictRecordRemoved | MConflictUnsaved | MMoveBack
| MDoneButNotUnregistered
| MRelinkConflict | MRemoveBroken | MRemoveWrong | MSyncedMissing | MRecreate
| MShortcutUnsupported | MStartMenu | MShortcutAbs | MShortcutCheck
| MShortcutTargetMissing | MShortcutConfig | MShortcutNotSaved
| MUnlinkUnsupported | MUnlinkBoth | MUnlinkConfig | MUnlinkFile
| MRemoveSymbolic
| MRelinkUnsupported | MRelinkStartMenu | MRelinkShortcut | MRelinkSymbolic
(* shortcut_windows *)
| MLnkAbs | MComInit | MComObject | MComDispatch | MComCreate | MComNoDispatch
| MLnkTarget | MLnkSave | MLnkRemove | MLnkRecreate | MNoAppData
(* cmd *)
| MNotManaged | MRelinkFailed | MUnlinkNotFound.

(** The system calls of the model.  The last block is the registry file,
    which sits beside the executable and is kept in a cell of its own. *)
Inductive syscall :=
| sys_stat (p : string)
| sys_lstat (p : string)
| sys_readlink (p : string)
| sys_readdir (p : string)
| sys_rename (src dst : string)
| sys_symlink (target link : string)
| sys_remove (p : string)
| sys_removeall (p : string)
| sys_mkdirall (p : string)
| sys_open (p : string)
| sys_fstat (p : string)
| sys_opentrunc (p : string)
| sys_iocopy (src dst : string)
| sys_fsync (p : string)
| sys_chmod (p : string)
| com_initialize
| com_create_object
| com_query_interface
| com_create_shortcut (lnk : string)
| com_to_dispatch
| com_put_target (lnk target : string)
| com_put_workdir (lnk dir : string)
| com_put_description (lnk : string)
| com_put_icon (lnk : string)
| com_save (lnk : string)
| cfg_stat
| cfg_mkdirall
| cfg_readfile
| cfg_writefile (data : string).

#[global] Instance syscall_eq_dec : EqDecision syscall.
Proof. solve_decision. Defined.

(** A Go error value: the error of a system call, a fresh message, or a
    message wrapping a cause (fmt.Errorf with percent-w). *)
Inductive error :=
| Errno (e : errno)
| New (m : msg)
| Wrap (m : msg) (cause : error).

(** Warnings written by util.WarningPrint, one tag per call site. *)
Inductive warning :=
| WConfigEmpty | WVersionMismatch
| WSyncFailed | WChmodFailed
| WRollbackFailed | WLinkedButNotSaved
| WNotASymlink | WTargetMismatch | WSyncedMissing | WSkipMoveBack
| WAlreadyUnregistered | WUnreadableLink
| WShortcutConfig | WShortcutNotSaved | WShortcutCleanupFailed
| WNoStartMenu | WShortcutRemoveFailed | WUnlinkAlreadyUnregistered
| WWorkdir | WDescription | WIcon | WRelinkRemoveOld | WNoAppData.

Inductive event :=
| Sys (c : syscall) (failure : option errno)
| Warn (k : warning)
| Skipped (p : string)
| LinkFailed (name : string) (e : error)
| LinkDone (name : string)
| Tally (total success failure : nat).

(** A call that may change the file tree or the registry file. *)
Definition mutating (c : syscall) : bool :=
  match c with
  | sys_stat _ | sys_lstat _ | sys_readlink _ | sys_readdir _
  | sys_open _ | sys_fstat _ | sys_fsync _ | cfg_stat | cfg_readfile
  | com_initialize | com_create_object | com_query_interface
  | com_create_shortcut _ | com_to_dispatch | com_put_target _ _
  | com_put_workdir _ _ | com_put_description _ | com_put_icon _ => false
  | _ => true
  end.

Definition is_sys (P : syscall → bool) (ev : event) : bool :=
  match ev with Sys c _ => P c | _ => false end.


(* ===================================================================== *)
(** ** The file tree *)
(* ===================================================================== *)

Inductive node :=
| File (data : string)
| Dir
| Symlink (target : string)
| Special.

#[global] Instance node_eq_dec : EqDecision node.
Proof. solve_decision. Defined.

Definition is_dir (n : node) : bool := match n with Dir => true | _ => false end.
Definition is_regular (n : node) : bool := match n with File _ => true | _ => false end.
Definition is_symlink (n : node) : bool := match n with Symlink _ => true | _ => false end.
Definition file_size (n : node) : nat := match n with File d => String.length d | _ => 0 end.

(** Stand-in for the binary shell-link format written by WScript.Shell: a
    non-empty regular file that records its target. *)
Definition lnk_bytes (target : string) : string := "[lnk]" +:+ target.

(* ===================================================================== *)
(** ** The environment and the world *)
(* ===================================================================== *)

Record Env := mkEnv {
  (** the environment refuses this call with this error *)
  fault : syscall → option errno;
  (** io.Copy into this file stops after so many bytes without an error *)
  iocopy_short : string → option nat;
  (** filepath.IsAbs, filepath.Clean, and filepath.Abs on a relative path
      (it asks the system for the working directory) *)
  is_abs : string → bool;
  clean : string → string;
  abs_path : string → errno + string;
  (** the package variable configPath as init left it, empty on failure *)
  configPath : string;
  (** encoding/json on Config *)
  json_marshal : Config → option string;
  json_unmarshal : string → Config → option Config;
  (** time.Now *)
  now : Z;
  (** the build carries shortcut_windows.go, whose init sets the delegates *)
  windows : bool;
  (** os.Getenv *)
  getenv : string → string;
}.

Record World := mkWorld {
  fs : gmap string node;
  (** the registry file: None when it does not exist *)
  disk : option string;
  (** package variables of config *)
  configInstance : option Config;
  once : bool;
}.

Definition set_fs (f : gmap string node) (w : World) : World :=
  mkWorld f (disk w) (configInstance w) (once w).
Definition set_disk (d : option string) (w : World) : World :=
  mkWorld (fs w) d (configInstance w) (once w).
Definition set_configInstance (c : option Config) (w : World) : World :=
  mkWorld (fs w) (disk w) c (once w).
Definition set_once (b : bool) (w : World) : World :=
  mkWorld (fs w) (disk w) (configInstance w) b.

(** Computations: a result, the next world, the events in order. *)
Definition M (A : Type) : Type := World → A * World * list event.

Definition result_of {A} (r : A * World * list event) : A := r.1.1.
Definition world_of {A} (r : A * World * list event) : World := r.1.2.
Definition trace_of {A} (r : A * World * list event) : list event := r.2.

Definition ret {A} (a : A) : M A := λ w, (a, w, []).

Definition bind {A B} (m : M A) (k : A → M B) : M B :=
  λ w, let r1 := m w in
       let r2 := k (result_of r1) (world_of r1) in
       (result_of r2, world_of r2, trace_of r1 ++ trace_of r2).

Definition emit (ev : event) : M unit := λ w, (tt, w, [ev]).
Definition get_world : M World := λ w, (w, w, []).
Definition modify (f : World → World) : M unit := λ w, (tt, f w, []).

Notation "'let!' x ':=' m 'in' k" := (bind m (λ x, k))
  (at level 10, x pattern, m at level 200, k at level 200).
Notation "m ';;;' k" := (bind m (λ _, k))
  (at level 100, right associativity).

Definition errno_of {A} (r : errno + A) : option errno :=
  match r with inl e => Some e | inr _ => None end.

(* ===================================================================== *)
(** ** Package path/filepath, with the slash as separator *)
(* ===================================================================== *)

Module filepath.

(** filepath.Join of two elements: an empty element is ignored.  The
    elements the engine joins are clean, so that the Clean of the result
    has nothing to do. *)
Definition Join (a b : string) : string :=
  if decide (a = EmptyString) then b
  else if decide (b = EmptyString) then a
  else a +:+ "/" +:+ b.

(** filepath.Abs: an absolute path is cleaned, a relative one is joined to
    the working directory. *)
Definition Abs (E : Env) (p : string) : errno + string :=
  if is_abs E p then inr (clean E p) else abs_path E p.

(** The directory prefixes of a clean path, shortest first, the path itself
    last: what MkdirAll walks through. *)
Fixpoint prefixes_from (pre s : string) : list string :=
  match s with
  | EmptyString => if decide (pre = EmptyString) then [] else [pre]
  | String c s' =>
      if Ascii.eqb c "/"
      then (if decide (pre = EmptyString) then [] else [pre])
             ++ prefixes_from (pre +:+ "/") s'
      else prefixes_from (pre +:+ String c EmptyString) s'
  end.

Definition prefixes (p : string) : list string := prefixes_from EmptyString p.

Definition Dir (p : string) : string :=
  match reverse (prefixes p) with
  | _ :: parent :: _ => parent
  | _ => if String.prefix "/" p then "/" else "."
  end.

(** [k] lies strictly below [root]. *)
Definition under (root k : string) : bool := String.prefix (root +:+ "/") k.

(** filepath.Join(dst, filepath.Rel(src, k)) for [k] at or below [src]. *)
Definition rebase (src dst k : string) : string :=
  dst +:+ String.substring (String.length src) (String.length k - String.length src) k.

Definition no_separator (s : string) : bool :=
  forallb (λ c, negb (Ascii.eqb c "/")) (list_ascii_of_string s).

(** [k] is an entry of the directory [root]. *)
Definition child (root k : string) : bool :=
  under root k
  && no_separator (String.substring (S (String.length root))
                     (String.length k - S (String.length root)) k).

(** filepath.Base: the last element of the path, after the trailing
    separators are dropped. *)
Fixpoint drop_separators (rev_path : list ascii) : list ascii :=
  match rev_path with
  | c :: rest => if Ascii.eqb c "/" then drop_separators rest else rev_path
  | [] => []
  end.

Fixpoint last_element (rev_path : list ascii) : list ascii :=
  match rev_path with
  | c :: rest => if Ascii.eqb c "/" then [] else c :: last_element rest
  | [] => []
  end.

Definition Base (path : string) : string :=
  if decide (path = EmptyString) then "."
  else
    match last_element (drop_separators (rev (list_ascii_of_string path))) with
    | [] => "/"
    | e => string_of_list_ascii (rev e)
    end.

End filepath.

(* ===================================================================== *)
(** ** Package os: the system calls the engine uses *)
(* ===================================================================== *)

Module os.
Section os.
Context (E : Env).

(** A call that only looks at the file tree. *)
Definition observe {A} (c : syscall) (f : gmap string node → errno + A)
  : M (errno + A) :=
  λ w, let r := match fault E c with Some e => inl e | None => f (fs w) end in
       (r, w, [Sys c (errno_of r)]).

(** A call that may change the file tree; a refused call changes nothing. *)
Definition perform {A} (c : syscall)
    (f : gmap string node → (errno + A) * gmap string node) : M (errno + A) :=
  λ w, match fault E c with
       | Some e => (inl e, w, [Sys c (Some e)])
       | None => let '(r, t) := f (fs w) in (r, set_fs t w, [Sys c (errno_of r)])
       end.

(** Following symbolic links at the last component, at most [fuel] times.
    A target is looked up as written, which is right for the absolute
    targets the engine writes. *)
Fixpoint resolve (fuel : nat) (t : gmap string node) (p : string)
  : errno + (string * node) :=
  match t !! p with
  | None => inl ENOENT
  | Some (Symlink q) =>
      match fuel with O => inl ELOOP | S n => resolve n t q end
  | Some n => inr (p, n)
  end.

Definition max_links : nat := 40.

Definition Stat (p : string) : M (errno + node) :=
  observe (sys_stat p) (λ t,
    match resolve max_links t p with inr (_, n) => inr n | inl e => inl e end).

Definition Lstat (p : string) : M (errno + node) :=
  observe (sys_lstat p) (λ t,
    match t !! p with Some n => inr n | None => inl ENOENT end).

Definition Readlink (p : string) : M (errno + string) :=
  observe (sys_readlink p) (λ t,
    match t !! p with
    | Some (Symlink q) => inr q
    | Some _ => inl EINVAL
    | None => inl ENOENT
    end).

Definition entries (t : gmap string node) (dir : string) : list string :=
  List.filter (filepath.child dir) (map fst (map_to_list t)).

Definition ReadDir (p : string) : M (errno + list string) :=
  observe (sys_readdir p) (λ t,
    match resolve max_links t p with
    | inr (q, Dir) => inr (entries t q)
    | inr _ => inl ENOTDIR
    | inl e => inl e
    end).

Definition inside (root k : string) : bool :=
  bool_decide (k = root) || filepath.under root k.

(** The tree with everything at or below [src] moved to [dst]. *)
Definition move_tree (src dst : string) (t : gmap string node)
  : gmap string node :=
  list_to_map
    (List.map (λ kn : string * node, (filepath.rebase src dst kn.1, kn.2))
       (List.filter (λ kn : string * node, inside src kn.1) (map_to_list t)))
  ∪ filter (λ kn : string * node, inside src kn.1 = false) t.

(** os.Rename replaces an existing destination that is not a directory.
    The directory of [dst] is not looked at: it is taken to exist, and the
    properties of a move to a new path state so. *)
Definition Rename (src dst : string) : M (errno + unit) :=
  perform (sys_rename src dst) (λ t,
    match t !! src with
    | None => (inl ENOENT, t)
    | Some n =>
        match t !! dst, n with
        | Some Dir, _ => (inl EEXIST, t)
        | Some _, Dir => (inl ENOTDIR, t)
        | _, Dir => (inr tt, move_tree src dst t)
        | _, _ => (inr tt, <[dst := n]> (delete src t))
        end
    end).

(** os.Symlink fails on an existing path.  The directory of [link] is not
    looked at: it is taken to exist, and the properties of a link created
    at a free path state so. *)
Definition Symlink (target link : string) : M (errno + unit) :=
  perform (sys_symlink target link) (λ t,
    match t !! link with
    | Some _ => (inl EEXIST, t)
    | None => (inr tt, <[link := Symlink target]> t)
    end).

Definition Remove (p : string) : M (errno + unit) :=
  perform (sys_remove p) (λ t,
    match t !! p with
    | None => (inl ENOENT, t)
    | Some Dir =>
        match entries t p with
        | [] => (inr tt, delete p t)
        | _ => (inl ENOTEMPTY, t)
        end
    | Some _ => (inr tt, delete p t)
    end).

Definition RemoveAll (p : string) : M (errno + unit) :=
  perform (sys_removeall p) (λ t,
    (inr tt, filter (λ kn : string * node, inside p kn.1 = false) t)).

(** Creating the missing directories of [ps] in order; what was created
    before a failure stays. *)
Fixpoint mkdir_prefixes (ps : list string) (t : gmap string node)
  : (errno + unit) * gmap string node :=
  match ps with
  | [] => (inr tt, t)
  | q :: ps' =>
      match t !! q with
      | None => mkdir_prefixes ps' (<[q := Dir]> t)
      | Some _ =>
          match resolve max_links t q with
          | inr (_, Dir) => mkdir_prefixes ps' t
          | _ => (inl ENOTDIR, t)
          end
      end
  end.

Definition MkdirAll (p : string) : M (errno + unit) :=
  perform (sys_mkdirall p) (mkdir_prefixes (filepath.prefixes p)).

(** An open file is named by the path its name resolved to. *)
Definition Open (p : string) : M (errno + string) :=
  observe (sys_open p) (λ t,
    match resolve max_links t p with inr (q, _) => inr q | inl e => inl e end).

(** the Stat method of an open file *)
Definition FStat (h : string) : M (errno + node) :=
  observe (sys_fstat h) (λ t,
    match t !! h with Some n => inr n | None => inl ENOENT end).

(** os.OpenFile with O_RDWR, O_CREATE and O_TRUNC: an existing regular file
    is emptied, a missing one is created. *)
Definition OpenTrunc (p : string) : M (errno + string) :=
  perform (sys_opentrunc p) (λ t,
    match t !! p with
    | None => (inr p, <[p := File EmptyString]> t)
    | Some _ =>
        match resolve max_links t p with
        | inr (q, File _) => (inr q, <[q := File EmptyString]> t)
        | inr (_, Dir) => (inl EISDIR, t)
        | inr (_, _) => (inl EINVAL, t)
        | inl e => (inl e, t)
        end
    end).

(** io.Copy(dst, src): the number of bytes written. *)
Definition IoCopy (src dst : string) : M (errno + nat) :=
  perform (sys_iocopy src dst) (λ t,
    match t !! src with
    | Some (File d) =>
        let d' := match iocopy_short E dst with
                  | Some n => String.substring 0 n d
                  | None => d
                  end in
        (inr (String.length d'), <[dst := File d']> t)
    | Some Dir => (inl EISDIR, t)
    | _ => (inl EIO, t)
    end).

(** the Sync method of an open file *)
Definition Sync (h : string) : M (errno + unit) :=
  observe (sys_fsync h) (λ _, inr tt).

(** Permission bits are not part of the tree. *)
Definition Chmod (p : string) : M (errno + unit) :=
  perform (sys_chmod p) (λ t,
    match t !! p with Some _ => (inr tt, t) | None => (inl ENOENT, t) end).

End os.
End os.

(** The COM automation calls of shortcut_windows.go; only Save writes. *)
Module ole.
Section ole.
Context (E : Env).

Definition call (c : syscall) : M (errno + unit) :=
  os.observe E c (λ _, inr tt).

(** Save writes the artifact.  The directory of [lnk] is not looked at: it
    is taken to exist, which createShortcutWindows ensures for a name
    without a separator. *)
Definition Save (lnk target : string) : M (errno + unit) :=
  os.perform E (com_save lnk) (λ t,
    match t !! lnk with
    | Some Dir => (inl EISDIR, t)
    | _ => (inr tt, <[lnk := File (lnk_bytes target)]> t)
    end).

End ole.
End ole.

(** The registry file beside the executable. *)
Module storage.
Section storage.
Context (E : Env).

Definition Stat : M (errno + node) :=
  λ w, let r := match fault E cfg_stat with
                | Some e => inl e
                | None => match disk w with
                          | Some d => inr (File d)
                          | None => inl ENOENT
                          end
                end in
       (r, w, [Sys cfg_stat (errno_of r)]).

Definition MkdirAll : M (errno + unit) :=
  λ w, let r := match fault E cfg_mkdirall with
                | Some e => inl e
                | None => inr tt
                end in
       (r, w, [Sys cfg_mkdirall (errno_of r)]).

Definition ReadFile : M (errno + string) :=
  λ w, let r := match fault E cfg_readfile with
                | Some e => inl e
                | None => match disk w with
                          | Some d => inr d
                          | None => inl ENOENT
                          end
                end in
       (r, w, [Sys cfg_readfile (errno_of r)]).

(** os.WriteFile rewrites the whole file. *)
Definition WriteFile (data : string) : M (errno + unit) :=
  λ w, match fault E (cfg_writefile data) with
       | Some e => (inl e, w, [Sys (cfg_writefile data) (Some e)])
       | None => (inr tt, set_disk (Some data) w, [Sys (cfg_writefile data) None])
       end.

End storage.
End storage.

(* ===================================================================== *)
(** ** Package internal/util *)
(* ===================================================================== *)

Module util.
Section util.
Context (E : Env).

(** PathExists, on the outcome of os.Stat: found, not found (ENOENT), or an
    error of another kind. *)
Definition PathExists_of (st : M (errno + node)) : M (bool * option error) :=
  let! r := st in
  ret (match r with
       | inr _ => (true, None)
       | inl ENOENT => (false, None)
       | inl e => (false, Some (Wrap MPathCheck (Errno e)))
       end).

Definition PathExists (path : string) : M (bool * option error) :=
  PathExists_of (os.Stat E path).

Definition IsDir (path : string) : M (bool * option error) :=
  let! r := os.Stat E path in
  ret (match r with
       | inr info => (is_dir info, None)
       | inl ENOENT => (false, None)
       | inl e => (false, Some (Wrap MStatInfo (Errno e)))
       end).

Definition IsFile (path : string) : M (bool * option error) :=
  let! r := os.Stat E path in
  ret (match r with
       | inr info => (is_regular info, None)
       | inl ENOENT => (false, None)
       | inl e => (false, Some (Wrap MStatInfo (Errno e)))
       end).

Definition IsSymlink (path : string) : M (bool * option error) :=
  let! r := os.Lstat E path in
  ret (match r with
       | inr info => (is_symlink info, None)
       | inl ENOENT => (false, None)
       | inl e => (false, Some (Wrap MLstatInfo (Errno e)))
       end).

Definition EnsureDirExists_of (mk : M (errno + unit)) : M (option error) :=
  let! r := mk in
  ret (match r with
       | inl e => Some (Wrap MMkdir (Errno e))
       | inr _ => None
       end).

Definition EnsureDirExists (dirPath : string) : M (option error) :=
  EnsureDirExists_of (os.MkdirAll E dirPath).

Definition CopyFile (src dst : string) : M (option error) :=
  let dstDir := filepath.Dir dst in
  let! err := EnsureDirExists dstDir in
  match err with
  | Some e => ret (Some (Wrap MCopyMkDstDir e))
  | None =>
  let! r := os.Open E src in
  match r with
  | inl e => ret (Some (Wrap MCopyOpenSrc (Errno e)))
  | inr sourceFile =>
  let! r := os.FStat E sourceFile in
  match r with
  | inl e => ret (Some (Wrap MCopyStatSrc (Errno e)))
  | inr sourceInfo =>
  let! r := os.OpenTrunc E dst in
  match r with
  | inl e => ret (Some (Wrap MCopyCreateDst (Errno e)))
  | inr destFile =>
  let! r := os.IoCopy E sourceFile destFile in
  match r with
  | inl e => ret (Some (Wrap MCopyContent (Errno e)))
  | inr bytesCopied =>
  if negb (bytesCopied =? file_size sourceInfo)%nat
  then
    let! _ := os.Remove E dst in
    ret (Some (New MCopySizeMismatch))
  else
    let! r := os.Sync E destFile in
    (match r with inl _ => emit (Warn WSyncFailed) | inr _ => ret tt end) ;;;
    let! r := os.Chmod E dst in
    (match r with inl _ => emit (Warn WChmodFailed) | inr _ => ret tt end) ;;;
    ret None
  end end end end end.

(** The callback of filepath.WalkDir in CopyDir, run over the entries below
    [src].  The order in which WalkDir meets them is left to the map: the
    callback creates the directories an entry needs by itself. *)
Fixpoint walk (src dst : string) (todo : list (string * node))
  : M (option error) :=
  match todo with
  | [] => ret None
  | (path, d) :: rest =>
      let targetPath := filepath.rebase src dst path in
      let! err :=
        (if is_dir d
         then
           let! r := os.Lstat E path in
           match r with
           | inl e => ret (Some (Wrap MCopyDirInfo (Errno e)))
           | inr _ =>
               let! r := os.MkdirAll E targetPath in
               match r with
               | inl e => ret (Some (Wrap MCopyDirMkSub (Errno e)))
               | inr _ =>
                   let! r := os.ReadDir E path in
                   match r with
                   | inl e => ret (Some (Wrap MCopyDirWalk (Errno e)))
                   | inr _ => ret None
                   end
               end
           end
         else if is_regular d
         then CopyFile path targetPath
         else emit (Skipped path) ;;; ret None) in
      match err with
      | Some e => ret (Some e)
      | None => walk src dst rest
      end
  end.

Definition CopyDir (src dst : string) : M (option error) :=
  let src := clean E src in
  let dst := clean E dst in
  let! r := os.Stat E src in
  match r with
  | inl e => ret (Some (Wrap MCopyDirStat (Errno e)))
  | inr srcInfo =>
  if negb (is_dir srcInfo) then ret (Some (New MCopyDirNotDir)) else
  let! r := os.MkdirAll E dst in
  match r with
  | inl e => ret (Some (Wrap MCopyDirMkRoot (Errno e)))
  | inr _ =>
  let! r := os.ReadDir E src in
  match r with
  | inl e => ret (Some (Wrap MCopyDirFailed (Wrap MCopyDirWalk (Errno e))))
  | inr _ =>
  let! w := get_world in
  let! err := walk src dst
                (List.filter (λ kn : string * node, filepath.under src kn.1)
                   (map_to_list (fs w))) in
  match err with
  | Some e => ret (Some (Wrap MCopyDirFailed e))
  | None => ret None
  end end end end.

Definition is_cross_device (e : errno) : bool :=
  bool_decide (e = EXDEV) || bool_decide (e = ERROR_NOT_SAME_DEVICE).

Definition MoveFileOrDir (src dst : string) : M (option error) :=
  let! r := os.Rename E src dst in
  match r with
  | inr _ => ret None
  | inl err =>
  let isCrossDevice := is_cross_device err in
  if negb isCrossDevice then ret (Some (Wrap MMove (Errno err))) else
  let! (isDir, err) := IsDir src in
  match err with
  | Some e => ret (Some (Wrap MMoveSrcType e))
  | None =>
  let! err :=
    (if isDir
     then let! err := CopyDir src dst in
          ret (match err with Some e => Some (Wrap MMoveCopyDir e) | None => None end)
     else let! err := CopyFile src dst in
          ret (match err with Some e => Some (Wrap MMoveCopyFile e) | None => None end)) in
  match err with
  | Some e => ret (Some e)
  | None =>
  let! r := os.RemoveAll E src in
  match r with
  | inl e => ret (Some (Wrap MMoveRemoveSrc (Errno e)))
  | inr _ => ret None
  end end end end.

Definition GetAbsPath (p : string) : string * option error :=
  if is_abs E p then (clean E p, None)
  else match filepath.Abs E p with
       | inr absPath => (absPath, None)
       | inl e => (EmptyString, Some (Wrap MAbs (Errno e)))
       end.

End util.
End util.

(* ===================================================================== *)
(** ** Package internal/config *)
(* ===================================================================== *)

Module config.
Section config.
Context (E : Env).

Definition zeroLinkInfo : LinkInfo := mkLinkInfo false EmptyString EmptyString 0.

Definition getConfigPath : string * option error :=
  if decide (configPath E = EmptyString)
  then (EmptyString, Some (New MCfgPathUnknown))
  else (configPath E, None).

(** saveConfigInternal: the file at [path] is the registry cell. *)
Definition saveConfigInternal (path : string) (cfg : Config) : M (option error) :=
  let! err := util.EnsureDirExists_of (storage.MkdirAll E) in
  match err with
  | Some e => ret (Some (Wrap MSaveMkdir e))
  | None =>
  match json_marshal E cfg with
  | None => ret (Some (New MSaveMarshal))
  | Some data =>
  let! r := storage.WriteFile E data in
  match r with
  | inl e => ret (Some (Wrap MSaveWrite (Errno e)))
  | inr _ => ret None
  end end end.

(** The function LoadConfig hands to once.Do; its result is loadErr. *)
Definition loadOnce : M (option error) :=
  let (cfgPath, err) := getConfigPath in
  match err with
  | Some e => ret (Some (Wrap MLoadPath e))
  | None =>
  let! (exists_, err) := util.PathExists_of (storage.Stat E) in
  match err with
  | Some e => ret (Some (Wrap MLoadExists e))
  | None =>
  if negb exists_
  then
    let defaultConfig := mkConfig (mkSettings EmptyString) ∅ CurrentVersion in
    let! err := util.EnsureDirExists_of (storage.MkdirAll E) in
    match err with
    | Some e => ret (Some (Wrap MLoadMkdir e))
    | None =>
    let! err := saveConfigInternal cfgPath defaultConfig in
    match err with
    | Some e => ret (Some (Wrap MLoadSaveDefault e))
    | None =>
        modify (set_configInstance (Some defaultConfig)) ;;; ret None
    end end
  else
    let! r := storage.ReadFile E in
    match r with
    | inl e => ret (Some (Wrap MLoadRead (Errno e)))
    | inr data =>
    if (String.length data =? 0)%nat
    then
      emit (Warn WConfigEmpty) ;;;
      let blank := mkConfig (mkSettings EmptyString) ∅ EmptyString in
      modify (set_configInstance (Some blank)) ;;;
      match json_unmarshal E data blank with
      | None =>
          if negb (String.eqb data "{}") && negb (String.eqb data "null")
          then modify (set_configInstance None) ;;;
               ret (Some (New MLoadParseEmpty))
          else ret None
      | Some c => modify (set_configInstance (Some c)) ;;; ret None
      end
    else
      match json_unmarshal E data (mkConfig (mkSettings EmptyString) ∅ EmptyString) with
      | None => ret (Some (New MLoadParse))
      | Some cfg =>
          let! cfg :=
            (if negb (String.eqb (Version cfg) CurrentVersion)
             then emit (Warn WVersionMismatch) ;;;
                  ret (set_Version CurrentVersion cfg)
             else ret cfg) in
          modify (set_configInstance (Some cfg)) ;;; ret None
      end
    end
  end end.

Definition LoadConfig : M (option Config * option error) :=
  let! w := get_world in
  let! loadErr :=
    (if once w then ret None else modify (set_once true) ;;; loadOnce) in
  match loadErr with
  | Some e => ret (None, Some e)
  | None =>
  let! w := get_world in
  match configInstance w with
  | None => ret (None, Some (New MLoadNil))
  | Some c => ret (Some c, None)
  end end.

Definition GetConfig : M (option Config * option error) :=
  let! w := get_world in
  match configInstance w with
  | Some c => ret (Some c, None)
  | None =>
  let! (_, err) := LoadConfig in
  match err with
  | Some e => ret (None, Some e)
  | None =>
  let! w := get_world in
  match configInstance w with
  | None => ret (None, Some (New MGetConfigNil))
  | Some c => ret (Some c, None)
  end end end.

Definition SaveConfig : M (option error) :=
  let! w := get_world in
  match configInstance w with
  | None => ret (Some (New MSaveNotLoaded))
  | Some c =>
  let (cfgPath, err) := getConfigPath in
  match err with
  | Some e => ret (Some (Wrap MSavePath e))
  | None =>
      modify (set_configInstance (Some (set_Version CurrentVersion c))) ;;;
      saveConfigInternal cfgPath (set_Version CurrentVersion c)
  end end.

(** The methods of Config.  Their receiver is the pointer GetConfig
    returned, that is configInstance, so they act on that package variable. *)
Definition update (f : Config → Config) : M unit :=
  modify (λ w, set_configInstance (f <$> configInstance w) w).

Definition GetSettings : M Settings :=
  let! w := get_world in
  ret (match configInstance w with
       | Some c => CfgSettings c
       | None => mkSettings EmptyString
       end).

Definition GetDefaultSyncPath : M (string * option error) :=
  let! s := GetSettings in
  if decide (DefaultSyncPath s = EmptyString)
  then ret (EmptyString, Some (New MSyncPathUnset))
  else ret (DefaultSyncPath s, None).

Definition SetDefaultSyncPath (newPath : string) : M (option error) :=
  let (absPath, err) := util.GetAbsPath E newPath in
  match err with
  | Some e => ret (Some (Wrap MInvalidPath e))
  | None => update (set_DefaultSyncPath absPath) ;;; SaveConfig
  end.

Definition GetLinks : M (gmap string LinkInfo) :=
  let! w := get_world in
  ret (match configInstance w with Some c => Links c | None => ∅ end).

Definition GetLink (name : string) : M (LinkInfo * bool) :=
  let! links := GetLinks in
  ret (match links !! name with
       | Some info => (info, true)
       | None => (zeroLinkInfo, false)
       end).

Definition AddLink (name : string) (info : LinkInfo) : M (option error) :=
  update (λ c, set_Links (<[name := info]> (Links c)) c) ;;;
  SaveConfig.

Definition RemoveLink (name : string) : M (bool * option error) :=
  let! links := GetLinks in
  let existed := bool_decide (is_Some (links !! name)) in
  (if existed
   then update (λ c, set_Links (delete name (Links c)) c)
   else ret tt) ;;;
  if existed
  then
    let! err := SaveConfig in
    match err with
    | Some e => ret (true, Some (Wrap MRemovedButNotSaved e))
    | None => ret (true, None)
    end
  else ret (false, None).

End config.
End config.

(* ===================================================================== *)
(** ** Package internal/link *)
(* ===================================================================== *)

Module link.
Section link.
Context (E : Env).

(** *** link.go *)

Definition CreateSymbolicLink (targetPath linkName syncDir : string)
  : M (option error) :=
  let! (_, err) := config.GetConfig E in
  match err with
  | Some e => ret (Some e)
  | None =>
  let (absTargetPath, err) := util.GetAbsPath E targetPath in
  match err with
  | Some e => ret (Some e)
  | None =>
  let! (exists_, err) := util.PathExists E absTargetPath in
  match err with
  | Some e => ret (Some e)
  | None =>
  if negb exists_ then ret (Some (New MTargetMissing)) else
  let! (_, exists_) := config.GetLink linkName in
  if exists_ then ret (Some (New MNameExists)) else
  let! (isDir, _) := util.IsDir E absTargetPath in
  let! (isFile, _) := util.IsFile E absTargetPath in
  (* the synced path *)
  let! r :=
    (if isFile
     then
       let filesDir := filepath.Join syncDir "files" in
       let! err := util.EnsureDirExists E filesDir in
       match err with
       | Some e => ret (inl e)
       | None => ret (inr (filepath.Join filesDir linkName))
       end
     else if isDir
     then
       let syncedPath := filepath.Join syncDir linkName in
       let! (syncPathExists, _) := util.PathExists E syncedPath in
       if syncPathExists then ret (inl (New MSyncTargetExists)) else
       let! err := util.EnsureDirExists E (filepath.Dir syncedPath) in
       match err with
       | Some e => ret (inl (Wrap MMkSyncParent e))
       | None => ret (inr syncedPath)
       end
     else ret (inl (New MUnsupportedTarget))) in
  match r with
  | inl e => ret (Some e)
  | inr syncedPath =>
  (* move and link *)
  let! err := util.MoveFileOrDir E absTargetPath syncedPath in
  match err with
  | Some e => ret (Some (Wrap MMoveToSync e))
  | None =>
  let! r := os.Symlink E syncedPath absTargetPath in
  match r with
  | inl e =>
      let! errMoveBack := util.MoveFileOrDir E syncedPath absTargetPath in
      (match errMoveBack with
       | Some _ => emit (Warn WRollbackFailed)
       | None => ret tt
       end) ;;;
      ret (Some (Wrap MCreateSymlink (Errno e)))
  | inr _ =>
  (* record *)
  let linkInfo := mkLinkInfo false absTargetPath syncedPath (now E) in
  let! err := config.AddLink E linkName linkInfo in
  match err with
  | Some e =>
      emit (Warn WLinkedButNotSaved) ;;;
      ret (Some (Wrap MLinkedButNotSaved e))
  | None => ret None
  end end end end end end end.

Definition RemoveSymbolicLink (linkName : string) : M (option error) :=
  let! (_, err) := config.GetConfig E in
  match err with
  | Some e => ret (Some (Wrap MLoadConfig e))
  | None =>
  let! (linkInfo, exists_) := config.GetLink linkName in
  if negb exists_ then ret (Some (New MLinkNotFound)) else
  if Shortcut linkInfo then ret (Some (New MIsShortcut)) else
  if bool_decide (OriginalPath linkInfo = EmptyString)
     || bool_decide (SyncedPath linkInfo = EmptyString)
  then ret (Some (New MIncomplete)) else
  (* state *)
  let! (originalExists, _) := util.PathExists E (OriginalPath linkInfo) in
  let! isSymlink :=
    (if originalExists
     then
       let! (isSymlink, _) := util.IsSymlink E (OriginalPath linkInfo) in
       (if negb isSymlink
        then emit (Warn WNotASymlink)
        else
          let! r := os.Readlink E (OriginalPath linkInfo) in
          match r with
          | inr currentTarget =>
              if negb (String.eqb currentTarget (SyncedPath linkInfo))
              then emit (Warn WTargetMismatch) else ret tt
          | inl _ => ret tt
          end) ;;;
       ret isSymlink
     else ret false) in
  let! (syncedExists, _) := util.PathExists E (SyncedPath linkInfo) in
  (if negb syncedExists then emit (Warn WSyncedMissing) else ret tt) ;;;
  (* remove and move *)
  let! stop :=
    (if isSymlink
     then
       let! r := os.Remove E (OriginalPath linkInfo) in
       match r with
       | inl e => ret (Some (Wrap MRemoveSymlink (Errno e)))
       | inr _ => ret None
       end
     else if originalExists
     then
       let! r := os.Stat E (OriginalPath linkInfo) in
       let! isEmpty :=
         match r with
         | inr info =>
             if is_dir info
             then
               let! r := os.ReadDir E (OriginalPath linkInfo) in
               ret (match r with
                    | inr C => (List.length C =? 0)%nat
                    | inl _ => false
                    end)
             else ret (file_size info =? 0)%nat
         | inl _ => ret true
         end in
       if negb isEmpty
       then
         let! (_, removeErr) := config.RemoveLink E linkName in
         match removeErr with
         | Some _ => ret (Some (New MConflictUnsaved))
         | None => ret (Some (New MConflictRecordRemoved))
         end
       else ret None
     else ret None) in
  match stop with
  | Some e => ret (Some e)
  | None =>
  let! stop :=
    (if syncedExists
     then
       let! err := util.MoveFileOrDir E (SyncedPath linkInfo) (OriginalPath linkInfo) in
       match err with
       | Some e => ret (Some (Wrap MMoveBack e))
       | None => ret None
       end
     else emit (Warn WSkipMoveBack) ;;; ret None) in
  match stop with
  | Some e => ret (Some e)
  | None =>
  (* registry *)
  let! (removed, err) := config.RemoveLink E linkName in
  match err with
  | Some e => ret (Some (Wrap MDoneButNotUnregistered e))
  | None =>
      (if negb removed then emit (Warn WAlreadyUnregistered) else ret tt) ;;;
      ret None
  end end end end.

Definition RelinkSymbolicLink (linkName : string) : M (option error) :=
  let! (_, err) := config.GetConfig E in
  match err with
  | Some e => ret (Some (Wrap MLoadConfig e))
  | None =>
  let! (linkInfo, exists_) := config.GetLink linkName in
  if negb exists_ then ret (Some (New MLinkNotFound)) else
  if Shortcut linkInfo then ret (Some (New MIsShortcut)) else
  if bool_decide (OriginalPath linkInfo = EmptyString)
     || bool_decide (SyncedPath linkInfo = EmptyString)
  then ret (Some (New MIncomplete)) else
  (* state: an error, nothing to do, or a link to create *)
  let! (originalExists, _) := util.PathExists E (OriginalPath linkInfo) in
  let! r :=
    (if negb originalExists then ret (inr true)
     else
       let! (isSymlink, _) := util.IsSymlink E (OriginalPath linkInfo) in
       if negb isSymlink then ret (inl (Some (New MRelinkConflict)))
       else
         let! r := os.Readlink E (OriginalPath linkInfo) in
         match r with
         | inl _ =>
             emit (Warn WUnreadableLink) ;;;
             let! r := os.Remove E (OriginalPath linkInfo) in
             match r with
             | inl e => ret (inl (Some (Wrap MRemoveBroken (Errno e))))
             | inr _ => ret (inr true)
             end
         | inr currentTarget =>
             if negb (String.eqb currentTarget (SyncedPath linkInfo))
             then
               let! r := os.Remove E (OriginalPath linkInfo) in
               match r with
               | inl e => ret (inl (Some (Wrap MRemoveWrong (Errno e))))
               | inr _ => ret (inr true)
               end
             else ret (inl None)
         end) in
  match r with
  | inl early => ret early
  | inr needsRelink =>
  if needsRelink
  then
    let! (syncedExists, _) := util.PathExists E (SyncedPath linkInfo) in
    if negb syncedExists then ret (Some (New MSyncedMissing)) else
    let! r := os.Symlink E (SyncedPath linkInfo) (OriginalPath linkInfo) in
    match r with
    | inl e => ret (Some (Wrap MRecreate (Errno e)))
    | inr _ => ret None
    end
  else ret None
  end end.

(** *** shortcut_windows.go *)

Definition to_lower (s : string) : string :=
  string_of_list_ascii
    (List.map (λ c, let n := nat_of_ascii c in
                    if (65 <=? n)%nat && (n <=? 90)%nat
                    then ascii_of_nat (n + 32) else c)
       (list_ascii_of_string s)).

Definition has_suffix (s suffix : string) : bool :=
  (String.length suffix <=? String.length s)%nat
  && String.eqb
       (String.substring (String.length s - String.length suffix)
          (String.length suffix) s)
       suffix.

Definition getStartMenuProgramsPathWindows : M (string * option error) :=
  let appData := getenv E "APPDATA" in
  let! r :=
    (if decide (appData = EmptyString)
     then
       let userProfile := getenv E "USERPROFILE" in
       if decide (userProfile = EmptyString) then ret (inl (New MNoAppData))
       else
         emit (Warn WNoAppData) ;;;
         ret (inr (filepath.Join (filepath.Join userProfile "AppData") "Roaming"))
     else ret (inr appData)) in
  match r with
  | inl e => ret (EmptyString, Some e)
  | inr appData =>
      ret (filepath.Join
             (filepath.Join
                (filepath.Join (filepath.Join appData "Microsoft") "Windows")
                "Start Menu")
             "Programs", None)
  end.

Definition createShortcutWindows (targetPath linkName startMenuPathBase : string)
  : M (string * option error) :=
  let shortcutFilePath := filepath.Join startMenuPathBase (linkName +:+ ".lnk") in
  match filepath.Abs E targetPath with
  | inl e => ret (EmptyString, Some (Wrap MLnkAbs (Errno e)))
  | inr targetPath =>
  let! err := util.EnsureDirExists E startMenuPathBase in
  match err with
  | Some e => ret (EmptyString, Some e)
  | None =>
  let! r := ole.call E com_initialize in
  match (match r with
         | inl S_FALSE => None
         | inl e => Some e
         | inr _ => None
         end) with
  | Some e => ret (EmptyString, Some (Wrap MComInit (Errno e)))
  | None =>
  let! r := ole.call E com_create_object in
  match r with
  | inl e => ret (EmptyString, Some (Wrap MComObject (Errno e)))
  | inr _ =>
  let! r := ole.call E com_query_interface in
  match r with
  | inl e => ret (EmptyString, Some (Wrap MComDispatch (Errno e)))
  | inr _ =>
  let! r := ole.call E (com_create_shortcut shortcutFilePath) in
  match r with
  | inl e => ret (EmptyString, Some (Wrap MComCreate (Errno e)))
  | inr _ =>
  let! r := ole.call E com_to_dispatch in
  match r with
  | inl _ => ret (EmptyString, Some (New MComNoDispatch))
  | inr _ =>
  let! r := ole.call E (com_put_target shortcutFilePath targetPath) in
  match r with
  | inl e => ret (EmptyString, Some (Wrap MLnkTarget (Errno e)))
  | inr _ =>
  let workingDir := filepath.Dir targetPath in
  let! r := ole.call E (com_put_workdir shortcutFilePath workingDir) in
  (match r with inl _ => emit (Warn WWorkdir) | inr _ => ret tt end) ;;;
  let! r := ole.call E (com_put_description shortcutFilePath) in
  (match r with inl _ => emit (Warn WDescription) | inr _ => ret tt end) ;;;
  let! (isExe, _) := util.IsFile E targetPath in
  let isExe := has_suffix (to_lower targetPath) ".exe" && isExe in
  (if isExe
   then
     let! r := ole.call E (com_put_icon shortcutFilePath) in
     match r with inl _ => emit (Warn WIcon) | inr _ => ret tt end
   else ret tt) ;;;
  let! r := ole.Save E shortcutFilePath targetPath in
  match r with
  | inl e => ret (EmptyString, Some (Wrap MLnkSave (Errno e)))
  | inr _ => ret (shortcutFilePath, None)
  end end end end end end end end end.

Definition removeShortcutWindows (linkName startMenuPathBase : string)
    (linkInfo : LinkInfo) : M (option error) :=
  let shortcutFilePath := filepath.Join startMenuPathBase (linkName +:+ ".lnk") in
  let! (exists_, err) := util.PathExists E shortcutFilePath in
  match err with
  | Some e => ret (Some e)
  | None =>
  if negb exists_ then ret None else
  let! r := os.Remove E shortcutFilePath in
  match r with
  | inl e => ret (Some (Wrap MLnkRemove (Errno e)))
  | inr _ => ret None
  end end.

Definition relinkShortcutWindows (linkName startMenuPathBase : string)
    (linkInfo : LinkInfo) : M (option error) :=
  let! err := removeShortcutWindows linkName startMenuPathBase linkInfo in
  (match err with Some _ => emit (Warn WRelinkRemoveOld) | None => ret tt end) ;;;
  let! (_, err) := createShortcutWindows (OriginalPath linkInfo) linkName
                     startMenuPathBase in
  match err with
  | Some e => ret (Some (Wrap MLnkRecreate e))
  | None => ret None
  end.

(** The delegate variables: set by the init of shortcut_windows.go, nil in
    a build without that file. *)
Definition CreateShortcutDelegate :=
  if windows E then Some createShortcutWindows else None.
Definition RemoveShortcutDelegate :=
  if windows E then Some removeShortcutWindows else None.
Definition RelinkShortcutDelegate :=
  if windows E then Some relinkShortcutWindows else None.
Definition GetStartMenuProgramsPathDelegate :=
  if windows E then Some getStartMenuProgramsPathWindows else None.

(** *** link.go, the dispatching functions *)

Definition CreateLinkOrShortcut (targetPath linkName syncPathBase : string)
    (isShortcut : bool) : M (option error) :=
  if isShortcut
  then
    match CreateShortcutDelegate, GetStartMenuProgramsPathDelegate with
    | Some createShortcut, Some getStartMenu =>
    let! (startMenuPath, err) := getStartMenu in
    match err with
    | Some e => ret (Some (Wrap MStartMenu e))
    | None =>
    let (absTargetPath, err) := util.GetAbsPath E targetPath in
    match err with
    | Some e => ret (Some (Wrap MShortcutAbs e))
    | None =>
    let! (exists_, err) := util.PathExists E absTargetPath in
    match err with
    | Some e => ret (Some (Wrap MShortcutCheck e))
    | None =>
    if negb exists_ then ret (Some (New MShortcutTargetMissing)) else
    let! (shortcutFilePath, err) := createShortcut absTargetPath linkName startMenuPath in
    match err with
    | Some e => ret (Some e)
    | None =>
    let! (_, err) := config.GetConfig E in
    match err with
    | Some e =>
        emit (Warn WShortcutConfig) ;;;
        ret (Some (Wrap MShortcutConfig e))
    | None =>
    let linkInfo := mkLinkInfo true absTargetPath shortcutFilePath (now E) in
    let! err := config.AddLink E linkName linkInfo in
    match err with
    | Some e =>
        emit (Warn WShortcutNotSaved) ;;;
        let! r := os.Remove E shortcutFilePath in
        (match r with
         | inl _ => emit (Warn WShortcutCleanupFailed)
         | inr _ => ret tt
         end) ;;;
        ret (Some (Wrap MShortcutNotSaved e))
    | None => ret None
    end end end end end end
    | _, _ => ret (Some (New MShortcutUnsupported))
    end
  else
    let! err := CreateSymbolicLink targetPath linkName syncPathBase in
    match err with
    | Some e => ret (Some e)
    | None => ret None
    end.

Definition RemoveLinkOrShortcut (linkName : string) : M (option error) :=
  let! (_, err) := config.GetConfig E in
  match err with
  | Some e => ret (Some (Wrap MLoadConfig e))
  | None =>
  let! (linkInfo, exists_) := config.GetLink linkName in
  if negb exists_ then ret (Some (New MLinkNotFound)) else
  if Shortcut linkInfo
  then
    let! removalErr :=
      match RemoveShortcutDelegate, GetStartMenuProgramsPathDelegate with
      | Some removeShortcut, Some getStartMenu =>
          let! (startMenuPath, pathErr) := getStartMenu in
          match pathErr with
          | Some _ => emit (Warn WNoStartMenu) ;;; ret None
          | None =>
              let! removalErr := removeShortcut linkName startMenuPath linkInfo in
              (match removalErr with
               | Some _ => emit (Warn WShortcutRemoveFailed)
               | None => ret tt
               end) ;;;
              ret removalErr
          end
      | _, _ => ret (Some (New MUnlinkUnsupported))
      end in
    let! (removed, configErr) := config.RemoveLink E linkName in
    match configErr with
    | Some ce =>
        match removalErr with
        | Some _ => ret (Some (Wrap MUnlinkBoth ce))
        | None => ret (Some (Wrap MUnlinkConfig ce))
        end
    | None =>
        (if negb removed && bool_decide (removalErr = None :> option error)
         then emit (Warn WUnlinkAlreadyUnregistered) else ret tt) ;;;
        match removalErr with
        | Some re => ret (Some (Wrap MUnlinkFile re))
        | None => ret None
        end
    end
  else
    let! removalErr := RemoveSymbolicLink linkName in
    match removalErr with
    | Some e => ret (Some (Wrap MRemoveSymbolic e))
    | None => ret None
    end
  end.

Definition RelinkLinkOrShortcut (linkName : string) : M (option error) :=
  let! (_, err) := config.GetConfig E in
  match err with
  | Some e => ret (Some (Wrap MLoadConfig e))
  | None =>
  let! (linkInfo, exists_) := config.GetLink linkName in
  if negb exists_ then ret (Some (New MLinkNotFound)) else
  if Shortcut linkInfo
  then
    match RelinkShortcutDelegate, GetStartMenuProgramsPathDelegate with
    | Some relinkShortcut, Some getStartMenu =>
        let! (startMenuPath, err) := getStartMenu in
        match err with
        | Some e => ret (Some (Wrap MRelinkStartMenu e))
        | None =>
            let! err := relinkShortcut linkName startMenuPath linkInfo in
            match err with
            | Some e => ret (Some (Wrap MRelinkShortcut e))
            | None => ret None
            end
        end
    | _, _ => ret (Some (New MRelinkUnsupported))
    end
  else
    let! err := RelinkSymbolicLink linkName in
    match err with
    | Some e => ret (Some (Wrap MRelinkSymbolic e))
    | None => ret None
    end
  end.

End link.
End link.

(** util.GetDefaultLinkName (internal/util/util.go), which the link command
    calls; it stands after package link because it shares ToLower and
    HasSuffix with shortcut_windows.go. *)
Definition GetDefaultLinkName (p : string) : string :=
  let name := filepath.Base p in
  let lowerName := link.to_lower name in
  if link.has_suffix lowerName ".exe"
  then String.substring 0 (String.length name - 4) name
  else name.

(* ===================================================================== *)
(** ** Package cmd: relink and unlink *)
(* ===================================================================== *)

Module cmd.
Section cmd.
Context (E : Env).

(** *** cmd/relink.go *)

Definition relinkSingleLink (name : string) : M (option error) :=
  let! (_, exists_) := config.GetLink name in
  if negb exists_ then ret (Some (New MNotManaged)) else
  let! err := link.RelinkLinkOrShortcut E name in
  match err with
  | Some e => ret (Some (Wrap MRelinkFailed e))
  | None => ret None
  end.

(** The variables the goroutines of relinkAllLinks share. *)
Record counters := mkCounters {
  lastErr : option error;
  successCount : nat;
  failureCount : nat;
}.

(** A goroutine first relinks and stores the outcome in the shared lastErr,
    outside the mutex; then, holding the mutex, it reads lastErr and
    counts.  A schedule lists these two steps of every goroutine in the
    order the runtime runs them. *)
Inductive step :=
| Relink (linkNameToRelink : string)
| Count (linkNameToRelink : string).

Definition run_step (s : step) (c : counters) : M counters :=
  match s with
  | Relink name =>
      let! err := link.RelinkLinkOrShortcut E name in
      ret (mkCounters err (successCount c) (failureCount c))
  | Count name =>
      match lastErr c with
      | Some e =>
          emit (LinkFailed name e) ;;;
          ret (mkCounters (lastErr c) (successCount c) (S (failureCount c)))
      | None =>
          emit (LinkDone name) ;;;
          ret (mkCounters (lastErr c) (S (successCount c)) (failureCount c))
      end
  end.

Fixpoint run_schedule (sched : list step) (c : counters) : M counters :=
  match sched with
  | [] => ret c
  | s :: rest => let! c := run_step s c in run_schedule rest c
  end.

(** One goroutine after the other. *)
Definition sequential (names : list string) : list step :=
  flat_map (λ name, [Relink name; Count name]) names.

(** A schedule of the goroutines started for [names]: every goroutine
    takes its two steps once, the relink before the count. *)
Definition schedule_of (names : list string) (sched : list step) : Prop :=
  sched ≡ₚ sequential names
  ∧ ∀ name i j, sched !! i = Some (Count name) →
                sched !! j = Some (Relink name) → j < i.

Definition relinkAllLinks (sched : list step) : M (option error) :=
  let! links := config.GetLinks in
  if (size links =? 0)%nat then ret None else
  let! c := run_schedule sched (mkCounters None 0 0) in
  emit (Tally (size links) (successCount c) (failureCount c)) ;;;
  ret None.

Definition runRelink (linkName : string) (sched : list step) : M (option error) :=
  let! (_, err) := config.GetConfig E in
  match err with
  | Some e => ret (Some e)
  | None =>
      if String.eqb linkName "*"
      then relinkAllLinks sched
      else relinkSingleLink linkName
  end.

(** *** cmd/unlink.go *)

(** The loop over allLinks, in the order the range statement yields the
    names; the pair is successCount and failCount. *)
Fixpoint unlinkLoop (names : list string) (successCount failCount : nat)
  : M (nat * nat) :=
  match names with
  | [] => ret (successCount, failCount)
  | name :: rest =>
      let! err := link.RemoveLinkOrShortcut E name in
      match err with
      | Some e =>
          emit (LinkFailed name e) ;;;
          unlinkLoop rest successCount failCount
      | None =>
          emit (LinkDone name) ;;;
          unlinkLoop rest (S successCount) failCount
      end
  end.

Definition unlinkRun (linkName : string) (order : list string) : M (option error) :=
  let! (_, err) := config.GetConfig E in
  match err with
  | Some e => ret (Some e)
  | None =>
  if String.eqb linkName "*"
  then
    let! allLinks := config.GetLinks in
    if (size allLinks =? 0)%nat then ret None else
    let! (successCount, failCount) := unlinkLoop order 0 0 in
    emit (Tally (size allLinks) successCount failCount) ;;;
    ret None
  else
    let! (_, exists_) := config.GetLink linkName in
    if negb exists_ then ret (Some (New MUnlinkNotFound)) else
    let! err := link.RemoveLinkOrShortcut E linkName in
    match err with
    | Some e => ret (Some e)
    | None => ret None
    end
  end.

(** *** cmd/link.go *)

(** The three refusals of runLinkCommand itself; every other error is
    handed on as the callee returned it. *)
Inductive link_refusal :=
| TargetPathMissing | LinkNameExists | SyncPathUnspecified.

(** cmd/link.go; the flags --name, --sync-path and --shortcut are the
    package variables linkName, syncPath and createShortcut. *)
Definition runLinkCommand (targetPath linkName syncPath : string)
    (createShortcut : bool) : M (option (link_refusal + error)) :=
  let! (_, err) := config.GetConfig E in
  match err with
  | Some e => ret (Some (inr e))
  | None =>
  let (targetPath, err) := util.GetAbsPath E targetPath in
  match err with
  | Some e => ret (Some (inr e))
  | None =>
  let! (exists_, err) := util.PathExists E targetPath in
  match err with
  | Some e => ret (Some (inr e))
  | None =>
  if negb exists_ then ret (Some (inl TargetPathMissing)) else
  let linkName :=
    if decide (linkName = EmptyString) then GetDefaultLinkName targetPath
    else linkName in
  let! (_, exists_) := config.GetLink linkName in
  if exists_ then ret (Some (inl LinkNameExists)) else
  let! r :=
    (if decide (syncPath = EmptyString)
     then
       let! settings := config.GetSettings in
       if decide (DefaultSyncPath settings = EmptyString)
       then ret (inl SyncPathUnspecified)
       else ret (inr (DefaultSyncPath settings))
     else ret (inr syncPath)) in
  match r with
  | inl refusal => ret (Some (inl refusal))
  | inr syncPathBase =>
  let! err := link.CreateLinkOrShortcut E targetPath linkName syncPathBase
                createShortcut in
  match err with
  | Some e => ret (Some (inr e))
  | None => ret None
  end end end end end.

End cmd.
End cmd.

(* ===================================================================== *)
(** * Vocabulary of the properties *)
(* ===================================================================== *)

(** A computation keeps the relation [R] between the world before and
    after, and emits only events that satisfy [P]. *)
Definition keeps (R : relation World) (P : event → Prop) {A} (m : M A) : Prop :=
  ∀ w, R w (world_of (m w)) ∧ Forall P (trace_of (m w)).



(** No constraint on the worlds. *)
Definition anyhow : relation World := λ _ _, True.

(** The registry (the loaded instance, the once flag and the file) is the
    same in both worlds. *)
Definition same_registry (w w' : World) : Prop :=
  configInstance w' = configInstance w ∧ disk w' = disk w ∧ once w' = once w.

(** The file tree is the same in both worlds. *)
Definition same_tree (w w' : World) : Prop := fs w' = fs w.

#[global] Instance anyhow_refl : Reflexive anyhow.
Proof. intros w. exact I. Qed.

#[global] Instance anyhow_trans : Transitive anyhow.
Proof. intros a b c _ _. exact I. Qed.

#[global] Instance same_registry_refl : Reflexive same_registry.
Proof. intros w. repeat split. Qed.

#[global] Instance same_registry_trans : Transitive same_registry.
Proof.
  intros a b c (H1 & H2 & H3) (H4 & H5 & H6).
  repeat split; congruence.
Qed.

#[global] Instance same_tree_refl : Reflexive same_tree.
Proof. intros w. reflexivity. Qed.

#[global] Instance same_tree_trans : Transitive same_tree.
Proof. intros a b c H1 H2. unfold same_tree in *. congruence. Qed.

(** What the functions of package util may emit. *)
Definition util_event (ev : event) : bool :=
  match ev with
  | Sys c _ =>
      match c with
      | sys_stat _ | sys_lstat _ | sys_readdir _ | sys_rename _ _
      | sys_remove _ | sys_removeall _ | sys_mkdirall _ | sys_open _
      | sys_fstat _ | sys_opentrunc _ | sys_iocopy _ _ | sys_fsync _
      | sys_chmod _ => true
      | _ => false
      end
  | Warn WSyncFailed | Warn WChmodFailed | Skipped _ => true
  | _ => false
  end.

(** What the copying half of package util may emit: everything of
    [util_event] but the rename and the recursive removal. *)
Definition copy_event (ev : event) : bool :=
  match ev with
  | Sys (sys_rename _ _) _ | Sys (sys_removeall _) _ => false
  | _ => util_event ev
  end.

(** What the registry functions of package config may emit. *)
Definition registry_event (ev : event) : bool :=
  match ev with
  | Sys c _ =>
      match c with
      | cfg_stat | cfg_mkdirall | cfg_readfile | cfg_writefile _ => true
      | _ => false
      end
  | Warn WConfigEmpty | Warn WVersionMismatch => true
  | _ => false
  end.

(** An event other than the rename attempt itself. *)
Definition beyond_rename (ev : event) : bool :=
  match ev with
  | Sys (sys_rename _ _) _ => false
  | _ => true
  end.



(** A trace without a call that may change the tree or the registry file. *)
Definition read_only (t : list event) : Prop :=
  Forall (λ ev, is_sys mutating ev = false) t.

(** The registry file holds the serialization of the loaded registry. *)
Definition persisted (E : Env) (w : World) : Prop :=
  ∃ c data, configInstance w = Some c ∧ json_marshal E c = Some data
            ∧ disk w = Some data.

(** What the engine finds at a path when it looks. *)
Definition path_exists (E : Env) (w : World) (p : string) : Prop :=
  result_of (util.PathExists E p w) = (true, None).

Definition not_symlink (E : Env) (w : World) (p : string) : Prop :=
  (result_of (util.IsSymlink E p w)).1 = false.



(** The redirect of a Symlink record is in place: the original path
    resolves, is a symbolic link, and the link reads as the synced path. *)
Definition redirect_correct (E : Env) (w : World) (li : LinkInfo) : Prop :=
  path_exists E w (OriginalPath li)
  ∧ result_of (util.IsSymlink E (OriginalPath li) w) = (true, None)
  ∧ result_of (os.Readlink E (OriginalPath li) w) = inr (SyncedPath li).



(** A shortcut creation that reports success saved the artifact. *)
Definition saved (lnk : string) (b : string * option error) (t : list event)
  : Prop :=
  b.2 = None → In (Sys (com_save lnk) None) t.


(** What is at [p] before is still at [p] after. *)
Definition untouched (p : string) : relation World :=
  λ w w', ∀ n, fs w !! p = Some n → fs w' !! p = Some n.

#[global] Instance untouched_refl p : Reflexive (untouched p).
Proof. intros w n H. exact H. Qed.

#[global] Instance untouched_trans p : Transitive (untouched p).
Proof. intros a b c H1 H2 n H. apply H2, H1, H. Qed.





(** The directory and all its ancestors exist. *)
Definition has_dirs (w : World) (dir : string) : Prop :=
  Forall (λ q, fs w !! q = Some Dir) (filepath.prefixes dir).

(** The system refuses no call. *)
Definition no_fault (E : Env) : Prop := ∀ c, fault E c = None.

(** The registry can always be serialized, and its path is known. *)
Definition can_save (E : Env) : Prop :=
  configPath E ≠ EmptyString ∧ ∀ c, is_Some (json_marshal E c).

(** The registry LoadConfig writes when there is no file. *)
Definition defaultConfig : Config :=
  mkConfig (mkSettings EmptyString) ∅ CurrentVersion.

(** The zero Config the decoder fills in. *)
Definition blankConfig : Config :=
  mkConfig (mkSettings EmptyString) ∅ EmptyString.

(** The world a new process starts in: the same files, nothing loaded. *)
Definition restart (w : World) : World := mkWorld (fs w) (disk w) None false.

(** No call but a rename is refused. *)
Definition only_renames_fail (E : Env) : Prop :=
  ∀ call, match call with sys_rename _ _ => False | _ => True end →
          fault E call = None.

(** The steps that count an outcome. *)
Definition is_count (s : cmd.step) : bool :=
  match s with cmd.Count _ => true | cmd.Relink _ => false end.


(** A single path element: not empty, without a separator, and neither of
    the two dot names, so that joining it to a directory names an entry of
    that directory. *)
Definition plain_name (name : string) : Prop :=
  name ≠ EmptyString ∧ name ≠ "." ∧ name ≠ ".."
  ∧ filepath.no_separator name = true.

(* ===================================================================== *)
(** * Example environments and worlds *)
(* ===================================================================== *)

(** A codec that, like encoding/json, rejects the empty input. *)
Definition stub_unmarshal (data : string) (into : Config) : option Config :=
  if String.eqb data EmptyString then None
  else if String.eqb data "{}" then Some into
  else if String.eqb data "null" then Some into
  else None.

Definition env_with (f : syscall → option errno) (win : bool) : Env :=
  {| fault := f;
     iocopy_short := λ _, None;
     is_abs := String.prefix "/";
     clean := λ p, p;
     abs_path := λ p, inr ("/cwd/" +:+ p);
     configPath := "/opt/synclink/config.json";
     json_marshal := λ _, Some "{registry}";
     json_unmarshal := stub_unmarshal;
     now := 7%Z;
     windows := win;
     getenv := λ k, if String.eqb k "APPDATA" then "/appdata" else EmptyString |}.

(** Nothing is refused. *)
Definition E0 : Env := env_with (λ _, None) true.


(** The target of cfg and its synced path lie on different devices. *)
Definition E_xdev : Env :=
  env_with (λ c, if decide (c = sys_rename "/home/u/app.conf" "/sync/files/cfg")
                 then Some EXDEV else None) true.

(** As [E_xdev], and the source cannot be removed after the copy. *)
Definition E_xdev_stuck : Env :=
  env_with (λ c, match c with
                 | sys_rename _ _ => Some EXDEV
                 | sys_removeall _ => Some EIO
                 | _ => None
                 end) true.

Definition cfg_record : LinkInfo :=
  mkLinkInfo false "/home/u/app.conf" "/sync/files/cfg" 7.

Definition note_record : LinkInfo :=
  mkLinkInfo false "/home/u/notes" "/sync/files/notes" 7.

Definition registry1 : Config :=
  mkConfig (mkSettings "/sync") {[ "cfg" := cfg_record ]} "1.0".

Definition tree_linked : gmap string node :=
  {[ "/home" := Dir; "/home/u" := Dir;
     "/home/u/app.conf" := Symlink "/sync/files/cfg";
     "/sync" := Dir; "/sync/files" := Dir;
     "/sync/files/cfg" := File "data";
     "/opt" := Dir; "/opt/tool.exe" := File "MZ" ]}.

(** The link cfg is registered and in place. *)
Definition w_linked : World :=
  mkWorld tree_linked (Some "{registry}") (Some registry1) true.

(** As [w_linked], but a regular file with content sits where the symbolic
    link was. *)
Definition w_conflict : World :=
  set_fs (<["/home/u/app.conf" := File "new data"]> tree_linked) w_linked.

Definition start_menu : string :=
  "/appdata/Microsoft/Windows/Start Menu/Programs".

Definition tool_record : LinkInfo :=
  mkLinkInfo true "/opt/tool.exe" (start_menu +:+ "/tool.lnk") 7.

Definition registry2 : Config :=
  mkConfig (mkSettings "/sync") {[ "tool" := tool_record ]} "1.0".

Definition tree_shortcut : gmap string node :=
  {[ "/opt" := Dir; "/opt/tool.exe" := File "MZ";
     "/appdata" := Dir; "/appdata/Microsoft" := Dir;
     "/appdata/Microsoft/Windows" := Dir;
     "/appdata/Microsoft/Windows/Start Menu" := Dir;
     start_menu := Dir;
     start_menu +:+ "/tool.lnk" := File (lnk_bytes "/opt/tool.exe") ]}.

(** The shortcut tool is registered and its artifact is in place. *)
Definition w_shortcut : World :=
  mkWorld tree_shortcut (Some "{registry}") (Some registry2) true.


(** Nothing registered, but the synced path of cfg holds a file already. *)
Definition w_occupied : World :=
  mkWorld {[ "/home" := Dir; "/home/u" := Dir; "/home/u/app.conf" := File "data";
             "/sync" := Dir; "/sync/files" := Dir;
             "/sync/files/cfg" := File "older content" ]} (Some "{registry}")
    (Some (mkConfig (mkSettings "/sync") ∅ "1.0")) true.

(** Before the first load, with a registry file of length zero. *)
Definition w_empty_registry : World :=
  mkWorld ∅ (Some EmptyString) None false.

Definition registry3 : Config :=
  mkConfig (mkSettings "/sync")
    {[ "cfg" := cfg_record; "notes" := note_record ]} "1.0".

(** Both links registered; the original path of notes holds a regular file
    where the symbolic link should be. *)
Definition w_two : World :=
  mkWorld (<["/home/u/notes" := File "draft"]>
             (<["/sync/files/notes" := File "text"]> tree_linked))
    (Some "{registry}") (Some registry3) true.

(** Both goroutines relink before either of them counts. *)
Definition racy_schedule : list cmd.step :=
  [cmd.Relink "notes"; cmd.Relink "cfg"; cmd.Count "notes"; cmd.Count "cfg"].



(** An environment whose decoder reads the one document its encoder writes
    as [registry1]. *)
Definition E_codec : Env :=
  mkEnv (fault E0) (iocopy_short E0) (is_abs E0) (clean E0) (abs_path E0)
    (configPath E0) (json_marshal E0)
    (λ data into, if String.eqb data "{registry}" then Some registry1
                  else stub_unmarshal data into)
    (now E0) (windows E0) (getenv E0).

(** A registry written by an older version. *)
Definition registry_old : Config :=
  mkConfig (mkSettings "/sync") {[ "cfg" := cfg_record ]} "0.9".

(** An environment whose decoder reads the document of [registry_old]. *)
Definition E_old : Env :=
  mkEnv (fault E0) (iocopy_short E0) (is_abs E0) (clean E0) (abs_path E0)
    (configPath E0) (json_marshal E0)
    (λ data into, if String.eqb data "{old}" then Some registry_old
                  else stub_unmarshal data into)
    (now E0) (windows E0) (getenv E0).

(** The first start: no registry file, nothing loaded. *)
Definition w_first : World := mkWorld ∅ None None false.

(** Before the first load, with the registry file of the older version. *)
Definition w_old : World := mkWorld ∅ (Some "{old}") None false.

(** The link cfg is registered, but nothing is at its original path. *)
Definition w_unlinked : World :=
  set_fs (delete "/home/u/app.conf" tree_linked) w_linked.



(** Nothing registered; the directory files of the sync path exists and
    holds nothing for cfg. *)
Definition w_ready : World :=
  set_fs (delete "/sync/files/cfg" (fs w_occupied)) w_occupied.


(** Nothing registered; the Start Menu programs directory exists and holds
    no shortcut yet. *)
Definition w_menu : World :=
  mkWorld (delete (start_menu +:+ "/tool.lnk") tree_shortcut)
    (Some "{registry}") (Some (mkConfig (mkSettings "/sync") ∅ "1.0")) true.

(** A registry without a default sync path. *)
Definition w_nosync : World :=
  mkWorld tree_linked (Some "{registry}")
    (Some (mkConfig (mkSettings EmptyString) ∅ "1.0")) true.

(** As [E0], but a copy stops after two bytes. *)
Definition E_short : Env :=
  mkEnv (fault E0) (λ _, Some 2) (is_abs E0) (clean E0) (abs_path E0)
    (configPath E0) (json_marshal E0) (json_unmarshal E0) (now E0)
    (windows E0) (getenv E0).


(** The link cfg is registered, but an empty regular file sits at its
    original path. *)
Definition w_placeholder : World :=
  set_fs (<["/home/u/app.conf" := File EmptyString]> tree_linked) w_linked.

(** The link cfg is registered, but an empty directory sits at its original
    path. *)
Definition w_emptydir : World :=
  set_fs (<["/home/u/app.conf" := Dir]> tree_linked) w_linked.

(** A build without shortcut_windows.go. *)
Definition E_plain : Env := env_with (λ _, None) false.

(** A registry whose record cfg has lost its original path. *)
Definition w_incomplete : World :=
  mkWorld tree_linked (Some "{registry}")
    (Some (mkConfig (mkSettings "/sync")
             {[ "cfg" := mkLinkInfo false EmptyString "/sync/files/cfg" 7 ]}
             "1.0")) true.

(* ===================================================================== *)
(** * Reasoning about computations *)
(* ===================================================================== *)

(** The result, the world and the trace of a [bind]. *)
Lemma result_bind {A B} (m : M A) (k : A → M B) w :
  result_of (bind m k w) = result_of (k (result_of (m w)) (world_of (m w))).
Proof. reflexivity. Qed.

Lemma world_bind {A B} (m : M A) (k : A → M B) w :
  world_of (bind m k w) = world_of (k (result_of (m w)) (world_of (m w))).
Proof. reflexivity. Qed.

Lemma trace_bind {A B} (m : M A) (k : A → M B) w :
  trace_of (bind m k w)
  = trace_of (m w) ++ trace_of (k (result_of (m w)) (world_of (m w))).
Proof. reflexivity. Qed.

(** If [m] run from [w] is known, [bind m k] continues with [k]. *)
Lemma bind_run {A B} (m : M A) (k : A → M B) w a w1 t1 :
  m w = (a, w1, t1) →
  bind m k w = (result_of (k a w1), world_of (k a w1), t1 ++ trace_of (k a w1)).
Proof. intros H. unfold bind. rewrite H. reflexivity. Qed.

(** A run is the triple of its three projections. *)
Lemma run_eta {A} (r : A * World * list event) :
  r = (result_of r, world_of r, trace_of r).
Proof. destruct r as [[a w] t]. reflexivity. Qed.

(** The rules of [keeps], one per constructor of a computation. *)
Section Frame.
Context (R : relation World) `{!Reflexive R, !Transitive R} (P : event → Prop).

Lemma keeps_ret {A} (a : A) : keeps R P (ret a).
Proof. intros w. split; [reflexivity | constructor]. Qed.

Lemma keeps_get_world : keeps R P get_world.
Proof. intros w. split; [reflexivity | constructor]. Qed.

Lemma keeps_emit ev : P ev → keeps R P (emit ev).
Proof. intros H w. split; [reflexivity | repeat constructor; exact H]. Qed.

Lemma keeps_modify f : (∀ w, R w (f w)) → keeps R P (modify f).
Proof. intros H w. split; [apply H | constructor]. Qed.

Lemma keeps_bind {A B} (m : M A) (k : A → M B) :
  keeps R P m → (∀ a, keeps R P (k a)) → keeps R P (bind m k).
Proof.
  intros Hm Hk w. destruct (Hm w) as [R1 T1].
  destruct (Hk (result_of (m w)) (world_of (m w))) as [R2 T2].
  split.
  - rewrite world_bind. etransitivity; eassumption.
  - rewrite trace_bind. apply Forall_app. split; assumption.
Qed.

Lemma keeps_observe E {A} c (f : gmap string node → errno + A) :
  (∀ e, P (Sys c e)) → keeps R P (os.observe E c f).
Proof. intros H w. split; [reflexivity | repeat constructor; apply H]. Qed.

Lemma keeps_perform E {A} c (f : gmap string node → (errno + A) * gmap string node) :
  (∀ w t, R w (set_fs t w)) → (∀ e, P (Sys c e)) → keeps R P (os.perform E c f).
Proof.
  intros HR H w. unfold os.perform.
  destruct (fault E c) as [e|].
  - split; [reflexivity | repeat constructor; apply H].
  - destruct (f (fs w)) as [r t]. split; [apply HR | repeat constructor; apply H].
Qed.

End Frame.

(** [keeps] is monotone in the events and in the relation. *)
Lemma keeps_weaken (R : relation World) (P Q : event → Prop) {A} (m : M A) :
  (∀ ev, P ev → Q ev) → keeps R P m → keeps R Q m.
Proof.
  intros H Hm w. destruct (Hm w) as [HR HP]. split; [exact HR|].
  eapply Forall_impl; eauto.
Qed.

Lemma keeps_relax (R R' : relation World) (P Q : event → Prop) {A} (m : M A) :
  (∀ w w', R w w' → R' w w') → (∀ ev, P ev → Q ev) →
  keeps R P m → keeps R' Q m.
Proof.
  intros HR H Hm w. destruct (Hm w) as [H1 H2]. split; [auto|].
  eapply Forall_impl; eauto.
Qed.

(** Frame facts proved so far, for [keeps_step] to apply. *)
Create HintDb keeps.

Ltac event_ok := first [reflexivity | exact I].

Ltac keeps_step :=
  match goal with
  | |- keeps _ _ (ret _) => apply keeps_ret; exact _
  | |- keeps _ _ (emit _) => apply keeps_emit; [exact _ .. | event_ok]
  | |- keeps _ _ get_world => apply keeps_get_world; exact _
  | |- keeps _ _ (modify _) =>
      apply keeps_modify; [exact _ .. | intros ?; reflexivity]
  | |- keeps _ _ (bind _ _) => apply keeps_bind; [exact _ .. | | intros ?]
  | |- keeps _ _ (os.observe _ _ _) =>
      apply keeps_observe; [exact _ .. | intros ?; event_ok]
  | |- keeps _ _ (os.perform _ _ _) =>
      apply keeps_perform;
      [exact _ .. | intros ? ?; repeat split | intros ?; event_ok]
  | |- keeps _ _ _ => solve [eauto with keeps]
  | |- context [match ?x with _ => _ end] => destruct x
  end.

(** Decomposes a [keeps] goal along the structure of the computation. *)
Ltac keeps_tac := repeat keeps_step.

Ltac relax_event :=
  let ev := fresh "ev" in
  intros ev ?; destruct ev as [[] [?|]| [] | | | |];
  first [reflexivity | exact I | discriminate].

(** As [keeps_tac], and a known fact with a stronger relation or a smaller
    set of events is weakened to the goal. *)
Ltac keeps_any :=
  repeat first
    [ keeps_step
    | eapply keeps_relax; [ | | solve [eauto with keeps] ];
      [ first [ intros ? ? ?; assumption | intros; exact I ] | relax_event ] ].

(** Package os and package util never touch the registry; what they emit
    is told apart by [copy_event] and [util_event]. *)
Section UtilFrame.
Context (E : Env).
Abbreviation copies := (keeps same_registry (λ ev, copy_event ev = true)).
Abbreviation fs_only := (keeps same_registry (λ ev, util_event ev = true)).

Lemma Stat_copies p : copies (os.Stat E p).
Proof. unfold os.Stat. keeps_tac. Qed.
Lemma Lstat_copies p : copies (os.Lstat E p).
Proof. unfold os.Lstat. keeps_tac. Qed.
Lemma ReadDir_copies p : copies (os.ReadDir E p).
Proof. unfold os.ReadDir. keeps_tac. Qed.
Lemma Remove_copies p : copies (os.Remove E p).
Proof. unfold os.Remove. keeps_tac. Qed.
Lemma MkdirAll_copies p : copies (os.MkdirAll E p).
Proof. unfold os.MkdirAll. keeps_tac. Qed.
Lemma Open_copies p : copies (os.Open E p).
Proof. unfold os.Open. keeps_tac. Qed.
Lemma FStat_copies p : copies (os.FStat E p).
Proof. unfold os.FStat. keeps_tac. Qed.
Lemma OpenTrunc_copies p : copies (os.OpenTrunc E p).
Proof. unfold os.OpenTrunc. keeps_tac. Qed.
Lemma IoCopy_copies a b : copies (os.IoCopy E a b).
Proof. unfold os.IoCopy. keeps_tac. Qed.
Lemma Sync_copies p : copies (os.Sync E p).
Proof. unfold os.Sync. keeps_tac. Qed.
Lemma Chmod_copies p : copies (os.Chmod E p).
Proof. unfold os.Chmod. keeps_tac. Qed.
Lemma Rename_fs_only a b : fs_only (os.Rename E a b).
Proof. unfold os.Rename. keeps_tac. Qed.
Lemma RemoveAll_fs_only p : fs_only (os.RemoveAll E p).
Proof. unfold os.RemoveAll. keeps_tac. Qed.

Hint Resolve Stat_copies Lstat_copies ReadDir_copies Remove_copies
  MkdirAll_copies Open_copies FStat_copies OpenTrunc_copies IoCopy_copies
  Sync_copies Chmod_copies Rename_fs_only RemoveAll_fs_only : keeps.

Lemma PathExists_copies p : copies (util.PathExists E p).
Proof. unfold util.PathExists, util.PathExists_of. keeps_tac. Qed.
Lemma IsDir_copies p : copies (util.IsDir E p).
Proof. unfold util.IsDir. keeps_tac. Qed.
Lemma IsFile_copies p : copies (util.IsFile E p).
Proof. unfold util.IsFile. keeps_tac. Qed.
Lemma IsSymlink_copies p : copies (util.IsSymlink E p).
Proof. unfold util.IsSymlink. keeps_tac. Qed.
Lemma EnsureDirExists_copies p : copies (util.EnsureDirExists E p).
Proof. unfold util.EnsureDirExists, util.EnsureDirExists_of. keeps_tac. Qed.

Hint Resolve PathExists_copies IsDir_copies IsFile_copies
  IsSymlink_copies EnsureDirExists_copies : keeps.

Lemma CopyFile_copies a b : copies (util.CopyFile E a b).
Proof. unfold util.CopyFile. keeps_tac. Qed.

Hint Resolve CopyFile_copies : keeps.

Lemma walk_copies src dst todo : copies (util.walk E src dst todo).
Proof.
  induction todo as [|[path d] rest IH]; cbn [util.walk]; keeps_tac.
Qed.

Hint Resolve walk_copies : keeps.

Lemma CopyDir_copies a b : copies (util.CopyDir E a b).
Proof. unfold util.CopyDir. keeps_tac. Qed.

Hint Resolve CopyDir_copies : keeps.

Lemma MoveFileOrDir_fs_only a b : fs_only (util.MoveFileOrDir E a b).
Proof. unfold util.MoveFileOrDir. keeps_any. Qed.

End UtilFrame.

#[global] Hint Resolve Stat_copies Lstat_copies ReadDir_copies Remove_copies
  MkdirAll_copies Open_copies FStat_copies OpenTrunc_copies IoCopy_copies
  Sync_copies Chmod_copies Rename_fs_only RemoveAll_fs_only
  PathExists_copies IsDir_copies IsFile_copies IsSymlink_copies
  EnsureDirExists_copies CopyFile_copies walk_copies CopyDir_copies
  MoveFileOrDir_fs_only : keeps.

(** Package config never touches the file tree, and emits only calls on
    the registry file and its own two warnings. *)
Section ConfigFrame.
Context (E : Env).
Abbreviation registry_only := (keeps same_tree (λ ev, registry_event ev = true)).

Lemma storage_Stat_registry_only : registry_only (storage.Stat E).
Proof. intros w. split; [reflexivity | repeat constructor]. Qed.
Lemma storage_MkdirAll_registry_only : registry_only (storage.MkdirAll E).
Proof. intros w. split; [reflexivity | repeat constructor]. Qed.
Lemma storage_ReadFile_registry_only : registry_only (storage.ReadFile E).
Proof. intros w. split; [reflexivity | repeat constructor]. Qed.
Lemma storage_WriteFile_registry_only d : registry_only (storage.WriteFile E d).
Proof.
  intros w. unfold storage.WriteFile.
  destruct (fault E (cfg_writefile d)); split;
    first [reflexivity | repeat constructor].
Qed.

Hint Resolve storage_Stat_registry_only storage_MkdirAll_registry_only
  storage_ReadFile_registry_only storage_WriteFile_registry_only : keeps.

Lemma saveConfigInternal_registry_only p c :
  registry_only (config.saveConfigInternal E p c).
Proof.
  unfold config.saveConfigInternal, util.EnsureDirExists_of. keeps_tac.
Qed.

Hint Resolve saveConfigInternal_registry_only : keeps.

Lemma SaveConfig_registry_only : registry_only (config.SaveConfig E).
Proof. unfold config.SaveConfig. keeps_tac. Qed.

Lemma loadOnce_registry_only : registry_only (config.loadOnce E).
Proof.
  unfold config.loadOnce, util.PathExists_of, util.EnsureDirExists_of.
  keeps_tac.
Qed.

Hint Resolve SaveConfig_registry_only loadOnce_registry_only : keeps.

Lemma LoadConfig_registry_only : registry_only (config.LoadConfig E).
Proof. unfold config.LoadConfig. keeps_tac. Qed.

Hint Resolve LoadConfig_registry_only : keeps.

Lemma GetConfig_registry_only : registry_only (config.GetConfig E).
Proof. unfold config.GetConfig. keeps_tac. Qed.

Lemma AddLink_registry_only name info :
  registry_only (config.AddLink E name info).
Proof. unfold config.AddLink, config.update. keeps_tac. Qed.

Lemma RemoveLink_registry_only name : registry_only (config.RemoveLink E name).
Proof.
  unfold config.RemoveLink, config.update, config.GetLinks. keeps_tac.
Qed.

End ConfigFrame.

#[global] Hint Resolve storage_Stat_registry_only
  storage_MkdirAll_registry_only storage_ReadFile_registry_only
  storage_WriteFile_registry_only saveConfigInternal_registry_only
  SaveConfig_registry_only loadOnce_registry_only LoadConfig_registry_only
  GetConfig_registry_only AddLink_registry_only RemoveLink_registry_only
  : keeps.

(* ===================================================================== *)
(** * The registry: mutations are saved *)
(* ===================================================================== *)

Section Registry.
Context (E : Env).

(** SaveConfig keeps links and settings of the loaded registry; a result
    without error means the file holds its serialization, and a refused
    call means an error. *)
Lemma SaveConfig_spec w c :
  configInstance w = Some c →
  let r := config.SaveConfig E w in
  (∃ c', configInstance (world_of r) = Some c' ∧ Links c' = Links c
         ∧ CfgSettings c' = CfgSettings c)
  ∧ (result_of r = None → persisted E (world_of r))
  ∧ (∀ call e, In (Sys call (Some e)) (trace_of r) → is_Some (result_of r)).
Proof.
  intros Hc r. subst r.
  unfold config.SaveConfig, config.getConfigPath, config.saveConfigInternal,
    util.EnsureDirExists_of, storage.MkdirAll, storage.WriteFile, persisted,
    bind, get_world.
  cbn. rewrite Hc.
  destruct (decide (configPath E = EmptyString)) as [Hp|Hp]; cbn.
  { rewrite Hc. repeat split; eauto; discriminate. }
  destruct (fault E cfg_mkdirall) as [e|]; cbn.
  { repeat split; eauto; discriminate. }
  destruct (json_marshal E (set_Version CurrentVersion c)) as [data|] eqn:Hm; cbn.
  2: { repeat split; eauto; discriminate. }
  destruct (fault E (cfg_writefile data)) as [e|]; cbn.
  { repeat split; eauto; discriminate. }
  repeat split; eauto 10.
  intros call e [H|[H|[]]]; discriminate.
Qed.

(** AddLink: the record is in the loaded registry whatever the save does. *)
Lemma AddLink_spec w c name info :
  configInstance w = Some c →
  let r := config.AddLink E name info w in
  (∃ c', configInstance (world_of r) = Some c'
         ∧ Links c' = <[name := info]> (Links c))
  ∧ (result_of r = None → persisted E (world_of r))
  ∧ (∀ call e, In (Sys call (Some e)) (trace_of r) → is_Some (result_of r)).
Proof.
  intros Hc r. subst r. unfold config.AddLink, config.update.
  pose (w1 := set_configInstance
                (Some (set_Links (<[name := info]> (Links c)) c)) w).
  assert (H1 : configInstance w1 = Some (set_Links (<[name := info]> (Links c)) c))
    by reflexivity.
  destruct (SaveConfig_spec w1 _ H1) as ((c' & Hc' & HL & _) & Hp & Hf).
  rewrite (bind_run _ _ w tt w1 []) by (unfold modify; rewrite Hc; reflexivity).
  cbn [result_of world_of trace_of fst snd app].
  repeat split; eauto.
Qed.

(** RemoveLink: nothing happens for a name that is not registered;
    otherwise the record is gone from the loaded registry whatever the save
    does. *)
Lemma RemoveLink_spec w c name :
  configInstance w = Some c →
  let r := config.RemoveLink E name w in
  (Links c !! name = None → r = ((false, None), w, []))
  ∧ (is_Some (Links c !! name) →
     (result_of r).1 = true
     ∧ (∃ c', configInstance (world_of r) = Some c'
              ∧ Links c' = delete name (Links c))
     ∧ ((result_of r).2 = None → persisted E (world_of r))
     ∧ (∀ call e, In (Sys call (Some e)) (trace_of r)
                  → is_Some (result_of r).2)).
Proof.
  intros Hc r. subst r. unfold config.RemoveLink, config.GetLinks, config.update.
  rewrite (bind_run _ _ w (Links c) w []) by
    (unfold bind, get_world, ret; cbn; rewrite Hc; reflexivity).
  cbn [result_of world_of trace_of fst snd app].
  split.
  - intros Hn. rewrite bool_decide_eq_false_2 by (rewrite Hn; apply is_Some_None).
    reflexivity.
  - intros Hn. rewrite bool_decide_eq_true_2 by exact Hn.
    pose (w1 := set_configInstance (Some (set_Links (delete name (Links c)) c)) w).
    assert (H1 : configInstance w1 = Some (set_Links (delete name (Links c)) c))
      by reflexivity.
    destruct (SaveConfig_spec w1 _ H1) as ((c' & Hc' & HL & _) & Hp & Hf).
    rewrite (bind_run _ _ w tt w1 []) by (unfold modify; rewrite Hc; reflexivity).
    cbn [result_of world_of trace_of fst snd app].
    unfold bind. cbn [result_of world_of trace_of fst snd app].
    destruct (result_of (config.SaveConfig E w1)) as [e|] eqn:Hr;
      cbn [ret result_of world_of trace_of fst snd app];
      rewrite app_nil_r; repeat split; eauto; try discriminate.
Qed.







End Registry.

(* ===================================================================== *)
(** * Running computations step by step *)
(* ===================================================================== *)

(** Rewriting rules for the projections of a run, and the tactics that
    apply them: [expose] pushes the projections through [bind], [tidy]
    evaluates them on a computation that is known, [run_with] rewrites
    with the run of the next function. *)
Lemma result_of_mk {A} (a : A) w t : result_of (a, w, t) = a.
Proof. reflexivity. Qed.
Lemma world_of_mk {A} (a : A) w t : world_of (a, w, t) = w.
Proof. reflexivity. Qed.
Lemma trace_of_mk {A} (a : A) w t : trace_of (a, w, t) = t.
Proof. reflexivity. Qed.

Lemma ret_run {A} (a : A) w : ret a w = (a, w, []).
Proof. reflexivity. Qed.
Lemma emit_run ev w : emit ev w = (tt, w, [ev]).
Proof. reflexivity. Qed.

Lemma get_world_run w : get_world w = (w, w, []).
Proof. reflexivity. Qed.
Lemma modify_run f w : modify f w = (tt, f w, []).
Proof. reflexivity. Qed.

Ltac tidy :=
  repeat (rewrite ret_run || rewrite emit_run || rewrite get_world_run
          || rewrite modify_run || rewrite result_of_mk
          || rewrite world_of_mk || rewrite trace_of_mk);
  cbn beta iota.
Ltac tidy_in H :=
  repeat (rewrite ret_run in H || rewrite emit_run in H
          || rewrite get_world_run in H || rewrite modify_run in H
          || rewrite result_of_mk in H || rewrite world_of_mk in H
          || rewrite trace_of_mk in H);
  cbn beta iota in H.
Ltac expose :=
  repeat (rewrite result_bind || rewrite world_bind || rewrite trace_bind).
Ltac run_with H := expose; rewrite !H; tidy.

Section Obs.
Context (E : Env).

(** A call that only looks leaves the world alone and emits one event. *)
Lemma Stat_run p w :
  os.Stat E p w
  = (result_of (os.Stat E p w), w,
     [Sys (sys_stat p) (errno_of (result_of (os.Stat E p w)))]).
Proof. reflexivity. Qed.

Lemma Lstat_run p w :
  os.Lstat E p w
  = (result_of (os.Lstat E p w), w,
     [Sys (sys_lstat p) (errno_of (result_of (os.Lstat E p w)))]).
Proof. reflexivity. Qed.


Lemma Readlink_run p w :
  os.Readlink E p w
  = (result_of (os.Readlink E p w), w,
     [Sys (sys_readlink p) (errno_of (result_of (os.Readlink E p w)))]).
Proof. reflexivity. Qed.

Lemma PathExists_run p w :
  util.PathExists E p w
  = (result_of (util.PathExists E p w), w,
     [Sys (sys_stat p) (errno_of (result_of (os.Stat E p w)))]).
Proof. reflexivity. Qed.

Lemma IsSymlink_run p w :
  util.IsSymlink E p w
  = (result_of (util.IsSymlink E p w), w,
     [Sys (sys_lstat p) (errno_of (result_of (os.Lstat E p w)))]).
Proof. reflexivity. Qed.

(** A rename emits one event, whatever it does to the tree. *)
Lemma Rename_trace a b w :
  trace_of (os.Rename E a b w)
  = [Sys (sys_rename a b) (errno_of (result_of (os.Rename E a b w)))].
Proof.
  unfold os.Rename, os.perform. destruct (fault E (sys_rename a b)); [reflexivity|].
  destruct (fs w !! a) as [n|]; [|reflexivity].
  destruct (fs w !! b) as [[]|]; destruct n; reflexivity.
Qed.

Lemma path_exists_stat w p :
  path_exists E w p → ∃ n, result_of (os.Stat E p w) = inr n.
Proof.
  unfold path_exists, util.PathExists, util.PathExists_of.
  rewrite result_bind.
  destruct (result_of (os.Stat E p w)) as [e|n]; cbn.
  - destruct e; discriminate.
  - eauto.
Qed.

(** With the registry loaded, GetConfig and GetLink only read it. *)
Lemma GetConfig_loaded w c :
  configInstance w = Some c → config.GetConfig E w = ((Some c, None), w, []).
Proof.
  intros H. unfold config.GetConfig, bind, get_world. cbn. rewrite H.
  reflexivity.
Qed.

Lemma GetLink_loaded w c name :
  configInstance w = Some c →
  config.GetLink name w
  = (match Links c !! name with
     | Some info => (info, true)
     | None => (config.zeroLinkInfo, false)
     end, w, []).
Proof.
  intros H. unfold config.GetLink, config.GetLinks, bind, get_world, ret. cbn.
  rewrite H. reflexivity.
Qed.

End Obs.

(* ===================================================================== *)
(** * Relink leaves the registry alone *)
(* ===================================================================== *)

Section LinkFrame.
Context (E : Env).
Abbreviation tree_only := (keeps same_registry (λ _, True)).

Lemma Readlink_tree_only p : tree_only (os.Readlink E p).
Proof. unfold os.Readlink. keeps_tac. Qed.

Lemma Symlink_tree_only a b : tree_only (os.Symlink E a b).
Proof. unfold os.Symlink. keeps_tac. Qed.

Lemma GetLinks_tree_only : tree_only config.GetLinks.
Proof. unfold config.GetLinks. keeps_tac. Qed.

Lemma GetLink_tree_only name : tree_only (config.GetLink name).
Proof. unfold config.GetLink, config.GetLinks. keeps_tac. Qed.

(** When GetConfig returns without error, a registry is loaded. *)
Lemma GetConfig_ok w o :
  result_of (config.GetConfig E w) = (o, None) →
  ∃ c, configInstance (world_of (config.GetConfig E w)) = Some c.
Proof.
  unfold config.GetConfig. expose. tidy.
  destruct (configInstance w) as [c|] eqn:Hc; tidy.
  - intros _. rewrite Hc. eauto.
  - expose. tidy.
    destruct (result_of (config.LoadConfig E w)) as [o' [e|]]; tidy.
    + discriminate.
    + expose. tidy.
      destruct (configInstance (world_of (config.LoadConfig E w)))
        as [c|] eqn:Hc'; tidy.
      * intros _. eauto.
      * discriminate.
Qed.

(** After the two reads of the registry, RelinkSymbolicLink works on the
    file tree only. *)
Lemma RelinkSymbolicLink_registry name w c :
  configInstance w = Some c →
  same_registry w (world_of (link.RelinkSymbolicLink E name w)).
Proof.
  intros Hc. unfold link.RelinkSymbolicLink.
  run_with (GetConfig_loaded E _ _ Hc).
  lazymatch goal with
  | |- same_registry _ (world_of (?m _)) =>
      assert (Hk : tree_only m); [| apply Hk]
  end.
  pose proof GetLink_tree_only. pose proof Readlink_tree_only.
  pose proof Symlink_tree_only. keeps_any.
Qed.

(** So do the four functions of shortcut_windows.go. *)
Lemma shortcut_tree_only :
  (tree_only (link.getStartMenuProgramsPathWindows E))
  ∧ (∀ a b c, tree_only (link.createShortcutWindows E a b c))
  ∧ (∀ a b c, tree_only (link.removeShortcutWindows E a b c))
  ∧ (∀ a b c, tree_only (link.relinkShortcutWindows E a b c)).
Proof.
  assert (H1 : ∀ a b c, tree_only (link.createShortcutWindows E a b c)).
  { intros. unfold link.createShortcutWindows, ole.call, ole.Save. keeps_any. }
  assert (H2 : ∀ a b c, tree_only (link.removeShortcutWindows E a b c)).
  { intros. unfold link.removeShortcutWindows. keeps_any. }
  split; [| split; [exact H1 | split; [exact H2 |]]].
  - unfold link.getStartMenuProgramsPathWindows. keeps_any.
  - intros. unfold link.relinkShortcutWindows. keeps_any.
Qed.

(** What RelinkLinkOrShortcut does after GetConfig leaves the registry as
    GetConfig left it. *)
Lemma relink_same_registry name w :
  same_registry (world_of (config.GetConfig E w))
    (world_of (link.RelinkLinkOrShortcut E name w)).
Proof.
  unfold link.RelinkLinkOrShortcut. expose.
  destruct (result_of (config.GetConfig E w)) as [o [e|]] eqn:HG; tidy.
  { reflexivity. }
  destruct (GetConfig_ok _ _ HG) as [c Hc].
  set (w0 := world_of (config.GetConfig E w)) in *.
  run_with (GetLink_loaded w0 c name Hc).
  destruct (Links c !! name) as [li|]; cbn [negb]; tidy; [|reflexivity].
  destruct (Shortcut li).
  - destruct shortcut_tree_only as (T1 & _ & _ & T2).
    unfold link.RelinkShortcutDelegate, link.GetStartMenuProgramsPathDelegate.
    destruct (windows E); tidy; [|reflexivity].
    lazymatch goal with
    | |- same_registry _ (world_of (?m _)) =>
        assert (Hk : tree_only m); [| apply Hk]
    end.
    keeps_any.
  - expose. pose proof (RelinkSymbolicLink_registry name w0 c Hc) as HR.
    destruct (result_of (link.RelinkSymbolicLink E name w0)); tidy; exact HR.
Qed.

(** C9: relinking never changes the registry: the loaded instance and the
    registry file after RelinkLinkOrShortcut are those GetConfig left,
    whatever the outcome and for every name; with a loaded registry they
    are those from before the call. *)
Theorem C9_relink_leaves_registry name w :
  let w' := world_of (link.RelinkLinkOrShortcut E name w) in
  same_registry (world_of (config.GetConfig E w)) w'
  ∧ (∀ c, configInstance w = Some c →
          configInstance w' = Some c ∧ disk w' = disk w).
Proof.
  intros w'. pose proof (relink_same_registry name w) as H.
  split; [exact H|].
  intros c Hc. rewrite (GetConfig_loaded E _ _ Hc) in H. tidy_in H.
  destruct H as (H1 & H2 & _). subst w'. rewrite H1, H2. auto.
Qed.

End LinkFrame.

(* ===================================================================== *)
(** * Relink of a redirect in place *)
(* ===================================================================== *)

Section Engine.
Context (E : Env).

(** The run of a relink on a Symlink record whose redirect is in place:
    three looks, no error, the same world. *)
Lemma relink_symlink_noop w c name li :
  configInstance w = Some c →
  Links c !! name = Some li →
  Shortcut li = false →
  OriginalPath li ≠ EmptyString →
  SyncedPath li ≠ EmptyString →
  redirect_correct E w li →
  link.RelinkLinkOrShortcut E name w
  = (None, w, [Sys (sys_stat (OriginalPath li)) None;
               Sys (sys_lstat (OriginalPath li)) None;
               Sys (sys_readlink (OriginalPath li)) None]).
Proof.
  intros Hc Hl Hs Hop Hsp (Hex & Hsl & Hrl).
  destruct (path_exists_stat _ _ _ Hex) as [n Hstat].
  assert (HG := GetConfig_loaded E _ _ Hc).
  assert (HL := GetLink_loaded _ _ name Hc). rewrite Hl in HL.
  assert (HP := PathExists_run E (OriginalPath li) w). rewrite Hex, Hstat in HP.
  assert (HS := IsSymlink_run E (OriginalPath li) w). rewrite Hsl in HS.
  assert (HR := Readlink_run E (OriginalPath li) w). rewrite Hrl in HR.
  assert (Hls : errno_of (result_of (os.Lstat E (OriginalPath li) w)) = None).
  { revert Hsl. unfold util.IsSymlink. rewrite result_bind.
    destruct (result_of (os.Lstat E (OriginalPath li) w)) as [[]|]; cbn;
      intros; try discriminate; reflexivity. }
  rewrite Hls in HS.
  rewrite (run_eta (link.RelinkLinkOrShortcut E name w)).
  unfold link.RelinkLinkOrShortcut.
  run_with HG. run_with HL. cbn [negb]. rewrite Hs. expose.
  unfold link.RelinkSymbolicLink.
  run_with HG. run_with HL. cbn [negb]. rewrite Hs.
  rewrite !bool_decide_eq_false_2 by done. cbn [orb].
  run_with HP. cbn [negb]. run_with HS. cbn [negb]. run_with HR.
  rewrite String.eqb_refl. cbn [negb]. tidy. reflexivity.
Qed.

End Engine.

(** [ensures] for a property that survives when an earlier computation,
    whose own trace satisfies [pre], runs first. *)
Section Ensures.
Context {B : Type} (pre : list event → Prop) (Φ : B → list event → Prop).
Context (Φ_app : ∀ b t1 t2, pre t1 → Φ b t2 → Φ b (t1 ++ t2)).



End Ensures.

Section Shortcut.
Context (E : Env).






End Shortcut.

(* ===================================================================== *)
(** * Create: the rollback after a refused symlink *)
(* ===================================================================== *)



Section Rollback.
Context (E : Env).












End Rollback.

(* ===================================================================== *)
(** * MoveFileOrDir *)
(* ===================================================================== *)

Section Move.
Context (E : Env).

Lemma RemoveAll_trace p w :
  trace_of (os.RemoveAll E p w)
  = [Sys (sys_removeall p) (errno_of (result_of (os.RemoveAll E p w)))].
Proof.
  unfold os.RemoveAll, os.perform. destruct (fault E (sys_removeall p)); reflexivity.
Qed.

Lemma IsDir_trace p w :
  trace_of (util.IsDir E p w)
  = [Sys (sys_stat p) (errno_of (result_of (os.Stat E p w)))].
Proof. reflexivity. Qed.

Lemma copy_event_not_removeall t p e :
  Forall (λ ev, copy_event ev = true) t → ¬ In (Sys (sys_removeall p) (Some e)) t.
Proof.
  intros H Hin. rewrite Forall_forall in H. apply list_elem_of_In in Hin.
  specialize (H _ Hin). discriminate.
Qed.

(** MoveFileOrDir starts with the rename; what lies beyond the rename
    happens exactly when the rename failed with a cross-device error, and a
    refused removal of the source is an error. *)
Lemma MoveFileOrDir_rename_first src dst w :
  let r := util.MoveFileOrDir E src dst w in
  let rn := os.Rename E src dst w in
  (∃ rest, trace_of r = Sys (sys_rename src dst) (errno_of (result_of rn)) :: rest)
  ∧ (result_of rn = inr tt → r = (None, world_of rn, trace_of rn))
  ∧ (∀ e, result_of rn = inl e → util.is_cross_device e = false →
          r = (Some (Wrap MMove (Errno e)), world_of rn, trace_of rn))
  ∧ ((∃ ev, In ev (trace_of r) ∧ beyond_rename ev = true)
     ↔ ∃ e, result_of rn = inl e ∧ util.is_cross_device e = true)
  ∧ (∀ e, In (Sys (sys_removeall src) (Some e)) (trace_of r) →
          result_of r = Some (Wrap MMoveRemoveSrc (Errno e))).
Proof.
  intros r rn.
  assert (Hr : r = (result_of r, world_of r, trace_of r)) by apply run_eta.
  subst r rn. revert Hr. unfold util.MoveFileOrDir. expose.
  rewrite Rename_trace.
  set (w1 := world_of (os.Rename E src dst w)).
  destruct (result_of (os.Rename E src dst w)) as [e|[]] eqn:Hrn; tidy.
  2: { intros Hr. split; [eauto|]. split; [intros _; exact Hr|].
       split; [discriminate|]. split; [split|].
       - intros (ev & [<-|[]] & Hb). discriminate.
       - intros (e & He & _). discriminate.
       - intros e [He|[]]. discriminate. }
  destruct (util.is_cross_device e) eqn:Hx; cbn [negb]; tidy.
  2: { intros Hr. split; [eauto|]. split; [discriminate|].
       split; [intros e' He' _; injection He' as <-; exact Hr|].
       split; [split|].
       - intros (ev & [<-|[]] & Hb). discriminate.
       - intros (e' & He' & Hx'). injection He' as <-. congruence.
       - intros e' [He'|[]]. discriminate. }
  expose. rewrite IsDir_trace. cbn [errno_of app].
  intros Hr. split; [eauto|]. split; [discriminate|].
  split; [intros e' He'; injection He' as <-; congruence|].
  split.
  { split; [eauto|]. intros _. eexists. split; [right; left; reflexivity|reflexivity]. }
  intros e' Hin. destruct Hin as [Hin|[Hin|Hin]]; try discriminate.
  revert Hin.
  destruct (result_of (util.IsDir E src w1)) as [isDir [ed|]] eqn:HD; tidy.
  { intros []. }
  set (w2 := world_of (util.IsDir E src w1)).
  expose.
  set (copy := if isDir
               then let! err := util.CopyDir E src dst
                    in ret (match err with Some e0 => Some (Wrap MMoveCopyDir e0) | None => None end)
               else let! err := util.CopyFile E src dst
                    in ret (match err with Some e0 => Some (Wrap MMoveCopyFile e0) | None => None end)).
  assert (Hcopy : Forall (λ ev, copy_event ev = true) (trace_of (copy w2))).
  { assert (Hk : keeps same_registry (λ ev, copy_event ev = true) copy)
      by (subst copy; keeps_tac).
    apply Hk. }
  destruct (result_of (copy w2)) as [ec|] eqn:Hc; tidy.
  { rewrite app_nil_r. intros Hin. exfalso.
    eapply copy_event_not_removeall; eauto. }
  expose. rewrite RemoveAll_trace.
  intros Hin. apply in_app_or in Hin as [Hin|Hin].
  { exfalso. eapply copy_event_not_removeall; eauto. }
  destruct (result_of (os.RemoveAll E src (world_of (copy w2)))) as [er|[]];
    tidy; cbn [errno_of app] in Hin.
  - destruct Hin as [Hin|[]]. injection Hin as <-. reflexivity.
  - destruct Hin as [Hin|[]]. discriminate.
Qed.

(** After a rename that failed with a cross-device error the fallback
    runs: the stat of the source, then the whole of CopyDir or CopyFile,
    and after a copy without error the removal of the source, whose
    refusal is the result. *)
Lemma MoveFileOrDir_fallback src dst w e :
  let r := util.MoveFileOrDir E src dst w in
  let rn := os.Rename E src dst w in
  result_of rn = inl e → util.is_cross_device e = true →
  let w1 := world_of rn in
  let st := util.IsDir E src w1 in
  (∀ ed, (result_of st).2 = Some ed →
         r = (Some (Wrap MMoveSrcType ed), w1, trace_of rn ++ trace_of st))
  ∧ (∀ isDir, result_of st = (isDir, None) →
       let cp := (if isDir then util.CopyDir E src dst else util.CopyFile E src dst)
                   w1 in
       let rm := os.RemoveAll E src (world_of cp) in
       (∀ ec, result_of cp = Some ec →
              r = (Some (Wrap (if isDir then MMoveCopyDir else MMoveCopyFile) ec),
                   world_of cp, trace_of rn ++ trace_of st ++ trace_of cp))
       ∧ (result_of cp = None →
          r = (match result_of rm with
               | inl er => Some (Wrap MMoveRemoveSrc (Errno er))
               | inr _ => None
               end,
               world_of rm,
               trace_of rn ++ trace_of st ++ trace_of cp ++ trace_of rm))).
Proof.
  intros r rn Hrn Hx w1 st.
  assert (Hw : world_of st = w1) by reflexivity.
  assert (Hr : r = (result_of r, world_of r, trace_of r)) by apply run_eta.
  unfold r at 2 3 4 in Hr. unfold util.MoveFileOrDir in Hr.
  rewrite result_bind, world_bind, trace_bind in Hr. fold rn in Hr.
  rewrite Hrn in Hr. cbn beta iota in Hr. rewrite Hx in Hr. cbn [negb] in Hr.
  rewrite result_bind, world_bind, trace_bind in Hr. fold w1 in Hr. fold st in Hr.
  rewrite Hw in Hr.
  destruct (result_of st) as [isDir [ed|]] eqn:Hst.
  - tidy_in Hr. split.
    + intros ed' Hed. cbn in Hed. injection Hed as <-.
      rewrite Hr, app_nil_r. reflexivity.
    + intros isDir' H. discriminate.
  - split; [intros ed Hed; discriminate|].
    intros isDir' H. injection H as <-. intros cp rm.
    cbn beta iota in Hr.
    rewrite result_bind, world_bind, trace_bind in Hr.
    destruct isDir.
    + rewrite result_bind, world_bind, trace_bind in Hr. fold cp in Hr.
      destruct (result_of cp) as [ec|] eqn:Hcp; tidy_in Hr.
      * split; [|discriminate]. intros ec' H. injection H as <-.
        rewrite Hr, !app_nil_r. reflexivity.
      * split; [discriminate|]. intros _.
        rewrite result_bind, world_bind, trace_bind in Hr. fold rm in Hr.
        rewrite Hr.
        destruct (result_of rm); tidy; rewrite !app_nil_r; reflexivity.
    + rewrite result_bind, world_bind, trace_bind in Hr. fold cp in Hr.
      destruct (result_of cp) as [ec|] eqn:Hcp; tidy_in Hr.
      * split; [|discriminate]. intros ec' H. injection H as <-.
        rewrite Hr, !app_nil_r. reflexivity.
      * split; [discriminate|]. intros _.
        rewrite result_bind, world_bind, trace_bind in Hr. fold rm in Hr.
        rewrite Hr.
        destruct (result_of rm); tidy; rewrite !app_nil_r; reflexivity.
Qed.

(** C5: MoveFileOrDir starts with the rename.  When the rename succeeds,
    or fails with an error that is not a cross-device error, nothing else
    happens and the result is success, respectively that error.  Anything
    beyond the rename happens exactly when the rename failed with a
    cross-device error, and then the fallback does run: after the stat of
    the source the whole of CopyDir (for a directory) or CopyFile is run
    from the world the rename left; a copy error is the result, with no
    removal; after a copy without error the source is removed with
    RemoveAll, and the result is success exactly when the removal is not
    refused, the removal error otherwise. *)
Theorem C5_move_rename_then_fallback src dst w :
  let r := util.MoveFileOrDir E src dst w in
  let rn := os.Rename E src dst w in
  (∃ rest, trace_of r = Sys (sys_rename src dst) (errno_of (result_of rn)) :: rest)
  ∧ (result_of rn = inr tt → r = (None, world_of rn, trace_of rn))
  ∧ (∀ e, result_of rn = inl e → util.is_cross_device e = false →
          r = (Some (Wrap MMove (Errno e)), world_of rn, trace_of rn))
  ∧ ((∃ ev, In ev (trace_of r) ∧ beyond_rename ev = true)
     ↔ ∃ e, result_of rn = inl e ∧ util.is_cross_device e = true)
  ∧ (∀ e, In (Sys (sys_removeall src) (Some e)) (trace_of r) →
          result_of r = Some (Wrap MMoveRemoveSrc (Errno e)))
  ∧ (∀ e, result_of rn = inl e → util.is_cross_device e = true →
       let w1 := world_of rn in
       let st := util.IsDir E src w1 in
       (∀ ed, (result_of st).2 = Some ed →
              r = (Some (Wrap MMoveSrcType ed), w1, trace_of rn ++ trace_of st))
       ∧ (∀ isDir, result_of st = (isDir, None) →
            let cp := (if isDir then util.CopyDir E src dst
                       else util.CopyFile E src dst) w1 in
            let rm := os.RemoveAll E src (world_of cp) in
            (∀ ec, result_of cp = Some ec →
                   r = (Some (Wrap (if isDir then MMoveCopyDir
                                    else MMoveCopyFile) ec),
                        world_of cp, trace_of rn ++ trace_of st ++ trace_of cp))
            ∧ (result_of cp = None →
               r = (match result_of rm with
                    | inl er => Some (Wrap MMoveRemoveSrc (Errno er))
                    | inr _ => None
                    end,
                    world_of rm,
                    trace_of rn ++ trace_of st ++ trace_of cp ++ trace_of rm)))).
Proof.
  intros r rn.
  destruct (MoveFileOrDir_rename_first src dst w) as (H1 & H2 & H3 & H4 & H5).
  split; [exact H1|]. split; [exact H2|]. split; [exact H3|].
  split; [exact H4|]. split; [exact H5|].
  intros e Hrn Hx. exact (MoveFileOrDir_fallback src dst w e Hrn Hx).
Qed.

End Move.

(** A move across devices whose source cannot be removed: the copy is at
    the destination, the source is still there, and the result is the
    error of the removal. *)
Lemma move_across_devices_stuck :
  let r := util.MoveFileOrDir E_xdev_stuck "/home/u/app.conf" "/sync/files/cfg"
             w_occupied in
  result_of r = Some (Wrap MMoveRemoveSrc (Errno EIO))
  ∧ fs (world_of r) !! "/sync/files/cfg" = Some (File "data")
  ∧ fs (world_of r) !! "/home/u/app.conf" = Some (File "data")
  ∧ In (Sys (sys_opentrunc "/sync/files/cfg") None) (trace_of r).
Proof. vm_compute. repeat split. tauto. Qed.

(* ===================================================================== *)
(** * Create over an occupied synced path *)
(* ===================================================================== *)

Lemma set_fs_same w : set_fs (fs w) w = w.
Proof. destruct w. reflexivity. Qed.

(** A path that is not a symbolic link resolves to itself. *)
Lemma resolve_plain fuel (t : gmap string node) p n :
  t !! p = Some n → is_symlink n = false → os.resolve fuel t p = inr (p, n).
Proof.
  intros H Hn.
  destruct fuel; cbn; rewrite H; destruct n; try reflexivity; discriminate.
Qed.

(** MkdirAll over directories that exist changes nothing. *)
Lemma mkdir_existing ps (t : gmap string node) :
  Forall (λ q, t !! q = Some Dir) ps → os.mkdir_prefixes ps t = (inr tt, t).
Proof.
  induction 1 as [|q ps Hq _ IH]; [reflexivity|].
  cbn [os.mkdir_prefixes]. rewrite Hq.
  rewrite (resolve_plain _ _ _ _ Hq eq_refl). exact IH.
Qed.

(** The target [a] and the synced path [synced], in an environment that
    refuses no call but possibly the rename of [a] to [synced]. *)
Section Overwrite.
Context (E : Env) (a synced : string).
Context (Hfault : ∀ call, call ≠ sys_rename a synced → fault E call = None).
Context (Hshort : iocopy_short E synced = None).
Context (Hne : a ≠ synced).

Lemma Stat_file w d :
  fs w !! a = Some (File d) →
  os.Stat E a w = (inr (File d), w, [Sys (sys_stat a) None]).
Proof.
  intros H. unfold os.Stat, os.observe. rewrite Hfault by discriminate.
  rewrite (resolve_plain _ _ _ _ H eq_refl). reflexivity.
Qed.

Lemma EnsureDirExists_existing w dir :
  Forall (λ q, fs w !! q = Some Dir) (filepath.prefixes dir) →
  util.EnsureDirExists E dir w = (None, w, [Sys (sys_mkdirall dir) None]).
Proof.
  intros H. unfold util.EnsureDirExists, util.EnsureDirExists_of, os.MkdirAll,
    os.perform, bind. rewrite Hfault by discriminate.
  rewrite (mkdir_existing _ _ H). cbn. rewrite set_fs_same. reflexivity.
Qed.

Ltac step H := rewrite (bind_run _ _ _ _ _ _ H); cbn beta iota; tidy.

Lemma CopyFile_over_file w d old :
  fs w !! a = Some (File d) →
  fs w !! synced = Some (File old) →
  Forall (λ q, fs w !! q = Some Dir) (filepath.prefixes (filepath.Dir synced)) →
  util.CopyFile E a synced w
  = (None,
     set_fs (<[synced := File d]> (<[synced := File EmptyString]> (fs w))) w,
     [Sys (sys_mkdirall (filepath.Dir synced)) None; Sys (sys_open a) None;
      Sys (sys_fstat a) None; Sys (sys_opentrunc synced) None;
      Sys (sys_iocopy a synced) None; Sys (sys_fsync synced) None;
      Sys (sys_chmod synced) None]).
Proof.
  intros Ha Hs Hdirs. unfold util.CopyFile.
  step (EnsureDirExists_existing w _ Hdirs).
  assert (HO : os.Open E a w = (inr a, w, [Sys (sys_open a) None])).
  { unfold os.Open, os.observe. rewrite Hfault by discriminate.
    rewrite (resolve_plain _ _ _ _ Ha eq_refl). reflexivity. }
  step HO.
  assert (HF : os.FStat E a w = (inr (File d), w, [Sys (sys_fstat a) None])).
  { unfold os.FStat, os.observe. rewrite Hfault by discriminate.
    rewrite Ha. reflexivity. }
  step HF.
  set (w1 := set_fs (<[synced := File EmptyString]> (fs w)) w).
  assert (HT : os.OpenTrunc E synced w
               = (inr synced, w1, [Sys (sys_opentrunc synced) None])).
  { unfold os.OpenTrunc, os.perform. rewrite Hfault by discriminate.
    rewrite Hs, (resolve_plain _ _ _ _ Hs eq_refl). reflexivity. }
  step HT.
  set (w2 := set_fs (<[synced := File d]> (fs w1)) w1).
  assert (HC : os.IoCopy E a synced w1
               = (inr (String.length d), w2, [Sys (sys_iocopy a synced) None])).
  { unfold os.IoCopy, os.perform. rewrite Hfault by discriminate.
    subst w1. cbn [fs set_fs]. rewrite lookup_insert_ne by done.
    rewrite Ha, Hshort. reflexivity. }
  step HC. cbn [file_size]. rewrite Nat.eqb_refl. cbn [negb].
  assert (HS : os.Sync E synced w2 = (inr tt, w2, [Sys (sys_fsync synced) None])).
  { unfold os.Sync, os.observe. rewrite Hfault by discriminate. reflexivity. }
  step HS.
  assert (HM : os.Chmod E synced w2 = (inr tt, w2, [Sys (sys_chmod synced) None])).
  { unfold os.Chmod, os.perform. rewrite Hfault by discriminate.
    subst w2. cbn [fs set_fs]. rewrite lookup_insert_eq. reflexivity. }
  repeat (expose; tidy; rewrite ?HM). reflexivity.
Qed.

(** Moving a regular file onto an existing regular file, on one device or
    across devices, puts the moved content there. *)
Lemma move_file_over_file w d old :
  fs w !! a = Some (File d) →
  fs w !! synced = Some (File old) →
  filepath.under a synced = false →
  Forall (λ q, fs w !! q = Some Dir) (filepath.prefixes (filepath.Dir synced)) →
  fault E (sys_rename a synced) = None
  ∨ (∃ e, fault E (sys_rename a synced) = Some e ∧ util.is_cross_device e = true) →
  ∃ w2 t,
    util.MoveFileOrDir E a synced w = (None, w2, t)
    ∧ fs w2 !! synced = Some (File d)
    ∧ fs w2 !! a = None
    ∧ same_registry w w2
    ∧ (∀ o, ¬ In (Sys (sys_stat synced) o) t)
    ∧ (fault E (sys_rename a synced) = None → t = [Sys (sys_rename a synced) None])
    ∧ (fault E (sys_rename a synced) ≠ None →
       In (Sys (sys_opentrunc synced) None) t).
Proof.
  intros Ha Hs Hu Hdirs [Hr|(e & Hr & Hx)].
  - eexists _, _. split.
    + unfold util.MoveFileOrDir, os.Rename, os.perform, bind.
      rewrite Hr, Ha, Hs. cbn. reflexivity.
    + cbn. rewrite lookup_insert_eq, lookup_insert_ne, lookup_delete_eq by done.
      repeat split; auto; try congruence.
      intros o [H|[]]. discriminate.
  - eexists _, _. split.
    + unfold util.MoveFileOrDir.
      rewrite (bind_run _ _ w (inl e) w [Sys (sys_rename a synced) (Some e)])
        by (unfold os.Rename, os.perform; rewrite Hr; reflexivity).
      cbn beta iota. rewrite Hx. cbn [negb].
      rewrite (bind_run _ _ w (false, None) w [Sys (sys_stat a) None])
        by (unfold util.IsDir; rewrite (bind_run _ _ _ _ _ _ (Stat_file w d Ha));
            reflexivity).
      cbn beta iota. tidy.
      expose. rewrite !(CopyFile_over_file w d old Ha Hs Hdirs). tidy.
      expose.
      match goal with
      | |- context [os.RemoveAll E a ?w2] =>
          assert (HRA : os.RemoveAll E a w2
                        = (inr tt,
                           set_fs (filter (λ kn : string * node,
                                             os.inside a kn.1 = false) (fs w2)) w2,
                           [Sys (sys_removeall a) None]))
      end.
      { unfold os.RemoveAll, os.perform. rewrite Hfault by discriminate.
        reflexivity. }
      rewrite !HRA. tidy. reflexivity.
    + cbn [fs set_fs].
      assert (Hin : os.inside a synced = false).
      { unfold os.inside. rewrite Hu, bool_decide_eq_false_2 by done. reflexivity. }
      split.
      { apply map_lookup_filter_Some. split; [|exact Hin].
        apply lookup_insert_eq. }
      split.
      { apply map_lookup_filter_None. right. intros n _.
        unfold os.inside. cbn. rewrite bool_decide_eq_true_2 by done. discriminate. }
      split; [repeat split|]. split.
      { intros o Hi. cbn in Hi. repeat destruct Hi as [Hi|Hi]; try discriminate; auto.
        injection Hi as ->. contradiction. }
      split; [congruence|]. intros _. cbn. auto 10.
Qed.

(** Creating the link for the regular file [a] when [synced] holds a
    regular file already. *)
Lemma create_file_over_file target name syncDir w c d old :
  configInstance w = Some c →
  Links c !! name = None →
  util.GetAbsPath E target = (a, None) →
  synced = filepath.Join (filepath.Join syncDir "files") name →
  filepath.Dir synced = filepath.Join syncDir "files" →
  has_dirs w (filepath.Join syncDir "files") →
  fs w !! a = Some (File d) →
  fs w !! synced = Some (File old) →
  filepath.under a synced = false →
  fault E (sys_rename a synced) = None
  ∨ (∃ e, fault E (sys_rename a synced) = Some e ∧ util.is_cross_device e = true) →
  let r := link.CreateLinkOrShortcut E target name syncDir false w in
  fs (world_of r) !! synced = Some (File d)
  ∧ fs (world_of r) !! a = Some (Symlink synced)
  ∧ (∀ o, ¬ In (Sys (sys_stat synced) o) (trace_of r))
  ∧ (∃ c', configInstance (world_of r) = Some c'
           ∧ Links c' !! name = Some (mkLinkInfo false a synced (now E)))
  ∧ (result_of r = None ∨ ∃ e, result_of r = Some (Wrap MLinkedButNotSaved e))
  ∧ (fault E (sys_rename a synced) = None →
     In (Sys (sys_rename a synced) None) (trace_of r))
  ∧ (fault E (sys_rename a synced) ≠ None →
     In (Sys (sys_opentrunc synced) None) (trace_of r)).
Proof.
  intros Hc Hl Habs Hsy Hdir Hdirs Ha Hs Hu Hrn r.
  assert (Hdirs' : Forall (λ q, fs w !! q = Some Dir)
                     (filepath.prefixes (filepath.Dir synced)))
    by (rewrite Hdir; exact Hdirs).
  destruct (move_file_over_file w d old Ha Hs Hu Hdirs' Hrn)
    as (w2 & t & Hmv & Hs2 & Ha2 & (Hreg & Hdisk & Honce) & Hnostat & Hren & Htrunc).
  assert (HG := GetConfig_loaded E _ _ Hc).
  assert (HL := GetLink_loaded _ _ name Hc). rewrite Hl in HL.
  assert (HSt := Stat_file w d Ha).
  assert (HPE : util.PathExists E a w = ((true, None), w, [Sys (sys_stat a) None])).
  { unfold util.PathExists, util.PathExists_of. step HSt. reflexivity. }
  assert (HID : util.IsDir E a w = ((false, None), w, [Sys (sys_stat a) None])).
  { unfold util.IsDir. step HSt. reflexivity. }
  assert (HIF : util.IsFile E a w = ((true, None), w, [Sys (sys_stat a) None])).
  { unfold util.IsFile. step HSt. reflexivity. }
  assert (HED := EnsureDirExists_existing w _ Hdirs).
  set (w3 := set_fs (<[a := Symlink synced]> (fs w2)) w2).
  assert (HSL : os.Symlink E synced a w2
                = (inr tt, w3, [Sys (sys_symlink synced a) None])).
  { unfold os.Symlink, os.perform. rewrite Hfault by discriminate.
    rewrite Ha2. reflexivity. }
  assert (Hc3 : configInstance w3 = Some c) by (cbn; rewrite Hreg; exact Hc).
  destruct (AddLink_spec E w3 c name (mkLinkInfo false a synced (now E)) Hc3)
    as ((c' & Hc' & HL') & _ & _).
  destruct (AddLink_registry_only E name (mkLinkInfo false a synced (now E)) w3)
    as [Hfs Hev].
  assert (Hr : r = (result_of r, world_of r, trace_of r)) by apply run_eta.
  revert Hr. subst r.
  unfold link.CreateLinkOrShortcut. expose.
  unfold link.CreateSymbolicLink.
  run_with HG. rewrite Habs. run_with HPE. cbn [negb]. run_with HL.
  run_with HID. run_with HIF. run_with HED. tidy.
  rewrite <- Hsy. run_with Hmv. run_with HSL. expose.
  set (ra := config.AddLink E name (mkLinkInfo false a synced (now E)) w3) in *.
  intros _.
  assert (Hw : ∀ (o : option error),
    world_of (match o with
              | Some e => emit (Warn WLinkedButNotSaved) ;;;
                          ret (Some (Wrap MLinkedButNotSaved e))
              | None => ret None
              end (world_of ra)) = world_of ra) by (intros [?|]; reflexivity).
  destruct (result_of ra) as [e|] eqn:Hra; tidy; expose; tidy; rewrite ?Hw.
  all: unfold same_tree in Hfs; rewrite Hfs; subst w3; cbn [fs set_fs].
  all: rewrite lookup_insert_eq, lookup_insert_ne by done.
  all: split; [exact Hs2|]; split; [reflexivity|].
  all: (split; [| split; [| split; [| split]]]).
  all: try (exists c'; split; [exact Hc'|]; rewrite HL'; apply lookup_insert_eq).
  all: try solve [left; reflexivity]; try solve [right; eauto].
  all: try (intros Hn; rewrite (Hren Hn); rewrite ?in_app_iff; cbn [In]; tauto).
  all: try (intros Hn; specialize (Htrunc Hn); rewrite ?in_app_iff; tauto).
  all: intros o Hin; rewrite ?in_app_iff in Hin; cbn [In] in Hin.
  all: rewrite Forall_forall in Hev.
  all: repeat match goal with
              | H : _ ∨ _ |- _ => destruct H
              | H : False |- _ => destruct H
              end;
       try discriminate;
       try (match goal with
            | H : Sys _ _ = Sys _ _ |- _ => injection H as -> _; contradiction
            end);
       try (eapply Hnostat; eassumption);
       try (match goal with
            | H : In _ (trace_of _) |- _ =>
                apply list_elem_of_In in H; specialize (Hev _ H); discriminate
            end).
Qed.

End Overwrite.

Section Create.
Context (E : Env).

Lemma PathExists_of_stat p w n t :
  os.Stat E p w = (inr n, w, t) → util.PathExists E p w = ((true, None), w, t).
Proof.
  intros H. unfold util.PathExists, util.PathExists_of.
  rewrite (bind_run _ _ _ _ _ _ H). tidy. rewrite app_nil_r. reflexivity.
Qed.

Lemma IsDir_of_stat p w n t :
  os.Stat E p w = (inr n, w, t) → util.IsDir E p w = ((is_dir n, None), w, t).
Proof.
  intros H. unfold util.IsDir.
  rewrite (bind_run _ _ _ _ _ _ H). tidy. rewrite app_nil_r. reflexivity.
Qed.

Lemma IsFile_of_stat p w n t :
  os.Stat E p w = (inr n, w, t) → util.IsFile E p w = ((is_regular n, None), w, t).
Proof.
  intros H. unfold util.IsFile.
  rewrite (bind_run _ _ _ _ _ _ H). tidy. rewrite app_nil_r. reflexivity.
Qed.

(** Creating the link for a directory whose synced path exists: rejected
    after four looks. *)
Lemma create_dir_existing_rejected target name syncDir w c a :
  configInstance w = Some c →
  Links c !! name = None →
  util.GetAbsPath E target = (a, None) →
  result_of (os.Stat E a w) = inr Dir →
  path_exists E w (filepath.Join syncDir name) →
  link.CreateLinkOrShortcut E target name syncDir false w
  = (Some (New MSyncTargetExists), w,
     [Sys (sys_stat a) None; Sys (sys_stat a) None; Sys (sys_stat a) None;
      Sys (sys_stat (filepath.Join syncDir name)) None]).
Proof.
  intros Hc Hl Habs Hst Hex.
  destruct (path_exists_stat _ _ _ Hex) as [n Hstat].
  assert (HG := GetConfig_loaded E _ _ Hc).
  assert (HL := GetLink_loaded _ _ name Hc). rewrite Hl in HL.
  assert (HSt := Stat_run E a w). rewrite Hst in HSt.
  assert (HP := PathExists_run E (filepath.Join syncDir name) w).
  rewrite Hex, Hstat in HP.
  cbn [errno_of] in HSt, HP.
  rewrite (run_eta (link.CreateLinkOrShortcut _ _ _ _ _ _)).
  unfold link.CreateLinkOrShortcut, link.CreateSymbolicLink.
  expose. run_with HG. rewrite Habs.
  run_with (PathExists_of_stat _ _ _ _ HSt). cbn [negb].
  run_with HL. run_with (IsDir_of_stat _ _ _ _ HSt).
  run_with (IsFile_of_stat _ _ _ _ HSt). cbn [is_regular is_dir].
  run_with HP. reflexivity.
Qed.

(** Creating a Symlink-kind redirect under a registered name is refused
    before anything is touched. *)
Lemma create_symlink_existing_name target name syncDir w c li :
  configInstance w = Some c →
  Links c !! name = Some li →
  let r := link.CreateLinkOrShortcut E target name syncDir false w in
  is_Some (result_of r) ∧ world_of r = w
  ∧ Forall (λ ev, is_sys mutating ev = false) (trace_of r).
Proof.
  intros Hc Hl r. subst r.
  assert (HG := GetConfig_loaded E _ _ Hc).
  assert (HL := GetLink_loaded _ _ name Hc). rewrite Hl in HL.
  unfold link.CreateLinkOrShortcut, link.CreateSymbolicLink.
  expose. run_with HG.
  destruct (util.GetAbsPath E target) as [a [e|]]; tidy.
  { repeat split; eauto. }
  assert (HP := PathExists_run E a w).
  destruct (result_of (util.PathExists E a w)) as [ex [e|]].
  all: run_with HP.
  { repeat split; eauto. repeat constructor. }
  destruct ex; cbn [negb]; tidy.
  2: { repeat split; eauto. repeat constructor. }
  run_with HL. repeat split; eauto. repeat constructor.
Qed.

End Create.

(* ===================================================================== *)
(** * Relink of a shortcut *)
(* ===================================================================== *)



Section ShortcutTree.
Context (E : Env) (p : string).

Abbreviation leaves_p := (keeps (untouched p) (λ _, True)).

Lemma mkdir_prefixes_untouched ps (t : gmap string node) n :
  t !! p = Some n → (os.mkdir_prefixes ps t).2 !! p = Some n.
Proof.
  revert t. induction ps as [|q ps IH]; intros t H; [exact H|].
  cbn [os.mkdir_prefixes]. destruct (t !! q) as [m|] eqn:Hq.
  - destruct (os.resolve os.max_links t q) as [e|[q' []]]; try exact H.
    apply IH, H.
  - apply IH. rewrite lookup_insert_ne; [exact H|]. congruence.
Qed.

Lemma perform_untouched {A} c
    (f : gmap string node → (errno + A) * gmap string node) :
  (∀ t n, t !! p = Some n → (f t).2 !! p = Some n) →
  leaves_p (os.perform E c f).
Proof.
  intros H w. unfold os.perform.
  destruct (fault E c); [split; [reflexivity | repeat constructor]|].
  specialize (H (fs w)). destruct (f (fs w)) as [r t].
  split; [|repeat constructor]. intros n Hn. exact (H n Hn).
Qed.

Lemma MkdirAll_untouched d : leaves_p (os.MkdirAll E d).
Proof.
  apply perform_untouched. intros t n H. apply mkdir_prefixes_untouched, H.
Qed.

Lemma Remove_untouched q : p ≠ q → leaves_p (os.Remove E q).
Proof.
  intros Hne. apply perform_untouched. intros t n H.
  destruct (t !! q) as [[]|]; cbn [snd]; try exact H;
    try (rewrite lookup_delete_ne by congruence; exact H).
  destruct (os.entries t q); cbn [snd]; [|exact H].
  rewrite lookup_delete_ne by congruence. exact H.
Qed.

Lemma Save_untouched lnk target : p ≠ lnk → leaves_p (ole.Save E lnk target).
Proof.
  intros Hne. apply perform_untouched. intros t n H.
  destruct (t !! lnk) as [[]|]; cbn [snd]; try exact H;
    rewrite lookup_insert_ne by congruence; exact H.
Qed.

Hint Resolve MkdirAll_untouched Remove_untouched Save_untouched : keeps.

Lemma createShortcutWindows_untouched target name base :
  p ≠ filepath.Join base (name +:+ ".lnk") →
  leaves_p (link.createShortcutWindows E target name base).
Proof.
  intros Hne. unfold link.createShortcutWindows, util.EnsureDirExists,
    util.EnsureDirExists_of, util.IsFile, os.Stat, ole.call.
  keeps_any.
Qed.

Lemma removeShortcutWindows_untouched name base li :
  p ≠ filepath.Join base (name +:+ ".lnk") →
  leaves_p (link.removeShortcutWindows E name base li).
Proof.
  intros Hne. unfold link.removeShortcutWindows, util.PathExists,
    util.PathExists_of, os.Stat.
  keeps_any.
Qed.

Hint Resolve createShortcutWindows_untouched removeShortcutWindows_untouched
  : keeps.


End ShortcutTree.

Section ShortcutArtifact.
Context (E : Env).




Lemma getStartMenu_world w :
  world_of (link.getStartMenuProgramsPathWindows E w) = w.
Proof.
  unfold link.getStartMenuProgramsPathWindows. expose.
  destruct (decide (getenv E "APPDATA" = EmptyString)); tidy; [|reflexivity].
  destruct (decide (getenv E "USERPROFILE" = EmptyString)); tidy; reflexivity.
Qed.


End ShortcutArtifact.

(* ===================================================================== *)
(** * Create under a registered name, relink in place *)
(* ===================================================================== *)


(** C1, at a registered name and the Shortcut kind: cfg is registered as
    a Symlink record, and creating a shortcut under the same name succeeds,
    writes a new artifact into the start menu and replaces the record. *)
Theorem C1_shortcut_create_replaces_registered_record :
  let r := link.CreateLinkOrShortcut E0 "/opt/tool.exe" "cfg" "/sync" true w_linked in
  configInstance w_linked = Some registry1
  ∧ Links registry1 !! "cfg" = Some cfg_record
  ∧ fs w_linked !! (start_menu +:+ "/cfg.lnk") = None
  ∧ result_of r = None
  ∧ (∃ c', configInstance (world_of r) = Some c'
           ∧ Links c' !! "cfg"
             = Some (mkLinkInfo true "/opt/tool.exe" (start_menu +:+ "/cfg.lnk") 7))
  ∧ fs (world_of r) !! (start_menu +:+ "/cfg.lnk")
    = Some (File (lnk_bytes "/opt/tool.exe")).
Proof.
  vm_compute. repeat split. eexists. split; reflexivity.
Qed.


Section Relink.
Context (E : Env).



End Relink.


(* ===================================================================== *)
(** * Bulk operations and the first load *)
(* ===================================================================== *)

Section Bulk.
Context (E : Env).

(** The loop of the bulk unlink never touches failCount. *)
Lemma unlinkLoop_failCount names s f w :
  (result_of (cmd.unlinkLoop E names s f w)).2 = f.
Proof.
  revert s f w. induction names as [|name rest IH]; intros s f w; [reflexivity|].
  cbn [cmd.unlinkLoop]. expose.
  destruct (result_of (link.RemoveLinkOrShortcut E name w)); expose; apply IH.
Qed.

End Bulk.

(** C3, the bulk unlink at a link whose removal fails: the failure is
    printed, the batch ends without error, and the tally still reports no
    failure (1 link, 0 succeeded, 0 failed). *)
Theorem C3_unlink_all_reports_no_failure :
  let r := cmd.unlinkRun E0 "*" ["cfg"] w_conflict in
  result_of (link.RemoveLinkOrShortcut E0 "cfg" w_conflict)
  = Some (Wrap MRemoveSymbolic (New MConflictRecordRemoved))
  ∧ result_of r = None
  ∧ In (LinkFailed "cfg" (Wrap MRemoveSymbolic (New MConflictRecordRemoved)))
       (trace_of r)
  ∧ last (trace_of r) = Some (Tally 1 0 0).
Proof.
  vm_compute. repeat split. tauto.
Qed.

(** [racy_schedule] is a schedule of the two goroutines. *)
Lemma racy_schedule_is_schedule :
  cmd.schedule_of ["notes"; "cfg"] racy_schedule.
Proof.
  split.
  - unfold racy_schedule, cmd.sequential. cbn.
    apply perm_skip. apply perm_swap.
  - intros name i j Hi Hj.
    destruct i as [|[|[|[|i]]]]; cbn in Hi; try discriminate;
    destruct j as [|[|[|[|j]]]]; cbn in Hj; try discriminate; try lia;
    congruence.
Qed.

(** With the goroutines interleaved, the failure of one link is counted as
    a success: lastErr is shared and written outside the mutex. *)
Lemma relink_all_race_miscounts :
  let r := cmd.runRelink E0 "*" racy_schedule w_two in
  is_Some (result_of (link.RelinkLinkOrShortcut E0 "notes" w_two))
  ∧ result_of (link.RelinkLinkOrShortcut E0 "cfg" w_two) = None
  ∧ last (trace_of r) = Some (Tally 2 2 0)
  ∧ last (trace_of (cmd.runRelink E0 "*" (cmd.sequential ["notes"; "cfg"]) w_two))
    = Some (Tally 2 1 1).
Proof.
  vm_compute. repeat split. eauto.
Qed.

Section Load.
Context (E : Env).

(** C7, the registry file of length zero: the load warns, then fails with
    the parse error and leaves no instance, because encoding/json rejects
    the empty input and the test against the two trivial documents can
    never hold for data of length zero. *)
Theorem C7_empty_registry_file_is_fatal w :
  once w = false →
  configPath E ≠ EmptyString →
  fault E cfg_stat = None →
  fault E cfg_readfile = None →
  disk w = Some EmptyString →
  json_unmarshal E EmptyString
    (mkConfig (mkSettings EmptyString) ∅ EmptyString) = None →
  let r := config.LoadConfig E w in
  result_of r = (None, Some (New MLoadParseEmpty))
  ∧ configInstance (world_of r) = None
  ∧ In (Warn WConfigEmpty) (trace_of r).
Proof.
  intros Ho Hp Hs Hr Hd Hj r. subst r.
  unfold config.LoadConfig, config.loadOnce, config.getConfigPath,
    util.PathExists_of, storage.Stat, storage.ReadFile.
  destruct (decide (configPath E = EmptyString)) as [|_]; [contradiction|].
  unfold bind, get_world, modify, emit, ret. cbn.
  rewrite Ho. cbn. rewrite Hs, Hd. cbn. rewrite Hr. cbn. rewrite Hd. cbn.
  rewrite Hj. cbn. repeat split; auto 6.
Qed.

End Load.

(** The first load in [w_empty_registry]. *)
Lemma C7_empty_registry_file_is_fatal_witness :
  let r := config.LoadConfig E0 w_empty_registry in
  result_of r = (None, Some (New MLoadParseEmpty))
  ∧ configInstance (world_of r) = None
  ∧ In (Warn WConfigEmpty) (trace_of r).
Proof.
  apply (C7_empty_registry_file_is_fatal E0 w_empty_registry);
    first [reflexivity | discriminate].
Defined.

(* ===================================================================== *)
(** * Create: file and directory targets *)
(* ===================================================================== *)

Section CreateFile.
Context (E : Env).

(** C10: creating a Symlink-kind link for a regular file never looks at
    the synced path under files: when a regular file is already there, and
    no call but possibly the rename is refused, the create goes through,
    the synced path then holds the content of the target (the old content
    is gone) and the original path is the symbolic link.  On one device
    the rename replaced the file; when the rename failed across devices
    the copy opened the destination with truncation.  For a directory
    target the synced path is checked, and the create is rejected before
    anything is changed. *)
Theorem C10_file_create_overwrites_synced_path target name syncDir w c a :
  configInstance w = Some c →
  Links c !! name = None →
  util.GetAbsPath E target = (a, None) →
  let r := link.CreateLinkOrShortcut E target name syncDir false w in
  (∀ d old,
     let synced := filepath.Join (filepath.Join syncDir "files") name in
     (∀ call, call ≠ sys_rename a synced → fault E call = None) →
     iocopy_short E synced = None →
     a ≠ synced →
     filepath.under a synced = false →
     filepath.Dir synced = filepath.Join syncDir "files" →
     has_dirs w (filepath.Join syncDir "files") →
     fs w !! a = Some (File d) →
     fs w !! synced = Some (File old) →
     fault E (sys_rename a synced) = None
     ∨ (∃ e, fault E (sys_rename a synced) = Some e
             ∧ util.is_cross_device e = true) →
     fs (world_of r) !! synced = Some (File d)
     ∧ fs (world_of r) !! a = Some (Symlink synced)
     ∧ (∀ o, ¬ In (Sys (sys_stat synced) o) (trace_of r))
     ∧ (∃ c', configInstance (world_of r) = Some c'
              ∧ Links c' !! name = Some (mkLinkInfo false a synced (now E)))
     ∧ (result_of r = None ∨ ∃ e, result_of r = Some (Wrap MLinkedButNotSaved e))
     ∧ (fault E (sys_rename a synced) = None →
        In (Sys (sys_rename a synced) None) (trace_of r))
     ∧ (fault E (sys_rename a synced) ≠ None →
        In (Sys (sys_opentrunc synced) None) (trace_of r)))
  ∧ (result_of (os.Stat E a w) = inr Dir →
     path_exists E w (filepath.Join syncDir name) →
     r = (Some (New MSyncTargetExists), w,
          [Sys (sys_stat a) None; Sys (sys_stat a) None; Sys (sys_stat a) None;
           Sys (sys_stat (filepath.Join syncDir name)) None])).
Proof.
  intros Hc Hl Habs r. split.
  - intros d old synced Hfault Hshort Hne Hu Hdir Hdirs Ha Hs Hrn.
    pose proof (create_file_over_file E a synced Hfault Hshort Hne
                  target name syncDir w c d old Hc Hl Habs eq_refl Hdir Hdirs
                  Ha Hs Hu Hrn) as H.
    exact H.
  - intros Hst Hex.
    exact (create_dir_existing_rejected E target name syncDir w c a
             Hc Hl Habs Hst Hex).
Qed.

End CreateFile.

(* ===================================================================== *)
(** * The theorems at concrete inputs *)
(* ===================================================================== *)




(** Creating cfg in [w_occupied], on one device and across devices: the
    older content at the synced path is replaced by the content of the
    target. *)
Lemma C10_file_create_overwrites_synced_path_witness :
  let r := link.CreateLinkOrShortcut E0 "/home/u/app.conf" "cfg" "/sync" false
             w_occupied in
  let r' := link.CreateLinkOrShortcut E_xdev "/home/u/app.conf" "cfg" "/sync"
              false w_occupied in
  fs w_occupied !! "/sync/files/cfg" = Some (File "older content")
  ∧ (result_of r = None
     ∧ fs (world_of r) !! "/sync/files/cfg" = Some (File "data")
     ∧ fs (world_of r) !! "/home/u/app.conf" = Some (Symlink "/sync/files/cfg")
     ∧ (∀ o, ¬ In (Sys (sys_stat "/sync/files/cfg") o) (trace_of r))
     ∧ In (Sys (sys_rename "/home/u/app.conf" "/sync/files/cfg") None)
          (trace_of r))
  ∧ (result_of r' = None
     ∧ fs (world_of r') !! "/sync/files/cfg" = Some (File "data")
     ∧ fs (world_of r') !! "/home/u/app.conf" = Some (Symlink "/sync/files/cfg")
     ∧ (∀ o, ¬ In (Sys (sys_stat "/sync/files/cfg") o) (trace_of r'))
     ∧ In (Sys (sys_opentrunc "/sync/files/cfg") None) (trace_of r')).
Proof.
  split; [reflexivity|]. split.
  - destruct (C10_file_create_overwrites_synced_path E0 "/home/u/app.conf" "cfg"
                "/sync" w_occupied (mkConfig (mkSettings "/sync") ∅ "1.0")
                "/home/u/app.conf" eq_refl eq_refl eq_refl) as [H _].
    destruct (H "data" "older content") as (H1 & H2 & H3 & _ & _ & H4 & _).
    + intros call _. reflexivity.
    + reflexivity.
    + discriminate.
    + reflexivity.
    + reflexivity.
    + vm_compute. repeat constructor.
    + reflexivity.
    + reflexivity.
    + left. reflexivity.
    + split; [vm_compute; reflexivity|].
      split; [exact H1|]. split; [exact H2|]. split; [exact H3|].
      exact (H4 eq_refl).
  - destruct (C10_file_create_overwrites_synced_path E_xdev "/home/u/app.conf"
                "cfg" "/sync" w_occupied (mkConfig (mkSettings "/sync") ∅ "1.0")
                "/home/u/app.conf" eq_refl eq_refl eq_refl) as [H _].
    destruct (H "data" "older content") as (H1 & H2 & H3 & _ & _ & _ & H4).
    + intros call Hc. cbn. destruct (decide _) as [->|]; [contradiction|].
      reflexivity.
    + reflexivity.
    + discriminate.
    + reflexivity.
    + reflexivity.
    + vm_compute. repeat constructor.
    + reflexivity.
    + reflexivity.
    + right. exists EXDEV. split; reflexivity.
    + split; [vm_compute; reflexivity|].
      split; [exact H1|]. split; [exact H2|]. split; [exact H3|].
      apply H4. discriminate.
Defined.

(* ===================================================================== *)
(** * Further properties of the engine *)
(* ===================================================================== *)

(** ** Runs in an environment that refuses nothing *)

Section NoFault.
Context (E : Env) (Hok : no_fault E).

Lemma observe_ok {A} c (f : gmap string node → errno + A) w :
  os.observe E c f w = (f (fs w), w, [Sys c (errno_of (f (fs w)))]).
Proof. unfold os.observe. rewrite Hok. reflexivity. Qed.

Lemma perform_ok {A} c (f : gmap string node → (errno + A) * gmap string node) w :
  os.perform E c f w
  = ((f (fs w)).1, set_fs (f (fs w)).2 w, [Sys c (errno_of (f (fs w)).1)]).
Proof. unfold os.perform. rewrite Hok. destruct (f (fs w)). reflexivity. Qed.

Lemma resolve_missing fuel (t : gmap string node) p :
  t !! p = None → os.resolve fuel t p = inl ENOENT.
Proof. intros H. destruct fuel; cbn; rewrite H; reflexivity. Qed.

Lemma resolve_link fuel (t : gmap string node) p q :
  t !! p = Some (Symlink q) → os.resolve (S fuel) t p = os.resolve fuel t q.
Proof. intros H. cbn. rewrite H. reflexivity. Qed.

Lemma Stat_plain p w n :
  fs w !! p = Some n → is_symlink n = false →
  os.Stat E p w = (inr n, w, [Sys (sys_stat p) None]).
Proof.
  intros H Hn. unfold os.Stat. rewrite observe_ok.
  rewrite (resolve_plain _ _ _ _ H Hn). reflexivity.
Qed.

Lemma Stat_missing p w :
  fs w !! p = None →
  os.Stat E p w = (inl ENOENT, w, [Sys (sys_stat p) (Some ENOENT)]).
Proof.
  intros H. unfold os.Stat. rewrite observe_ok.
  rewrite (resolve_missing _ _ _ H). reflexivity.
Qed.

Lemma Stat_link p q w n :
  fs w !! p = Some (Symlink q) → fs w !! q = Some n → is_symlink n = false →
  os.Stat E p w = (inr n, w, [Sys (sys_stat p) None]).
Proof.
  intros H Hq Hn. unfold os.Stat. rewrite observe_ok. unfold os.max_links.
  rewrite (resolve_link _ _ _ _ H), (resolve_plain _ _ _ _ Hq Hn). reflexivity.
Qed.


Lemma Lstat_ok p w n :
  fs w !! p = Some n → os.Lstat E p w = (inr n, w, [Sys (sys_lstat p) None]).
Proof. intros H. unfold os.Lstat. rewrite observe_ok, H. reflexivity. Qed.

Lemma Readlink_ok p q w :
  fs w !! p = Some (Symlink q) →
  os.Readlink E p w = (inr q, w, [Sys (sys_readlink p) None]).
Proof. intros H. unfold os.Readlink. rewrite observe_ok, H. reflexivity. Qed.

Lemma Symlink_ok target link w :
  fs w !! link = None →
  os.Symlink E target link w
  = (inr tt, set_fs (<[link := Symlink target]> (fs w)) w,
     [Sys (sys_symlink target link) None]).
Proof. intros H. unfold os.Symlink. rewrite perform_ok, H. reflexivity. Qed.


Lemma Remove_ok p w n :
  fs w !! p = Some n → is_dir n = false →
  os.Remove E p w
  = (inr tt, set_fs (delete p (fs w)) w, [Sys (sys_remove p) None]).
Proof.
  intros H Hn. unfold os.Remove. rewrite perform_ok, H.
  destruct n; try discriminate; reflexivity.
Qed.

Lemma Rename_file_ok src dst w n :
  fs w !! src = Some n → is_dir n = false →
  (∀ m, fs w !! dst = Some m → is_dir m = false) →
  os.Rename E src dst w
  = (inr tt, set_fs (<[dst := n]> (delete src (fs w))) w,
     [Sys (sys_rename src dst) None]).
Proof.
  intros H Hn Hd. unfold os.Rename. rewrite perform_ok, H.
  destruct (fs w !! dst) as [m|] eqn:Hm.
  - specialize (Hd m eq_refl). destruct m; try discriminate;
      destruct n; try discriminate; reflexivity.
  - destruct n; try discriminate; reflexivity.
Qed.

Lemma PathExists_missing p w t :
  os.Stat E p w = (inl ENOENT, w, t) →
  util.PathExists E p w = ((false, None), w, t).
Proof.
  intros H. unfold util.PathExists, util.PathExists_of.
  rewrite (bind_run _ _ _ _ _ _ H). tidy. rewrite app_nil_r. reflexivity.
Qed.

Lemma IsSymlink_ok p w n :
  fs w !! p = Some n →
  util.IsSymlink E p w = ((is_symlink n, None), w, [Sys (sys_lstat p) None]).
Proof.
  intros H. unfold util.IsSymlink.
  rewrite (bind_run _ _ _ _ _ _ (Lstat_ok p w n H)). tidy. reflexivity.
Qed.

End NoFault.

Lemma no_fault_E0 : no_fault E0.
Proof. intros c. reflexivity. Qed.

Lemma can_save_E0 : can_save E0.
Proof. split; [discriminate|]. intros c. eexists. reflexivity. Qed.

(** ** The registry and its file *)

Ltac go := repeat (progress (expose; tidy)).

Section RegistryApi.
Context (E : Env).

(** The links behave as a map through AddLink, GetLink and RemoveLink,
    whatever the save does. *)
Theorem registry_links_are_a_map w c name info :
  configInstance w = Some c →
  let w1 := world_of (config.AddLink E name info w) in
  let w2 := world_of (config.RemoveLink E name w1) in
  result_of (config.GetLink name w1) = (info, true)
  ∧ (∀ other, other ≠ name →
       result_of (config.GetLink other w1) = result_of (config.GetLink other w)
       ∧ result_of (config.GetLink other w2) = result_of (config.GetLink other w))
  ∧ result_of (config.GetLink name w2) = (config.zeroLinkInfo, false)
  ∧ (result_of (config.RemoveLink E name w1)).1 = true
  ∧ (Links c !! name = None → result_of (config.GetLinks w2) = Links c).
Proof.
  intros Hc w1 w2.
  destruct (AddLink_spec E w c name info Hc) as ((c1 & Hc1 & HL1) & _).
  fold w1 in Hc1.
  destruct (RemoveLink_spec E w1 c1 name Hc1) as (_ & HR).
  destruct HR as (Hrm & (c2 & Hc2 & HL2) & _).
  { rewrite HL1, lookup_insert_eq. eauto. }
  fold w2 in Hc2. clearbody w2. clearbody w1.
  rewrite (GetLink_loaded w1 c1 name Hc1), (GetLink_loaded w2 c2 name Hc2).
  cbn [result_of fst]. rewrite HL1, HL2, lookup_insert_eq, lookup_delete_eq.
  split; [reflexivity|]. split.
  { intros other Hne.
    rewrite (GetLink_loaded w1 c1 other Hc1), (GetLink_loaded w2 c2 other Hc2),
      (GetLink_loaded w c other Hc).
    cbn [result_of fst]. rewrite HL2, HL1.
    rewrite lookup_delete_ne, lookup_insert_ne by done. auto. }
  split; [reflexivity|]. split; [exact Hrm|].
  intros Hn. unfold config.GetLinks, bind, get_world, ret. cbn.
  rewrite Hc2, HL2, HL1. rewrite delete_insert_eq. apply delete_id, Hn.
Qed.

(** SetDefaultSyncPath stores the absolute path, which GetDefaultSyncPath
    and GetSettings then return, whatever the save does; a path that cannot
    be made absolute changes nothing. *)
Theorem default_sync_path_set_then_get w c newPath :
  configInstance w = Some c →
  let r := config.SetDefaultSyncPath E newPath w in
  (∀ absPath, util.GetAbsPath E newPath = (absPath, None) →
     result_of (config.GetSettings (world_of r)) = mkSettings absPath
     ∧ (absPath ≠ EmptyString →
        result_of (config.GetDefaultSyncPath (world_of r)) = (absPath, None))
     ∧ (absPath = EmptyString →
        result_of (config.GetDefaultSyncPath (world_of r))
        = (EmptyString, Some (New MSyncPathUnset)))
     ∧ result_of (config.GetLinks (world_of r)) = Links c)
  ∧ (∀ p e, util.GetAbsPath E newPath = (p, Some e) →
       r = (Some (Wrap MInvalidPath e), w, [])).
Proof.
  intros Hc r. split.
  - intros absPath Ha.
    pose (w1 := set_configInstance (Some (set_DefaultSyncPath absPath c)) w).
    assert (H1 : configInstance w1 = Some (set_DefaultSyncPath absPath c))
      by reflexivity.
    destruct (SaveConfig_spec E w1 _ H1) as ((c' & Hc' & HL & HS) & _).
    assert (Hw : world_of r = world_of (config.SaveConfig E w1)).
    { subst r. unfold config.SetDefaultSyncPath, config.update. rewrite Ha.
      go. rewrite Hc. reflexivity. }
    rewrite Hw. clearbody r.
    assert (Hset : CfgSettings c' = mkSettings absPath) by (rewrite HS; reflexivity).
    assert (HG : result_of (config.GetSettings (world_of (config.SaveConfig E w1)))
                 = mkSettings absPath).
    { unfold config.GetSettings. go. rewrite Hc'. exact Hset. }
    split; [exact HG|].
    assert (HD : ∀ w2, result_of (config.GetSettings w2) = mkSettings absPath →
              result_of (config.GetDefaultSyncPath w2)
              = if decide (absPath = EmptyString)
                then (EmptyString, Some (New MSyncPathUnset))
                else (absPath, None)).
    { intros w2 H2. unfold config.GetDefaultSyncPath. rewrite result_bind, H2.
      cbn [DefaultSyncPath].
      destruct (decide (absPath = EmptyString)); reflexivity. }
    rewrite (HD _ HG).
    split; [intros Hne; destruct (decide _); [contradiction | reflexivity]|].
    split; [intros He; destruct (decide _); [reflexivity | contradiction]|].
    unfold config.GetLinks. go. rewrite Hc'. rewrite HL. reflexivity.
  - intros p e Ha. subst r. unfold config.SetDefaultSyncPath. rewrite Ha.
    reflexivity.
Qed.

End RegistryApi.

Lemma registry_links_are_a_map_witness :
  let w1 := world_of (config.AddLink E0 "notes" note_record w_linked) in
  let w2 := world_of (config.RemoveLink E0 "notes" w1) in
  result_of (config.GetLink "notes" w1) = (note_record, true)
  ∧ result_of (config.GetLink "cfg" w1) = (cfg_record, true)
  ∧ result_of (config.GetLink "notes" w2) = (config.zeroLinkInfo, false)
  ∧ result_of (config.GetLinks w2) = Links registry1.
Proof.
  destruct (registry_links_are_a_map E0 w_linked registry1 "notes" note_record
              eq_refl) as (H1 & H2 & H3 & _ & H4).
  split; [exact H1|]. split.
  - destruct (H2 "cfg") as [H _]; [discriminate|]. rewrite H. reflexivity.
  - split; [exact H3|]. apply H4. reflexivity.
Defined.

Lemma default_sync_path_set_then_get_witness :
  let r := config.SetDefaultSyncPath E0 "/data/sync" w_linked in
  result_of (config.GetDefaultSyncPath (world_of r)) = ("/data/sync", None)
  ∧ result_of (config.GetLinks (world_of r)) = Links registry1.
Proof.
  destruct (default_sync_path_set_then_get E0 w_linked registry1 "/data/sync"
              eq_refl) as [H _].
  destruct (H "/data/sync" eq_refl) as (_ & H1 & _ & H2).
  split; [apply H1; discriminate | exact H2].
Defined.

Section Load2.
Context (E : Env).

Lemma storage_Stat_some w d :
  fault E cfg_stat = None → disk w = Some d →
  storage.Stat E w = (inr (File d), w, [Sys cfg_stat None]).
Proof. intros Hf Hd. unfold storage.Stat. rewrite Hf, Hd. reflexivity. Qed.

Lemma storage_Stat_none w :
  fault E cfg_stat = None → disk w = None →
  storage.Stat E w = (inl ENOENT, w, [Sys cfg_stat (Some ENOENT)]).
Proof. intros Hf Hd. unfold storage.Stat. rewrite Hf, Hd. reflexivity. Qed.

Lemma storage_MkdirAll_ok w :
  fault E cfg_mkdirall = None →
  storage.MkdirAll E w = (inr tt, w, [Sys cfg_mkdirall None]).
Proof. intros Hf. unfold storage.MkdirAll. rewrite Hf. reflexivity. Qed.

Lemma storage_ReadFile_ok w d :
  fault E cfg_readfile = None → disk w = Some d →
  storage.ReadFile E w = (inr d, w, [Sys cfg_readfile None]).
Proof. intros Hf Hd. unfold storage.ReadFile. rewrite Hf, Hd. reflexivity. Qed.

Lemma storage_WriteFile_ok w data :
  fault E (cfg_writefile data) = None →
  storage.WriteFile E data w
  = (inr tt, set_disk (Some data) w, [Sys (cfg_writefile data) None]).
Proof. intros Hf. unfold storage.WriteFile. rewrite Hf. reflexivity. Qed.

Lemma getConfigPath_ok :
  configPath E ≠ EmptyString → config.getConfigPath E = (configPath E, None).
Proof.
  intros H. unfold config.getConfigPath.
  destruct (decide (configPath E = EmptyString)); [contradiction | reflexivity].
Qed.

Lemma saveConfigInternal_ok path cfg data w :
  fault E cfg_mkdirall = None →
  json_marshal E cfg = Some data →
  fault E (cfg_writefile data) = None →
  config.saveConfigInternal E path cfg w
  = (None, set_disk (Some data) w,
     [Sys cfg_mkdirall None; Sys (cfg_writefile data) None]).
Proof.
  intros Hm Hj Hw.
  rewrite (run_eta (config.saveConfigInternal E path cfg w)).
  unfold config.saveConfigInternal, util.EnsureDirExists_of.
  run_with (storage_MkdirAll_ok w Hm). rewrite Hj.
  run_with (storage_WriteFile_ok w data Hw). reflexivity.
Qed.

(** The first load without a registry file writes the default registry and
    loads it. *)
Theorem load_without_file_creates_default w data :
  once w = false →
  configPath E ≠ EmptyString →
  disk w = None →
  fault E cfg_stat = None →
  fault E cfg_mkdirall = None →
  json_marshal E defaultConfig = Some data →
  fault E (cfg_writefile data) = None →
  let r := config.LoadConfig E w in
  result_of r = (Some defaultConfig, None)
  ∧ configInstance (world_of r) = Some defaultConfig
  ∧ disk (world_of r) = Some data
  ∧ fs (world_of r) = fs w
  ∧ Links defaultConfig = ∅ ∧ Version defaultConfig = CurrentVersion.
Proof.
  intros Ho Hp Hd Hs Hm Hj Hw r.
  set (w1 := set_once true w).
  assert (Hd1 : disk w1 = None) by exact Hd.
  assert (Hr : r = ((Some defaultConfig, None),
                    set_configInstance (Some defaultConfig)
                      (set_disk (Some data) w1),
                    [Sys cfg_stat (Some ENOENT); Sys cfg_mkdirall None;
                     Sys cfg_mkdirall None; Sys (cfg_writefile data) None])).
  { subst r. rewrite (run_eta (config.LoadConfig E w)).
    unfold config.LoadConfig. go. rewrite Ho. go.
    unfold config.loadOnce. rewrite (getConfigPath_ok Hp). cbn beta iota.
    unfold util.PathExists_of, util.EnsureDirExists_of.
    fold w1. run_with (storage_Stat_none w1 Hs Hd1). cbn [negb]. go.
    run_with (storage_MkdirAll_ok w1 Hm). fold defaultConfig.
    run_with (saveConfigInternal_ok (configPath E) defaultConfig data w1 Hm Hj Hw).
    go. reflexivity. }
  rewrite Hr. repeat split.
Qed.

End Load2.

Section Load3.
Context (E : Env).

Lemma storage_Stat_world w : world_of (storage.Stat E w) = w.
Proof. reflexivity. Qed.
Lemma storage_MkdirAll_world w : world_of (storage.MkdirAll E w) = w.
Proof. reflexivity. Qed.
Lemma storage_ReadFile_world w : world_of (storage.ReadFile E w) = w.
Proof. reflexivity. Qed.
Lemma storage_WriteFile_instance d w :
  configInstance (world_of (storage.WriteFile E d w)) = configInstance w
  ∧ once (world_of (storage.WriteFile E d w)) = once w.
Proof. unfold storage.WriteFile. destruct (fault E (cfg_writefile d)); split; reflexivity. Qed.

Lemma saveConfigInternal_instance p c w :
  configInstance (world_of (config.saveConfigInternal E p c w)) = configInstance w
  ∧ once (world_of (config.saveConfigInternal E p c w)) = once w.
Proof.
  unfold config.saveConfigInternal, util.EnsureDirExists_of. expose.
  rewrite !storage_MkdirAll_world.
  destruct (result_of (storage.MkdirAll E w)); tidy; [auto|].
  destruct (json_marshal E c) as [data|]; tidy; [|auto].
  expose. destruct (storage_WriteFile_instance data w) as [H1 H2].
  destruct (result_of (storage.WriteFile E data w)); tidy; auto.
Qed.

(** loadOnce leaves the once flag alone, and a failed loadOnce leaves no
    instance behind. *)
Lemma loadOnce_failure w :
  configInstance w = None →
  once (world_of (config.loadOnce E w)) = once w
  ∧ (is_Some (result_of (config.loadOnce E w)) →
     configInstance (world_of (config.loadOnce E w)) = None).
Proof.
  intros Hc. unfold config.loadOnce.
  destruct (config.getConfigPath E) as [p [e|]]; tidy; [auto|].
  unfold util.PathExists_of, util.EnsureDirExists_of. expose.
  rewrite !storage_Stat_world.
  destruct (result_of (storage.Stat E w)) as [[]|n]; tidy; auto.
  - (* no file *)
    cbn [negb]. expose. rewrite !storage_MkdirAll_world.
    destruct (result_of (storage.MkdirAll E w)); tidy; [auto|].
    expose.
    destruct (saveConfigInternal_instance p
                (mkConfig (mkSettings EmptyString) ∅ CurrentVersion) w) as [H1 H2].
    destruct (result_of (config.saveConfigInternal E p _ w)); tidy.
    + rewrite H1, H2. auto.
    + expose. tidy. split; [exact H2|]. intros [x Hx]. discriminate.
  - (* a file *)
    cbn [negb]. expose. rewrite !storage_ReadFile_world.
    destruct (result_of (storage.ReadFile E w)) as [e|data]; tidy; [auto|].
    destruct (String.length data =? 0)%nat.
    + expose. tidy.
      destruct (json_unmarshal E data _) as [c|].
      * expose. tidy. split; [reflexivity|]. intros [x Hx]. discriminate.
      * destruct (negb (data =? "{}")%string && negb (data =? "null")%string).
        -- expose. tidy. auto.
        -- tidy. split; [reflexivity|]. intros [x Hx]. discriminate.
    + destruct (json_unmarshal E data _) as [c|]; tidy; [|auto].
      expose.
      destruct (negb (Version c =? CurrentVersion)%string); expose; tidy;
        (split; [reflexivity|]); intros [x Hx]; discriminate.
Qed.

(** A load that failed is not tried again: every later LoadConfig and
    GetConfig of the process fails without looking at the file. *)
Theorem failed_load_is_final w :
  once w = false →
  configInstance w = None →
  let r := config.LoadConfig E w in
  is_Some (result_of r).2 →
  let w' := world_of r in
  config.LoadConfig E w' = ((None, Some (New MLoadNil)), w', [])
  ∧ config.GetConfig E w' = ((None, Some (New MLoadNil)), w', []).
Proof.
  intros Ho Hc r Hfail w'.
  assert (H : once w' = true ∧ configInstance w' = None).
  { subst w' r. revert Hfail. unfold config.LoadConfig. go. rewrite Ho. go.
    set (w1 := set_once true w).
    assert (Hc1 : configInstance w1 = None) by exact Hc.
    destruct (loadOnce_failure w1 Hc1) as [H1 H2].
    destruct (result_of (config.loadOnce E w1)) as [e|] eqn:Hres; go.
    - intros _. split; [exact H1 | apply H2; eauto].
    - destruct (configInstance (world_of (config.loadOnce E w1))) eqn:Hci; go.
      + intros [x Hx]. discriminate.
      + intros _. split; [exact H1 | exact Hci]. }
  destruct H as [Ho' Hc'].
  assert (HL : config.LoadConfig E w' = ((None, Some (New MLoadNil)), w', [])).
  { rewrite (run_eta (config.LoadConfig E w')). unfold config.LoadConfig. go.
    rewrite Ho'. go. rewrite Hc'. go. reflexivity. }
  split; [exact HL|].
  rewrite (run_eta (config.GetConfig E w')). unfold config.GetConfig. go.
  rewrite Hc'. go. rewrite !HL. go. reflexivity.
Qed.

End Load3.

Section Load4.
Context (E : Env).

(** The run of the first load over a registry file that parses. *)
Lemma load_parsed w data cfg :
  once w = false →
  configPath E ≠ EmptyString →
  disk w = Some data →
  data ≠ EmptyString →
  fault E cfg_stat = None →
  fault E cfg_readfile = None →
  json_unmarshal E data blankConfig = Some cfg →
  config.LoadConfig E w
  = (if String.eqb (Version cfg) CurrentVersion
     then ((Some cfg, None),
           set_configInstance (Some cfg) (set_once true w),
           [Sys cfg_stat None; Sys cfg_readfile None])
     else ((Some (set_Version CurrentVersion cfg), None),
           set_configInstance (Some (set_Version CurrentVersion cfg))
             (set_once true w),
           [Sys cfg_stat None; Sys cfg_readfile None; Warn WVersionMismatch])).
Proof.
  intros Ho Hp Hd Hne Hs Hr Hj.
  set (w1 := set_once true w).
  assert (Hd1 : disk w1 = Some data) by exact Hd.
  assert (Hlen : (String.length data =? 0)%nat = false).
  { destruct data; [contradiction | reflexivity]. }
  rewrite (run_eta (config.LoadConfig E w)).
  unfold config.LoadConfig. go. rewrite Ho. go.
  unfold config.loadOnce. rewrite (getConfigPath_ok E Hp). cbn beta iota.
  unfold util.PathExists_of.
  fold w1. run_with (storage_Stat_some E w1 data Hs Hd1). cbn [negb].
  run_with (storage_ReadFile_ok E w1 data Hr Hd1). rewrite Hlen.
  fold blankConfig. rewrite Hj.
  destruct (String.eqb (Version cfg) CurrentVersion); cbn [negb]; go;
    reflexivity.
Qed.

(** A registry of another version is loaded with a warning; its version is
    set in memory, its links and settings are kept, and the file is left as
    it is. *)
Theorem load_other_version_warns w data cfg :
  once w = false →
  configPath E ≠ EmptyString →
  disk w = Some data →
  data ≠ EmptyString →
  fault E cfg_stat = None →
  fault E cfg_readfile = None →
  json_unmarshal E data blankConfig = Some cfg →
  Version cfg ≠ CurrentVersion →
  let r := config.LoadConfig E w in
  ∃ c', result_of r = (Some c', None)
        ∧ configInstance (world_of r) = Some c'
        ∧ Version c' = CurrentVersion
        ∧ Links c' = Links cfg ∧ CfgSettings c' = CfgSettings cfg
        ∧ In (Warn WVersionMismatch) (trace_of r)
        ∧ disk (world_of r) = Some data
        ∧ read_only (trace_of r).
Proof.
  intros Ho Hp Hd Hne Hs Hr Hj Hv r. subst r.
  rewrite (load_parsed w data cfg Ho Hp Hd Hne Hs Hr Hj).
  assert (Hver : String.eqb (Version cfg) CurrentVersion = false)
    by (apply String.eqb_neq; exact Hv).
  rewrite Hver. exists (set_Version CurrentVersion cfg).
  repeat split; try exact Hd; cbn; auto.
  repeat constructor.
Qed.

(** A SaveConfig that succeeds leaves the stamped registry loaded and its
    serialization in the file. *)
Lemma SaveConfig_success w c :
  configInstance w = Some c →
  result_of (config.SaveConfig E w) = None →
  configPath E ≠ EmptyString
  ∧ configInstance (world_of (config.SaveConfig E w))
    = Some (set_Version CurrentVersion c)
  ∧ ∃ data, json_marshal E (set_Version CurrentVersion c) = Some data
            ∧ disk (world_of (config.SaveConfig E w)) = Some data.
Proof.
  intros Hc Hres.
  destruct (SaveConfig_spec E w c Hc) as (_ & Hp & _).
  destruct (Hp Hres) as (c'' & data & Hc'' & Hm & Hd).
  revert Hc'' Hres. unfold config.SaveConfig. go. rewrite Hc. go.
  unfold config.getConfigPath.
  destruct (decide (configPath E = EmptyString)); go; [discriminate|].
  destruct (saveConfigInternal_instance E (configPath E)
              (set_Version CurrentVersion c)
              (set_configInstance (Some (set_Version CurrentVersion c)) w))
    as [H1 _].
  rewrite H1. cbn [configInstance set_configInstance].
  intros [= <-] Hres. split; [assumption|]. split; [reflexivity|].
  exists data. split; [exact Hm|]. revert Hd.
  unfold config.SaveConfig. go. rewrite Hc. go.
  unfold config.getConfigPath.
  destruct (decide (configPath E = EmptyString)); go; [contradiction|]. auto.
Qed.

(** What SaveConfig wrote, the load of a new process reads back, when the
    decoder inverts the encoder on it. *)
Theorem saved_registry_loads_back w c data :
  configInstance w = Some c →
  let saved := set_Version CurrentVersion c in
  let s := config.SaveConfig E w in
  result_of s = None →
  json_marshal E saved = Some data →
  data ≠ EmptyString →
  json_unmarshal E data blankConfig = Some saved →
  fault E cfg_stat = None →
  fault E cfg_readfile = None →
  let r := config.LoadConfig E (restart (world_of s)) in
  result_of r = (Some saved, None)
  ∧ configInstance (world_of r) = Some saved
  ∧ trace_of r = [Sys cfg_stat None; Sys cfg_readfile None].
Proof.
  intros Hc saved s Hres Hm Hne Hj Hs Hr r.
  destruct (SaveConfig_success w c Hc Hres) as (Hpath & Hc' & data' & Hm' & Hd).
  fold saved in Hm'. rewrite Hm in Hm'. injection Hm' as <-.
  fold s in Hd. clearbody s. subst r.
  rewrite (load_parsed (restart (world_of s)) data saved eq_refl Hpath Hd Hne Hs Hr Hj).
  subst saved. cbn [Version set_Version]. rewrite String.eqb_refl.
  repeat split.
Qed.

End Load4.

Lemma load_without_file_creates_default_witness :
  let r := config.LoadConfig E0 w_first in
  result_of r = (Some defaultConfig, None)
  ∧ configInstance (world_of r) = Some defaultConfig
  ∧ disk (world_of r) = Some "{registry}"
  ∧ fs (world_of r) = fs w_first
  ∧ Links defaultConfig = ∅ ∧ Version defaultConfig = CurrentVersion.
Proof.
  apply (load_without_file_creates_default E0 w_first "{registry}");
    first [reflexivity | discriminate].
Defined.

Lemma load_other_version_warns_witness :
  let r := config.LoadConfig E_old w_old in
  ∃ c', result_of r = (Some c', None)
        ∧ configInstance (world_of r) = Some c'
        ∧ Version c' = CurrentVersion
        ∧ Links c' = Links registry_old
        ∧ CfgSettings c' = CfgSettings registry_old
        ∧ In (Warn WVersionMismatch) (trace_of r)
        ∧ disk (world_of r) = Some "{old}"
        ∧ read_only (trace_of r).
Proof.
  apply (load_other_version_warns E_old w_old "{old}" registry_old);
    first [reflexivity | discriminate].
Defined.

Lemma failed_load_is_final_witness :
  let w' := world_of (config.LoadConfig E0 w_empty_registry) in
  config.LoadConfig E0 w' = ((None, Some (New MLoadNil)), w', [])
  ∧ config.GetConfig E0 w' = ((None, Some (New MLoadNil)), w', []).
Proof.
  apply (failed_load_is_final E0 w_empty_registry eq_refl eq_refl).
  vm_compute. eauto.
Defined.

Lemma saved_registry_loads_back_witness :
  let s := config.SaveConfig E_codec w_linked in
  let r := config.LoadConfig E_codec (restart (world_of s)) in
  result_of s = None
  ∧ result_of r = (Some registry1, None)
  ∧ configInstance (world_of r) = Some registry1
  ∧ trace_of r = [Sys cfg_stat None; Sys cfg_readfile None].
Proof.
  split; [reflexivity|].
  apply (saved_registry_loads_back E_codec w_linked registry1 "{registry}");
    first [reflexivity | discriminate].
Defined.

Section Load5.
Context (E : Env).

(** The registry is read once per process: after the first load has
    succeeded, LoadConfig and GetConfig hand out the instance in memory
    without any call, whatever the registry file holds by then. *)
Theorem loaded_registry_is_not_reread w c d :
  once w = false →
  configInstance w = None →
  let r := config.LoadConfig E w in
  result_of r = (Some c, None) →
  let w' := set_disk d (world_of r) in
  config.LoadConfig E w' = ((Some c, None), w', [])
  ∧ config.GetConfig E w' = ((Some c, None), w', []).
Proof.
  intros Ho Hc r Hres w'.
  assert (H : once (world_of r) = true ∧ configInstance (world_of r) = Some c).
  { subst r. revert Hres. unfold config.LoadConfig. go. rewrite Ho. go.
    set (w1 := set_once true w).
    assert (Hc1 : configInstance w1 = None) by exact Hc.
    destruct (loadOnce_failure E w1 Hc1) as [H1 _].
    destruct (result_of (config.loadOnce E w1)) as [e|]; go.
    - discriminate.
    - destruct (configInstance (world_of (config.loadOnce E w1))) eqn:Hci; go.
      + intros Heq. split; [exact H1 | congruence].
      + discriminate. }
  destruct H as [Ho' Hc'].
  assert (Ho2 : once w' = true) by exact Ho'.
  assert (Hc2 : configInstance w' = Some c) by exact Hc'.
  split.
  - rewrite (run_eta (config.LoadConfig E w')). unfold config.LoadConfig. go.
    rewrite Ho2. go. rewrite Hc2. go. reflexivity.
  - apply GetConfig_loaded, Hc2.
Qed.

End Load5.

Lemma loaded_registry_is_not_reread_witness :
  let r := config.LoadConfig E_old w_old in
  let w' := set_disk None (world_of r) in
  config.LoadConfig E_old w'
  = ((Some (set_Version CurrentVersion registry_old), None), w', [])
  ∧ config.GetConfig E_old w'
    = ((Some (set_Version CurrentVersion registry_old), None), w', []).
Proof.
  apply (loaded_registry_is_not_reread E_old w_old
           (set_Version CurrentVersion registry_old) None); reflexivity.
Defined.

(** ** Relink of a symbolic link that is not in place *)

Section RelinkCases.
Context (E : Env).

(** Relinking refuses a path that is there but is no symbolic link. *)
Theorem relink_refuses_non_symlink w c name li :
  configInstance w = Some c →
  Links c !! name = Some li →
  Shortcut li = false →
  OriginalPath li ≠ EmptyString →
  SyncedPath li ≠ EmptyString →
  path_exists E w (OriginalPath li) →
  not_symlink E w (OriginalPath li) →
  let r := link.RelinkLinkOrShortcut E name w in
  result_of r = Some (Wrap MRelinkSymbolic (New MRelinkConflict))
  ∧ world_of r = w
  ∧ read_only (trace_of r).
Proof.
  intros Hc Hl Hs Hop Hsp Hex Hns r.
  destruct (path_exists_stat _ _ _ Hex) as [n Hstat].
  assert (HG := GetConfig_loaded E _ _ Hc).
  assert (HL := GetLink_loaded _ _ name Hc). rewrite Hl in HL.
  assert (HP := PathExists_run E (OriginalPath li) w). rewrite Hex, Hstat in HP.
  assert (HS := IsSymlink_run E (OriginalPath li) w).
  destruct (result_of (util.IsSymlink E (OriginalPath li) w)) as [sl slerr] eqn:HSr.
  unfold not_symlink in Hns. rewrite HSr in Hns. cbn in Hns. subst sl.
  subst r. unfold link.RelinkLinkOrShortcut.
  run_with HG. run_with HL. cbn [negb]. rewrite Hs. expose.
  unfold link.RelinkSymbolicLink.
  run_with HG. run_with HL. cbn [negb]. rewrite Hs.
  rewrite !bool_decide_eq_false_2 by done. cbn [orb].
  run_with HP. cbn [negb]. run_with HS. cbn [negb]. tidy.
  split; [reflexivity|]. split; [reflexivity|]. repeat constructor.
Qed.

End RelinkCases.

Lemma relink_refuses_non_symlink_witness :
  let r := link.RelinkLinkOrShortcut E0 "cfg" w_conflict in
  result_of r = Some (Wrap MRelinkSymbolic (New MRelinkConflict))
  ∧ world_of r = w_conflict
  ∧ read_only (trace_of r).
Proof.
  apply (relink_refuses_non_symlink E0 w_conflict registry1 "cfg" cfg_record);
    first [reflexivity | discriminate].
Defined.

Section RelinkRepairs.
Context (E : Env) (Hok : no_fault E).

Lemma PathExists_plain p w n :
  fs w !! p = Some n → is_symlink n = false →
  util.PathExists E p w = ((true, None), w, [Sys (sys_stat p) None]).
Proof. intros H Hn. exact (PathExists_of_stat E _ _ _ _ (Stat_plain E Hok p w n H Hn)). Qed.

Lemma PathExists_absent p w :
  fs w !! p = None →
  util.PathExists E p w = ((false, None), w, [Sys (sys_stat p) (Some ENOENT)]).
Proof. intros H. exact (PathExists_missing E _ _ _ (Stat_missing E Hok p w H)). Qed.

(** Relinking puts a missing link back when the directory of the original
    path is there, after which the redirect is in place and a further
    relink has nothing to do. *)
Theorem relink_restores_missing_link w c name li n :
  configInstance w = Some c →
  Links c !! name = Some li →
  Shortcut li = false →
  OriginalPath li ≠ EmptyString →
  SyncedPath li ≠ EmptyString →
  has_dirs w (filepath.Dir (OriginalPath li)) →
  fs w !! OriginalPath li = None →
  fs w !! SyncedPath li = Some n →
  is_symlink n = false →
  let r := link.RelinkLinkOrShortcut E name w in
  let w' := set_fs (<[OriginalPath li := Symlink (SyncedPath li)]> (fs w)) w in
  r = (None, w',
       [Sys (sys_stat (OriginalPath li)) (Some ENOENT);
        Sys (sys_stat (SyncedPath li)) None;
        Sys (sys_symlink (SyncedPath li) (OriginalPath li)) None])
  ∧ redirect_correct E w' li
  ∧ world_of (link.RelinkLinkOrShortcut E name w') = w'.
Proof.
  intros Hc Hl Hs Hop Hsp _ Ho Hsy Hn r w'.
  assert (Hne : OriginalPath li ≠ SyncedPath li) by congruence.
  assert (HG := GetConfig_loaded E _ _ Hc).
  assert (HL := GetLink_loaded _ _ name Hc). rewrite Hl in HL.
  assert (HP := PathExists_absent _ _ Ho).
  assert (HP2 := PathExists_plain _ _ _ Hsy Hn).
  assert (HSL := Symlink_ok E Hok (SyncedPath li) (OriginalPath li) w Ho).
  assert (Hr : r = (None, w',
       [Sys (sys_stat (OriginalPath li)) (Some ENOENT);
        Sys (sys_stat (SyncedPath li)) None;
        Sys (sys_symlink (SyncedPath li) (OriginalPath li)) None])).
  { subst r. rewrite (run_eta (link.RelinkLinkOrShortcut E name w)).
    unfold link.RelinkLinkOrShortcut.
    run_with HG. run_with HL. cbn [negb]. rewrite Hs. expose.
    unfold link.RelinkSymbolicLink.
    run_with HG. run_with HL. cbn [negb]. rewrite Hs.
    rewrite !bool_decide_eq_false_2 by done. cbn [orb].
    run_with HP. cbn [negb]. go. run_with HP2. cbn [negb].
    run_with HSL. reflexivity. }
  assert (Hok' : redirect_correct E w' li).
  { assert (H1 : fs w' !! OriginalPath li = Some (Symlink (SyncedPath li)))
      by (cbn; apply lookup_insert_eq).
    assert (H2 : fs w' !! SyncedPath li = Some n)
      by (cbn; rewrite lookup_insert_ne by done; exact Hsy).
    unfold redirect_correct, path_exists. split; [|split].
    - rewrite (PathExists_of_stat E _ _ _ _ (Stat_link E Hok _ _ _ _ H1 H2 Hn)).
      reflexivity.
    - rewrite (IsSymlink_ok E Hok _ _ _ H1). reflexivity.
    - rewrite (Readlink_ok E Hok _ _ _ H1). reflexivity. }
  split; [exact Hr|]. split; [exact Hok'|].
  rewrite (relink_symlink_noop E w' c name li Hc Hl Hs Hop Hsp Hok').
  reflexivity.
Qed.


End RelinkRepairs.

Lemma relink_restores_missing_link_witness :
  let r := link.RelinkLinkOrShortcut E0 "cfg" w_unlinked in
  result_of r = None
  ∧ fs (world_of r) !! "/home/u/app.conf" = Some (Symlink "/sync/files/cfg")
  ∧ redirect_correct E0 (world_of r) cfg_record
  ∧ world_of (link.RelinkLinkOrShortcut E0 "cfg" (world_of r)) = world_of r.
Proof.
  assert (Hd : has_dirs w_unlinked (filepath.Dir (OriginalPath cfg_record)))
    by repeat constructor.
  destruct (relink_restores_missing_link E0 (λ c, eq_refl) w_unlinked registry1
              "cfg" cfg_record (File "data")) as (H1 & H2 & H3);
    try first [reflexivity | discriminate | exact Hd].
  rewrite H1. cbn [result_of world_of fst snd].
  split; [reflexivity|]. split; [reflexivity|]. split; [exact H2 | exact H3].
Defined.


Section RelinkDangling.
Context (E : Env) (Hok : no_fault E).


End RelinkDangling.


(** ** Create and remove *)

Section Saves.
Context (E : Env) (Hok : no_fault E) (Hsave : can_save E).

Lemma SaveConfig_ok w c :
  configInstance w = Some c →
  ∃ data,
    json_marshal E (set_Version CurrentVersion c) = Some data
    ∧ config.SaveConfig E w
      = (None,
         set_disk (Some data)
           (set_configInstance (Some (set_Version CurrentVersion c)) w),
         [Sys cfg_mkdirall None; Sys (cfg_writefile data) None]).
Proof.
  intros Hc. destruct Hsave as [Hp Hm].
  destruct (Hm (set_Version CurrentVersion c)) as [data Hd].
  exists data. split; [exact Hd|].
  rewrite (run_eta (config.SaveConfig E w)). unfold config.SaveConfig. go.
  rewrite Hc. go. rewrite (getConfigPath_ok E Hp). go.
  rewrite !(saveConfigInternal_ok E (configPath E) _ data _ (Hok _) Hd (Hok _)).
  go. reflexivity.
Qed.

Lemma AddLink_ok w c name info :
  configInstance w = Some c →
  let c1 := set_Version CurrentVersion (set_Links (<[name := info]> (Links c)) c) in
  ∃ data,
    config.AddLink E name info w
    = (None, set_disk (Some data) (set_configInstance (Some c1) w),
       [Sys cfg_mkdirall None; Sys (cfg_writefile data) None]).
Proof.
  intros Hc c1.
  pose (w1 := set_configInstance
                (Some (set_Links (<[name := info]> (Links c)) c)) w).
  destruct (SaveConfig_ok w1 _ eq_refl) as (data & _ & HS).
  exists data. rewrite (run_eta (config.AddLink E name info w)).
  unfold config.AddLink, config.update. go. rewrite Hc. cbn [fmap option_fmap option_map].
  fold w1. rewrite !HS. go. reflexivity.
Qed.

Lemma RemoveLink_ok w c name li :
  configInstance w = Some c →
  Links c !! name = Some li →
  let c1 := set_Version CurrentVersion (set_Links (delete name (Links c)) c) in
  ∃ data,
    config.RemoveLink E name w
    = ((true, None), set_disk (Some data) (set_configInstance (Some c1) w),
       [Sys cfg_mkdirall None; Sys (cfg_writefile data) None]).
Proof.
  intros Hc Hl c1.
  pose (w1 := set_configInstance
                (Some (set_Links (delete name (Links c)) c)) w).
  destruct (SaveConfig_ok w1 _ eq_refl) as (data & _ & HS).
  exists data. rewrite (run_eta (config.RemoveLink E name w)).
  unfold config.RemoveLink, config.update, config.GetLinks. go. rewrite Hc.
  rewrite !bool_decide_eq_true_2 by (rewrite Hl; eauto).
  go. rewrite Hc. cbn [fmap option_fmap option_map].
  fold w1. rewrite !HS. go. reflexivity.
Qed.

End Saves.

Section RoundTrip.
Context (E : Env) (Hok : no_fault E) (Hsave : can_save E).

Lemma EnsureDirExists_there w dir :
  has_dirs w dir →
  util.EnsureDirExists E dir w = (None, w, [Sys (sys_mkdirall dir) None]).
Proof.
  intros H. unfold util.EnsureDirExists, util.EnsureDirExists_of.
  rewrite (run_eta (bind _ _ w)). expose.
  unfold os.MkdirAll. rewrite !perform_ok by exact Hok.
  rewrite !(mkdir_existing _ _ H). cbn [fst snd errno_of]. rewrite set_fs_same.
  go. reflexivity.
Qed.

Lemma MoveFileOrDir_renames src dst w n :
  fs w !! src = Some n → is_dir n = false →
  (∀ m, fs w !! dst = Some m → is_dir m = false) →
  util.MoveFileOrDir E src dst w
  = (None, set_fs (<[dst := n]> (delete src (fs w))) w,
     [Sys (sys_rename src dst) None]).
Proof.
  intros H Hn Hd. rewrite (run_eta (util.MoveFileOrDir E src dst w)).
  unfold util.MoveFileOrDir.
  run_with (Rename_file_ok E Hok src dst w n H Hn Hd). reflexivity.
Qed.

(** The run of a create for a regular file whose synced path is free. *)
Lemma create_file_fresh target name syncDir w c a d :
  configInstance w = Some c →
  Links c !! name = None →
  util.GetAbsPath E target = (a, None) →
  let synced := filepath.Join (filepath.Join syncDir "files") name in
  has_dirs w (filepath.Join syncDir "files") →
  fs w !! a = Some (File d) →
  fs w !! synced = None →
  let info := mkLinkInfo false a synced (now E) in
  let c1 := set_Version CurrentVersion (set_Links (<[name := info]> (Links c)) c) in
  ∃ data t,
    link.CreateLinkOrShortcut E target name syncDir false w
    = (None,
       set_disk (Some data)
         (set_configInstance (Some c1)
            (set_fs (<[a := Symlink synced]>
                       (<[synced := File d]> (delete a (fs w)))) w)),
       t).
Proof.
  intros Hc Hl Habs synced Hdirs Ha Hs info c1.
  assert (HG := GetConfig_loaded E _ _ Hc).
  assert (HL := GetLink_loaded _ _ name Hc). rewrite Hl in HL.
  assert (HSt := Stat_plain E Hok a w _ Ha eq_refl).
  assert (HPE := PathExists_of_stat E _ _ _ _ HSt).
  assert (HID := IsDir_of_stat E _ _ _ _ HSt).
  assert (HIF := IsFile_of_stat E _ _ _ _ HSt).
  cbn [is_dir is_regular] in HID, HIF.
  assert (HED := EnsureDirExists_there w _ Hdirs).
  assert (HMV := MoveFileOrDir_renames a synced w _ Ha eq_refl
                   ltac:(intros m Hm; fold synced in Hs; congruence)).
  set (w2 := set_fs (<[synced := File d]> (delete a (fs w))) w) in *.
  assert (Ha2 : fs w2 !! a = None).
  { cbn. rewrite lookup_insert_ne by congruence. apply lookup_delete_eq. }
  assert (HSL := Symlink_ok E Hok synced a w2 Ha2).
  set (w3 := set_fs (<[a := Symlink synced]> (fs w2)) w2) in *.
  assert (Hc3 : configInstance w3 = Some c) by exact Hc.
  destruct (AddLink_ok E Hok Hsave w3 c name info Hc3) as (data & HA).
  exists data. eexists.
  rewrite (run_eta (link.CreateLinkOrShortcut E target name syncDir false w)).
  unfold link.CreateLinkOrShortcut. expose.
  unfold link.CreateSymbolicLink.
  run_with HG. rewrite Habs. run_with HPE. cbn [negb]. run_with HL.
  run_with HID. run_with HIF. run_with HED. go.
  fold synced. run_with HMV. run_with HSL. fold info. run_with HA. go.
  reflexivity.
Qed.

(** The run of a remove for a link in place over a regular file. *)
Lemma remove_linked_file name w c li d :
  configInstance w = Some c →
  Links c !! name = Some li →
  Shortcut li = false →
  OriginalPath li ≠ EmptyString → SyncedPath li ≠ EmptyString →
  fs w !! OriginalPath li = Some (Symlink (SyncedPath li)) →
  fs w !! SyncedPath li = Some (File d) →
  let c1 := set_Version CurrentVersion (set_Links (delete name (Links c)) c) in
  ∃ data t,
    link.RemoveLinkOrShortcut E name w
    = (None,
       set_disk (Some data)
         (set_configInstance (Some c1)
            (set_fs (<[OriginalPath li := File d]>
                       (delete (SyncedPath li)
                          (delete (OriginalPath li) (fs w)))) w)),
       t).
Proof.
  intros Hc Hl Hs Hop Hsp Ho Hsy c1.
  assert (Hne : OriginalPath li ≠ SyncedPath li) by congruence.
  assert (HG := GetConfig_loaded E _ _ Hc).
  assert (HL := GetLink_loaded _ _ name Hc). rewrite Hl in HL.
  assert (HP := PathExists_of_stat E _ _ _ _
                  (Stat_link E Hok _ _ _ _ Ho Hsy eq_refl)).
  assert (HS := IsSymlink_ok E Hok _ _ _ Ho). cbn [is_symlink] in HS.
  assert (HR := Readlink_ok E Hok _ _ _ Ho).
  assert (HP2 := PathExists_of_stat E _ _ _ _
                   (Stat_plain E Hok _ _ _ Hsy eq_refl)).
  assert (HRm := Remove_ok E Hok _ _ _ Ho eq_refl).
  set (w1 := set_fs (delete (OriginalPath li) (fs w)) w) in *.
  assert (Hsy1 : fs w1 !! SyncedPath li = Some (File d))
    by (cbn; rewrite lookup_delete_ne by done; exact Hsy).
  assert (HMV := MoveFileOrDir_renames (SyncedPath li) (OriginalPath li) w1 _
                   Hsy1 eq_refl
                   ltac:(intros m Hm; cbn in Hm;
                         rewrite lookup_delete_eq in Hm; discriminate)).
  set (w2 := set_fs (<[OriginalPath li := File d]>
                       (delete (SyncedPath li) (fs w1))) w1) in *.
  assert (Hc2 : configInstance w2 = Some c) by exact Hc.
  destruct (RemoveLink_ok E Hok Hsave w2 c name li Hc2 Hl) as (data & HRL).
  exists data. eexists.
  rewrite (run_eta (link.RemoveLinkOrShortcut E name w)).
  unfold link.RemoveLinkOrShortcut.
  run_with HG. run_with HL. rewrite Hs. cbn [negb]. expose.
  unfold link.RemoveSymbolicLink.
  run_with HG. run_with HL. rewrite Hs. cbn [negb].
  rewrite !bool_decide_eq_false_2 by done. cbn [orb].
  run_with HP. run_with HS. cbn [negb]. run_with HR.
  rewrite String.eqb_refl. cbn [negb]. go.
  run_with HP2. cbn [negb]. go. run_with HRm. go.
  run_with HMV. go. run_with HRL. cbn [negb]. go.
  reflexivity.
Qed.

(** Creating a link for a regular file under a plain name and removing it
    again puts the file tree and the links of the registry back as they
    were. *)
Theorem create_then_remove_restores_file target name syncDir w c a d :
  configInstance w = Some c →
  Links c !! name = None →
  plain_name name →
  util.GetAbsPath E target = (a, None) →
  let synced := filepath.Join (filepath.Join syncDir "files") name in
  has_dirs w (filepath.Join syncDir "files") →
  fs w !! a = Some (File d) →
  fs w !! synced = None →
  a ≠ EmptyString → synced ≠ EmptyString →
  let r1 := link.CreateLinkOrShortcut E target name syncDir false w in
  let r2 := link.RemoveLinkOrShortcut E name (world_of r1) in
  result_of r1 = None
  ∧ fs (world_of r1) !! a = Some (Symlink synced)
  ∧ fs (world_of r1) !! synced = Some (File d)
  ∧ result_of (config.GetLink name (world_of r1))
    = (mkLinkInfo false a synced (now E), true)
  ∧ result_of r2 = None
  ∧ fs (world_of r2) = fs w
  ∧ result_of (config.GetLinks (world_of r2)) = Links c.
Proof.
  intros Hc Hl _ Habs synced Hdirs Ha Hs Hane Hsne r1 r2.
  assert (Hne : a ≠ synced) by congruence.
  destruct (create_file_fresh target name syncDir w c a d Hc Hl Habs Hdirs Ha Hs)
    as (data1 & t1 & H1).
  fold synced in H1. fold r1 in H1.
  set (info := mkLinkInfo false a synced (now E)) in *.
  set (c1 := set_Version CurrentVersion
               (set_Links (<[name := info]> (Links c)) c)) in *.
  set (w1 := set_disk (Some data1) (set_configInstance (Some c1)
               (set_fs (<[a := Symlink synced]>
                          (<[synced := File d]> (delete a (fs w)))) w))) in *.
  assert (Hw1 : world_of r1 = w1) by (rewrite H1; reflexivity).
  assert (Hfa : fs w1 !! a = Some (Symlink synced))
    by (cbn; apply lookup_insert_eq).
  assert (Hfs : fs w1 !! synced = Some (File d)).
  { cbn. rewrite lookup_insert_ne by done. apply lookup_insert_eq. }
  assert (Hl1 : Links c1 !! name = Some info) by (cbn; apply lookup_insert_eq).
  destruct (remove_linked_file name w1 c1 info d eq_refl Hl1 eq_refl Hane Hsne
              Hfa Hfs) as (data2 & t2 & H2).
  subst r2. rewrite Hw1, H2, H1. cbn [result_of world_of fst snd].
  split; [reflexivity|]. split; [exact Hfa|]. split; [exact Hfs|].
  split.
  { rewrite (GetLink_loaded w1 c1 name eq_refl), Hl1. reflexivity. }
  split; [reflexivity|]. split.
  - cbn [fs set_disk set_configInstance set_fs OriginalPath SyncedPath info w1].
    apply map_eq. intros i.
    destruct (decide (i = a)) as [->|Hia].
    { rewrite lookup_insert_eq. symmetry. exact Ha. }
    rewrite lookup_insert_ne by done.
    destruct (decide (i = synced)) as [->|His].
    { rewrite lookup_delete_eq. symmetry. exact Hs. }
    rewrite !lookup_delete_ne, !lookup_insert_ne, lookup_delete_ne by done.
    reflexivity.
  - unfold config.GetLinks. go.
    cbn [configInstance set_disk set_configInstance Links set_Version set_Links c1].
    rewrite delete_insert_eq. apply delete_id, Hl.
Qed.

End RoundTrip.

Lemma create_then_remove_restores_file_witness :
  let r1 := link.CreateLinkOrShortcut E0 "/home/u/app.conf" "cfg" "/sync" false
              w_ready in
  let r2 := link.RemoveLinkOrShortcut E0 "cfg" (world_of r1) in
  result_of r1 = None
  ∧ fs (world_of r1) !! "/home/u/app.conf" = Some (Symlink "/sync/files/cfg")
  ∧ fs (world_of r1) !! "/sync/files/cfg" = Some (File "data")
  ∧ result_of (config.GetLink "cfg" (world_of r1))
    = (mkLinkInfo false "/home/u/app.conf" "/sync/files/cfg" 7, true)
  ∧ result_of r2 = None
  ∧ fs (world_of r2) = fs w_ready
  ∧ result_of (config.GetLinks (world_of r2)) = ∅.
Proof.
  apply (create_then_remove_restores_file E0 (λ c, eq_refl)
           (conj (λ H, eq_ind "/opt/synclink/config.json"%string
                          (λ s, match s with EmptyString => False | _ => True end)
                          I _ H)
                 (λ c, ex_intro _ "{registry}"%string eq_refl))
           "/home/u/app.conf" "cfg" "/sync" w_ready
           (mkConfig (mkSettings "/sync") ∅ "1.0") "/home/u/app.conf" "data").
  - reflexivity.
  - reflexivity.
  - repeat split; discriminate.
  - reflexivity.
  - repeat constructor.
  - reflexivity.
  - reflexivity.
  - discriminate.
  - discriminate.
Defined.

Lemma create_symlink_existing_name_witness :
  let r := link.CreateLinkOrShortcut E0 "/opt/tool.exe" "cfg" "/sync" false
             w_linked in
  is_Some (result_of r) ∧ world_of r = w_linked
  ∧ Forall (λ ev, is_sys mutating ev = false) (trace_of r).
Proof.
  apply (create_symlink_existing_name E0 "/opt/tool.exe" "cfg" "/sync" w_linked
           registry1 cfg_record); reflexivity.
Defined.

Section Unlink.
Context (E : Env) (Hok : no_fault E) (Hsave : can_save E).


(** Removing a link whose symbolic link is missing, while the directory
    of the original path is there, still brings the synced data back to
    the original path. *)
Theorem unlink_without_link_restores_data w c name li n :
  configInstance w = Some c →
  Links c !! name = Some li →
  Shortcut li = false →
  OriginalPath li ≠ EmptyString →
  SyncedPath li ≠ EmptyString →
  has_dirs w (filepath.Dir (OriginalPath li)) →
  fs w !! OriginalPath li = None →
  fs w !! SyncedPath li = Some n →
  is_dir n = false → is_symlink n = false →
  let r := link.RemoveLinkOrShortcut E name w in
  result_of r = None
  ∧ fs (world_of r)
    = <[OriginalPath li := n]> (delete (SyncedPath li) (fs w))
  ∧ result_of (config.GetLinks (world_of r)) = delete name (Links c).
Proof.
  intros Hc Hl Hs Hop Hsp _ Ho Hsy Hnd Hns r.
  assert (HG := GetConfig_loaded E _ _ Hc).
  assert (HL := GetLink_loaded _ _ name Hc). rewrite Hl in HL.
  assert (HP := PathExists_absent E Hok _ _ Ho).
  assert (HP2 := PathExists_plain E Hok _ _ _ Hsy Hns).
  assert (HMV := MoveFileOrDir_renames E Hok (SyncedPath li) (OriginalPath li)
                   w _ Hsy Hnd ltac:(intros m Hm; congruence)).
  set (w2 := set_fs (<[OriginalPath li := n]> (delete (SyncedPath li) (fs w))) w)
    in *.
  assert (Hc2 : configInstance w2 = Some c) by exact Hc.
  destruct (RemoveLink_ok E Hok Hsave w2 c name li Hc2 Hl) as (data & HRL).
  assert (Hr : ∃ t, r = (None,
                    set_disk (Some data)
                      (set_configInstance
                         (Some (set_Version CurrentVersion
                                  (set_Links (delete name (Links c)) c))) w2),
                    t)).
  { eexists. subst r. rewrite (run_eta (link.RemoveLinkOrShortcut E name w)).
    unfold link.RemoveLinkOrShortcut.
    run_with HG. run_with HL. rewrite Hs. cbn [negb]. expose.
    unfold link.RemoveSymbolicLink.
    run_with HG. run_with HL. rewrite Hs. cbn [negb].
    rewrite !bool_decide_eq_false_2 by done. cbn [orb].
    run_with HP. go. run_with HP2. cbn [negb]. go.
    run_with HMV. go.
    run_with HRL. cbn [negb]. go. reflexivity. }
  destruct Hr as (t & Hr). rewrite Hr. cbn [result_of world_of trace_of fst snd].
  repeat split.
Qed.

End Unlink.

Section UnlinkPlaceholder.
Context (E : Env) (Hok : no_fault E) (Hsave : can_save E).

Lemma ReadDir_plain p w :
  fs w !! p = Some Dir →
  os.ReadDir E p w
  = (inr (os.entries (fs w) p), w, [Sys (sys_readdir p) None]).
Proof.
  intros H. unfold os.ReadDir. rewrite observe_ok by exact Hok.
  rewrite (resolve_plain _ _ _ _ H eq_refl). reflexivity.
Qed.

(** Removing a link whose original path holds an empty regular file
    instead of the symbolic link: the engine warns, and the synced data
    replaces the empty file. *)
Theorem unlink_replaces_empty_file w c name li n :
  configInstance w = Some c →
  Links c !! name = Some li →
  Shortcut li = false →
  OriginalPath li ≠ EmptyString →
  SyncedPath li ≠ EmptyString →
  fs w !! OriginalPath li = Some (File EmptyString) →
  fs w !! SyncedPath li = Some n →
  is_dir n = false → is_symlink n = false →
  let r := link.RemoveLinkOrShortcut E name w in
  result_of r = None
  ∧ fs (world_of r)
    = <[OriginalPath li := n]> (delete (SyncedPath li) (fs w))
  ∧ result_of (config.GetLinks (world_of r)) = delete name (Links c)
  ∧ In (Warn WNotASymlink) (trace_of r).
Proof.
  intros Hc Hl Hs Hop Hsp Ho Hsy Hnd Hns r.
  assert (HG := GetConfig_loaded E _ _ Hc).
  assert (HL := GetLink_loaded _ _ name Hc). rewrite Hl in HL.
  assert (HSt := Stat_plain E Hok _ _ _ Ho eq_refl).
  assert (HP := PathExists_of_stat E _ _ _ _ HSt).
  assert (HS := IsSymlink_ok E Hok _ _ _ Ho). cbn [is_symlink] in HS.
  assert (HP2 := PathExists_plain E Hok _ _ _ Hsy Hns).
  assert (HMV := MoveFileOrDir_renames E Hok (SyncedPath li) (OriginalPath li)
                   w _ Hsy Hnd
                   ltac:(intros m Hm; rewrite Ho in Hm; injection Hm as <-;
                         reflexivity)).
  set (w2 := set_fs (<[OriginalPath li := n]> (delete (SyncedPath li) (fs w))) w)
    in *.
  assert (Hc2 : configInstance w2 = Some c) by exact Hc.
  destruct (RemoveLink_ok E Hok Hsave w2 c name li Hc2 Hl) as (data & HRL).
  assert (Hr : ∃ t, r = (None,
                    set_disk (Some data)
                      (set_configInstance
                         (Some (set_Version CurrentVersion
                                  (set_Links (delete name (Links c)) c))) w2),
                    [Sys (sys_stat (OriginalPath li)) None;
                     Sys (sys_lstat (OriginalPath li)) None;
                     Warn WNotASymlink] ++ t)).
  { eexists. subst r. rewrite (run_eta (link.RemoveLinkOrShortcut E name w)).
    unfold link.RemoveLinkOrShortcut.
    run_with HG. run_with HL. rewrite Hs. cbn [negb]. expose.
    unfold link.RemoveSymbolicLink.
    run_with HG. run_with HL. rewrite Hs. cbn [negb].
    rewrite !bool_decide_eq_false_2 by done. cbn [orb].
    run_with HP. run_with HS. cbn [negb]. go. run_with HP2. cbn [negb]. go.
    run_with HSt. cbn [is_dir file_size String.length Nat.eqb negb]. go.
    cbn [negb]. go. run_with HMV. go.
    run_with HRL. cbn [negb]. go. reflexivity. }
  destruct Hr as (t & Hr). rewrite Hr. cbn [result_of world_of trace_of fst snd].
  split; [reflexivity|]. split; [reflexivity|]. split; [reflexivity|].
  cbn. tauto.
Qed.

(** Removing a link whose original path holds an empty directory: the
    move back of the synced file fails on the directory, and the record,
    the directory and the synced file all stay. *)
Theorem unlink_stops_at_empty_directory w c name li n :
  configInstance w = Some c →
  Links c !! name = Some li →
  Shortcut li = false →
  OriginalPath li ≠ EmptyString →
  SyncedPath li ≠ EmptyString →
  fs w !! OriginalPath li = Some Dir →
  os.entries (fs w) (OriginalPath li) = [] →
  fs w !! SyncedPath li = Some n →
  is_dir n = false → is_symlink n = false →
  let r := link.RemoveLinkOrShortcut E name w in
  (∃ e, result_of r = Some (Wrap MRemoveSymbolic (Wrap MMoveBack e)))
  ∧ world_of r = w.
Proof.
  intros Hc Hl Hs Hop Hsp Ho Hent Hsy _ Hns r.
  assert (HG := GetConfig_loaded E _ _ Hc).
  assert (HL := GetLink_loaded _ _ name Hc). rewrite Hl in HL.
  assert (HSt := Stat_plain E Hok _ _ _ Ho eq_refl).
  assert (HP := PathExists_of_stat E _ _ _ _ HSt).
  assert (HS := IsSymlink_ok E Hok _ _ _ Ho). cbn [is_symlink] in HS.
  assert (HP2 := PathExists_plain E Hok _ _ _ Hsy Hns).
  assert (HRD := ReadDir_plain _ _ Ho). rewrite Hent in HRD.
  assert (HRn : os.Rename E (SyncedPath li) (OriginalPath li) w
                = (inl EEXIST, w,
                   [Sys (sys_rename (SyncedPath li) (OriginalPath li))
                      (Some EEXIST)])).
  { unfold os.Rename. rewrite perform_ok by exact Hok. rewrite Hsy, Ho.
    cbn. rewrite set_fs_same. reflexivity. }
  assert (Hr : ∃ t, r = (Some (Wrap MRemoveSymbolic
                                 (Wrap MMoveBack (Wrap MMove (Errno EEXIST)))),
                         w, t)).
  { eexists. subst r. rewrite (run_eta (link.RemoveLinkOrShortcut E name w)).
    unfold link.RemoveLinkOrShortcut.
    run_with HG. run_with HL. rewrite Hs. cbn [negb]. expose.
    unfold link.RemoveSymbolicLink.
    run_with HG. run_with HL. rewrite Hs. cbn [negb].
    rewrite !bool_decide_eq_false_2 by done. cbn [orb].
    run_with HP. run_with HS. cbn [negb]. go. run_with HP2. cbn [negb]. go.
    run_with HSt. cbn [is_dir]. run_with HRD.
    cbn [List.length Nat.eqb negb]. go. cbn [negb]. go.
    unfold util.MoveFileOrDir. run_with HRn. cbn. go. reflexivity. }
  destruct Hr as (t & Hr). rewrite Hr. cbn [result_of world_of fst snd].
  split; [eauto | reflexivity].
Qed.

End UnlinkPlaceholder.

Lemma unlink_replaces_empty_file_witness :
  let r := link.RemoveLinkOrShortcut E0 "cfg" w_placeholder in
  result_of r = None
  ∧ fs (world_of r)
    = <["/home/u/app.conf" := File "data"]>
        (delete "/sync/files/cfg" (fs w_placeholder))
  ∧ result_of (config.GetLinks (world_of r)) = delete "cfg" (Links registry1)
  ∧ In (Warn WNotASymlink) (trace_of r).
Proof.
  apply (unlink_replaces_empty_file E0 no_fault_E0 can_save_E0 w_placeholder
           registry1 "cfg" cfg_record (File "data"));
    try reflexivity; discriminate.
Defined.

Lemma unlink_stops_at_empty_directory_witness :
  let r := link.RemoveLinkOrShortcut E0 "cfg" w_emptydir in
  (∃ e, result_of r = Some (Wrap MRemoveSymbolic (Wrap MMoveBack e)))
  ∧ world_of r = w_emptydir.
Proof.
  apply (unlink_stops_at_empty_directory E0 no_fault_E0 w_emptydir
           registry1 "cfg" cfg_record (File "data"));
    try reflexivity; discriminate.
Defined.

Section Guards.
Context (E : Env).

(** A name that is not registered is refused by remove and relink, at the
    engine and at the commands, before anything is looked at or changed. *)
Theorem unknown_name_is_refused w c name order sched :
  configInstance w = Some c →
  Links c !! name = None →
  link.RemoveLinkOrShortcut E name w = (Some (New MLinkNotFound), w, [])
  ∧ link.RelinkLinkOrShortcut E name w = (Some (New MLinkNotFound), w, [])
  ∧ (name ≠ "*" →
     cmd.unlinkRun E name order w = (Some (New MUnlinkNotFound), w, [])
     ∧ cmd.runRelink E name sched w = (Some (New MNotManaged), w, [])).
Proof.
  intros Hc Hl.
  assert (HG := GetConfig_loaded E _ _ Hc).
  assert (HL := GetLink_loaded _ _ name Hc). rewrite Hl in HL.
  split; [|split].
  - rewrite (run_eta (link.RemoveLinkOrShortcut E name w)).
    unfold link.RemoveLinkOrShortcut. run_with HG. run_with HL. reflexivity.
  - rewrite (run_eta (link.RelinkLinkOrShortcut E name w)).
    unfold link.RelinkLinkOrShortcut. run_with HG. run_with HL. reflexivity.
  - intros Hne. apply String.eqb_neq in Hne. split.
    + rewrite (run_eta (cmd.unlinkRun E name order w)).
      unfold cmd.unlinkRun. run_with HG. rewrite Hne. run_with HL. reflexivity.
    + rewrite (run_eta (cmd.runRelink E name sched w)).
      unfold cmd.runRelink. run_with HG. rewrite Hne.
      unfold cmd.relinkSingleLink. run_with HL. reflexivity.
Qed.

(** A Symlink record with an empty path is refused by remove and relink;
    the record stays and nothing is looked at or changed. *)
Theorem incomplete_record_is_refused w c name li :
  configInstance w = Some c →
  Links c !! name = Some li →
  Shortcut li = false →
  OriginalPath li = EmptyString ∨ SyncedPath li = EmptyString →
  link.RemoveLinkOrShortcut E name w
  = (Some (Wrap MRemoveSymbolic (New MIncomplete)), w, [])
  ∧ link.RelinkLinkOrShortcut E name w
    = (Some (Wrap MRelinkSymbolic (New MIncomplete)), w, []).
Proof.
  intros Hc Hl Hs Hempty.
  assert (HG := GetConfig_loaded E _ _ Hc).
  assert (HL := GetLink_loaded _ _ name Hc). rewrite Hl in HL.
  assert (Hb : bool_decide (OriginalPath li = EmptyString)
               || bool_decide (SyncedPath li = EmptyString) = true).
  { destruct Hempty as [H|H]; rewrite (bool_decide_eq_true_2 _ H);
      [reflexivity | apply orb_true_r]. }
  split.
  - rewrite (run_eta (link.RemoveLinkOrShortcut E name w)).
    unfold link.RemoveLinkOrShortcut. run_with HG. run_with HL.
    rewrite Hs. cbn [negb]. expose. unfold link.RemoveSymbolicLink.
    run_with HG. run_with HL. rewrite Hs, Hb. cbn [negb]. go. reflexivity.
  - rewrite (run_eta (link.RelinkLinkOrShortcut E name w)).
    unfold link.RelinkLinkOrShortcut. run_with HG. run_with HL.
    rewrite Hs. cbn [negb]. expose. unfold link.RelinkSymbolicLink.
    run_with HG. run_with HL. rewrite Hs, Hb. cbn [negb]. go. reflexivity.
Qed.

(** A build without the shortcut delegates: creating and relinking a
    shortcut are refused with nothing changed, while removing a shortcut
    record takes the record out of the registry and still returns an
    error. *)
Theorem shortcuts_without_delegates w c name li target syncDir :
  windows E = false →
  configInstance w = Some c →
  Links c !! name = Some li →
  Shortcut li = true →
  let r := link.RemoveLinkOrShortcut E name w in
  link.CreateLinkOrShortcut E target name syncDir true w
  = (Some (New MShortcutUnsupported), w, [])
  ∧ link.RelinkLinkOrShortcut E name w = (Some (New MRelinkUnsupported), w, [])
  ∧ is_Some (result_of r)
  ∧ fs (world_of r) = fs w
  ∧ result_of (config.GetLinks (world_of r)) = delete name (Links c).
Proof.
  intros Hwin Hc Hl Hs r.
  assert (HG := GetConfig_loaded E _ _ Hc).
  assert (HL := GetLink_loaded _ _ name Hc). rewrite Hl in HL.
  split; [|split].
  - unfold link.CreateLinkOrShortcut, link.CreateShortcutDelegate.
    rewrite Hwin. reflexivity.
  - rewrite (run_eta (link.RelinkLinkOrShortcut E name w)).
    unfold link.RelinkLinkOrShortcut, link.RelinkShortcutDelegate.
    run_with HG. run_with HL. rewrite Hs, Hwin. reflexivity.
  - destruct (RemoveLink_spec E w c name Hc) as (_ & HR).
    destruct (HR (ex_intro _ li Hl)) as (_ & (c' & Hc' & Hl') & _).
    destruct (RemoveLink_registry_only E name w) as [Hfs _].
    cbv zeta in Hc'. unfold same_tree in Hfs.
    remember (config.RemoveLink E name w) as rr eqn:HRL.
    destruct rr as [[[removed err] w1] t1]. symmetry in HRL.
    cbn [world_of fst snd] in Hc', Hfs.
    assert (Hr : is_Some (result_of r) ∧ world_of r = w1).
    { subst r. rewrite (run_eta (link.RemoveLinkOrShortcut E name w)).
      unfold link.RemoveLinkOrShortcut, link.RemoveShortcutDelegate.
      run_with HG. run_with HL. rewrite Hs, Hwin. cbn [negb]. go. run_with HRL.
      destruct err; go; rewrite ?andb_false_r; go; cbn; eauto. }
    destruct Hr as [Hr1 Hr2]. rewrite Hr2.
    split; [exact Hr1|]. split; [exact Hfs|].
    unfold config.GetLinks. go. rewrite Hc'. exact Hl'.
Qed.

End Guards.


Lemma unlink_without_link_restores_data_witness :
  let r := link.RemoveLinkOrShortcut E0 "cfg" w_unlinked in
  result_of r = None
  ∧ fs (world_of r)
    = <["/home/u/app.conf" := File "data"]>
        (delete "/sync/files/cfg" (fs w_unlinked))
  ∧ result_of (config.GetLinks (world_of r)) = delete "cfg" (Links registry1).
Proof.
  apply (unlink_without_link_restores_data E0 no_fault_E0 can_save_E0
           w_unlinked registry1 "cfg" cfg_record (File "data"));
    try reflexivity; first [discriminate | repeat constructor].
Defined.

Lemma unknown_name_is_refused_witness :
  link.RemoveLinkOrShortcut E0 "notes" w_linked
  = (Some (New MLinkNotFound), w_linked, [])
  ∧ link.RelinkLinkOrShortcut E0 "notes" w_linked
    = (Some (New MLinkNotFound), w_linked, [])
  ∧ cmd.unlinkRun E0 "notes" [] w_linked
    = (Some (New MUnlinkNotFound), w_linked, [])
  ∧ cmd.runRelink E0 "notes" [] w_linked
    = (Some (New MNotManaged), w_linked, []).
Proof.
  destruct (unknown_name_is_refused E0 w_linked registry1 "notes" [] []
              eq_refl eq_refl) as (H1 & H2 & H3).
  destruct H3 as [H3 H4]; [discriminate|].
  exact (conj H1 (conj H2 (conj H3 H4))).
Defined.

Lemma incomplete_record_is_refused_witness :
  link.RemoveLinkOrShortcut E0 "cfg" w_incomplete
  = (Some (Wrap MRemoveSymbolic (New MIncomplete)), w_incomplete, [])
  ∧ link.RelinkLinkOrShortcut E0 "cfg" w_incomplete
    = (Some (Wrap MRelinkSymbolic (New MIncomplete)), w_incomplete, []).
Proof.
  apply (incomplete_record_is_refused E0 w_incomplete
           (mkConfig (mkSettings "/sync")
              {[ "cfg" := mkLinkInfo false EmptyString "/sync/files/cfg" 7 ]}
              "1.0") "cfg" (mkLinkInfo false EmptyString "/sync/files/cfg" 7));
    try reflexivity.
  left. reflexivity.
Defined.

Lemma shortcuts_without_delegates_witness :
  let r := link.RemoveLinkOrShortcut E_plain "tool" w_shortcut in
  link.CreateLinkOrShortcut E_plain "/opt/tool.exe" "tool" "/sync" true w_shortcut
  = (Some (New MShortcutUnsupported), w_shortcut, [])
  ∧ link.RelinkLinkOrShortcut E_plain "tool" w_shortcut
    = (Some (New MRelinkUnsupported), w_shortcut, [])
  ∧ is_Some (result_of r)
  ∧ fs (world_of r) = fs w_shortcut
  ∧ result_of (config.GetLinks (world_of r)) = delete "tool" (Links registry2).
Proof.
  apply (shortcuts_without_delegates E_plain w_shortcut registry2 "tool"
           tool_record "/opt/tool.exe" "/sync"); reflexivity.
Defined.

(** ** Shortcuts *)

Section ShortcutRuns.
Context (E : Env) (Hok : no_fault E).

Lemma ole_call_ok c w : ole.call E c w = (inr tt, w, [Sys c None]).
Proof. unfold ole.call. rewrite observe_ok by exact Hok. reflexivity. Qed.

Lemma IsFile_looks p w :
  ∃ b t, util.IsFile E p w = (b, w, t).
Proof. eexists _, _. reflexivity. Qed.

Lemma Save_ok lnk target w :
  fs w !! lnk ≠ Some Dir →
  ole.Save E lnk target w
  = (inr tt, set_fs (<[lnk := File (lnk_bytes target)]> (fs w)) w,
     [Sys (com_save lnk) None]).
Proof.
  intros H. unfold ole.Save. rewrite perform_ok by exact Hok.
  destruct (fs w !! lnk) as [[]|]; try reflexivity. congruence.
Qed.

(** The run of a shortcut creation when nothing is refused. *)
Lemma createShortcutWindows_ok target name base w tp :
  filepath.Abs E target = inr tp →
  has_dirs w base →
  let lnk := filepath.Join base (name +:+ ".lnk") in
  fs w !! lnk ≠ Some Dir →
  ∃ t, link.createShortcutWindows E target name base w
       = ((lnk, None), set_fs (<[lnk := File (lnk_bytes tp)]> (fs w)) w, t).
Proof.
  intros Habs Hdirs lnk Hl.
  assert (HED := EnsureDirExists_there E Hok w _ Hdirs).
  destruct (IsFile_looks tp w) as ([isExe e] & tf & HIF).
  assert (HS := Save_ok lnk tp w Hl).
  destruct (link.has_suffix (link.to_lower tp) ".exe" && isExe) eqn:Hexe;
    eexists.
  all: rewrite (run_eta (link.createShortcutWindows E target name base w));
    unfold link.createShortcutWindows; rewrite Habs; fold lnk;
    run_with HED;
    run_with (ole_call_ok com_initialize w);
    run_with (ole_call_ok com_create_object w);
    run_with (ole_call_ok com_query_interface w);
    run_with (ole_call_ok (com_create_shortcut lnk) w);
    run_with (ole_call_ok com_to_dispatch w);
    run_with (ole_call_ok (com_put_target lnk tp) w);
    run_with (ole_call_ok (com_put_workdir lnk (filepath.Dir tp)) w); go;
    run_with (ole_call_ok (com_put_description lnk) w); go;
    run_with HIF; rewrite Hexe.
  - run_with (ole_call_ok (com_put_icon lnk) w). go. run_with HS. reflexivity.
  - go. run_with HS. reflexivity.
Qed.

Lemma getStartMenu_ok w appData :
  getenv E "APPDATA" = appData → appData ≠ EmptyString →
  link.getStartMenuProgramsPathWindows E w
  = ((filepath.Join
        (filepath.Join
           (filepath.Join (filepath.Join appData "Microsoft") "Windows")
           "Start Menu") "Programs", None), w, []).
Proof.
  intros H Hne. unfold link.getStartMenuProgramsPathWindows. rewrite H.
  destruct (decide (appData = EmptyString)); [contradiction|].
  rewrite (run_eta (bind _ _ w)). go. reflexivity.
Qed.

End ShortcutRuns.

Section ShortcutRoundTrip.
Context (E : Env) (Hok : no_fault E) (Hsave : can_save E).
Context (Hwin : windows E = true).

(** Creating a shortcut under a name without a separator writes the
    artifact name.lnk into the Start Menu programs directory and registers
    it; removing it again deletes the artifact and the record, so that the
    file tree and the links are as before.  The target itself is never
    touched. *)
Theorem shortcut_create_then_remove target name syncDir w c a tp n :
  configInstance w = Some c →
  Links c !! name = None →
  filepath.no_separator name = true →
  getenv E "APPDATA" ≠ EmptyString →
  util.GetAbsPath E target = (a, None) →
  filepath.Abs E a = inr tp →
  fs w !! a = Some n → is_symlink n = false →
  let sm := (result_of (link.getStartMenuProgramsPathWindows E w)).1 in
  let lnk := filepath.Join sm (name +:+ ".lnk") in
  has_dirs w sm →
  fs w !! lnk = None →
  let r1 := link.CreateLinkOrShortcut E target name syncDir true w in
  let r2 := link.RemoveLinkOrShortcut E name (world_of r1) in
  result_of r1 = None
  ∧ fs (world_of r1) = <[lnk := File (lnk_bytes tp)]> (fs w)
  ∧ result_of (config.GetLink name (world_of r1))
    = (mkLinkInfo true a lnk (now E), true)
  ∧ result_of r2 = None
  ∧ fs (world_of r2) = fs w
  ∧ result_of (config.GetLinks (world_of r2)) = Links c.
Proof.
  intros Hc Hl _ Happ Habs Htp Ha Hn sm lnk Hdirs Hlnk r1 r2.
  assert (HSM := getStartMenu_ok E w _ eq_refl Happ).
  assert (Hsm : sm = filepath.Join
        (filepath.Join
           (filepath.Join (filepath.Join (getenv E "APPDATA") "Microsoft")
              "Windows") "Start Menu") "Programs")
    by (subst sm; rewrite HSM; reflexivity).
  clearbody sm. subst sm.
  set (sm := filepath.Join _ "Programs") in *.
  assert (HG := GetConfig_loaded E _ _ Hc).
  assert (HP := PathExists_plain E Hok _ _ _ Ha Hn).
  destruct (createShortcutWindows_ok E Hok a name sm w tp Htp Hdirs
              ltac:(fold lnk; congruence)) as (t1 & HCS).
  fold lnk in HCS.
  set (w1 := set_fs (<[lnk := File (lnk_bytes tp)]> (fs w)) w) in *.
  assert (Hc1 : configInstance w1 = Some c) by exact Hc.
  assert (HG1 := GetConfig_loaded E _ _ Hc1).
  set (info := mkLinkInfo true a lnk (now E)).
  destruct (AddLink_ok E Hok Hsave w1 c name info Hc1) as (data1 & HA).
  set (c1 := set_Version CurrentVersion
               (set_Links (<[name := info]> (Links c)) c)) in *.
  set (w2 := set_disk (Some data1) (set_configInstance (Some c1) w1)) in *.
  assert (H1 : ∃ t, r1 = (None, w2, t)).
  { eexists. subst r1.
    rewrite (run_eta (link.CreateLinkOrShortcut E target name syncDir true w)).
    unfold link.CreateLinkOrShortcut, link.CreateShortcutDelegate,
      link.GetStartMenuProgramsPathDelegate. rewrite Hwin.
    run_with HSM. rewrite Habs. run_with HP. cbn [negb].
    run_with HCS. run_with HG1. fold info. run_with HA. reflexivity. }
  destruct H1 as (t & H1).
  (* the removal *)
  assert (Hc2 : configInstance w2 = Some c1) by reflexivity.
  assert (Hl2 : Links c1 !! name = Some info) by (cbn; apply lookup_insert_eq).
  assert (HG2 := GetConfig_loaded E _ _ Hc2).
  assert (HL2 := GetLink_loaded _ _ name Hc2). rewrite Hl2 in HL2.
  assert (HSM2 := getStartMenu_ok E w2 _ eq_refl Happ). fold sm in HSM2.
  assert (Hf2 : fs w2 !! lnk = Some (File (lnk_bytes tp)))
    by (cbn; apply lookup_insert_eq).
  assert (HP2 := PathExists_plain E Hok _ _ _ Hf2 eq_refl).
  assert (HRm := Remove_ok E Hok _ _ _ Hf2 eq_refl).
  set (w3 := set_fs (delete lnk (fs w2)) w2) in *.
  assert (Hc3 : configInstance w3 = Some c1) by reflexivity.
  destruct (RemoveLink_ok E Hok Hsave w3 c1 name info Hc3 Hl2) as (data2 & HRL).
  set (c2 := set_Version CurrentVersion
               (set_Links (delete name (Links c1)) c1)) in *.
  set (w4 := set_disk (Some data2) (set_configInstance (Some c2) w3)) in *.
  assert (H2 : ∃ t, link.RemoveLinkOrShortcut E name w2 = (None, w4, t)).
  { eexists.
    rewrite (run_eta (link.RemoveLinkOrShortcut E name w2)).
    unfold link.RemoveLinkOrShortcut, link.RemoveShortcutDelegate,
      link.GetStartMenuProgramsPathDelegate. rewrite Hwin.
    run_with HG2. run_with HL2. cbn [negb Shortcut info].
    run_with HSM2. expose. unfold link.removeShortcutWindows. fold lnk.
    run_with HP2. cbn [negb]. run_with HRm. go.
    run_with HRL. cbn [negb andb]. go. reflexivity. }
  destruct H2 as (t2 & H2).
  subst r2. rewrite H1. cbn [world_of result_of fst snd]. rewrite H2.
  cbn [world_of result_of fst snd].
  split; [reflexivity|]. split; [reflexivity|]. split.
  { rewrite HL2. reflexivity. }
  split; [reflexivity|]. split.
  - cbn. rewrite delete_insert_eq. apply delete_id, Hlnk.
  - unfold config.GetLinks. go. cbn. rewrite delete_insert_eq.
    apply delete_id, Hl.
Qed.

End ShortcutRoundTrip.

Lemma shortcut_create_then_remove_witness :
  let lnk := (start_menu +:+ "/tool.lnk")%string in
  let r1 := link.CreateLinkOrShortcut E0 "/opt/tool.exe" "tool" "/sync" true
              w_menu in
  let r2 := link.RemoveLinkOrShortcut E0 "tool" (world_of r1) in
  result_of r1 = None
  ∧ fs (world_of r1) = <[lnk := File (lnk_bytes "/opt/tool.exe")]> (fs w_menu)
  ∧ result_of (config.GetLink "tool" (world_of r1))
    = (mkLinkInfo true "/opt/tool.exe" lnk 7, true)
  ∧ result_of r2 = None
  ∧ fs (world_of r2) = fs w_menu
  ∧ result_of (config.GetLinks (world_of r2)) = ∅.
Proof.
  apply (shortcut_create_then_remove E0 no_fault_E0 can_save_E0 eq_refl
           "/opt/tool.exe" "tool" "/sync" w_menu
           (mkConfig (mkSettings "/sync") ∅ "1.0") "/opt/tool.exe"
           "/opt/tool.exe" (File "MZ")).
  - reflexivity.
  - reflexivity.
  - reflexivity.
  - discriminate.
  - reflexivity.
  - reflexivity.
  - reflexivity.
  - reflexivity.
  - repeat constructor.
  - reflexivity.
Defined.

(** ** The link command *)

Section LinkCommand.
Context (E : Env).

Lemma PathExists_found a w :
  path_exists E w a →
  util.PathExists E a w = ((true, None), w, [Sys (sys_stat a) None]).
Proof.
  intros H. destruct (path_exists_stat E w a H) as [n Hn].
  rewrite PathExists_run. unfold path_exists in H. rewrite H, Hn. reflexivity.
Qed.

(** The link command refuses a name that is registered, whether given with
    --name or derived from the target, for symbolic links and for
    shortcuts alike; it has only looked at the target by then. *)
Theorem link_command_refuses_registered_name target linkName syncPath
    createShortcut w c a :
  configInstance w = Some c →
  util.GetAbsPath E target = (a, None) →
  path_exists E w a →
  let name := if decide (linkName = EmptyString) then GetDefaultLinkName a
              else linkName in
  is_Some (Links c !! name) →
  cmd.runLinkCommand E target linkName syncPath createShortcut w
  = (Some (inl cmd.LinkNameExists), w, [Sys (sys_stat a) None]).
Proof.
  intros Hc Habs Hex name [li Hl].
  assert (HG := GetConfig_loaded E _ _ Hc).
  assert (HL := GetLink_loaded _ _ name Hc). rewrite Hl in HL.
  assert (HP := PathExists_found a w Hex).
  rewrite (run_eta (cmd.runLinkCommand E target linkName syncPath createShortcut w)).
  unfold cmd.runLinkCommand. run_with HG. rewrite Habs. run_with HP. cbn [negb].
  fold name. run_with HL. reflexivity.
Qed.

(** Without --sync-path and without a default sync path in the registry
    the link command refuses, for a shortcut as well, although a shortcut
    is not placed in the sync directory. *)
Theorem link_command_needs_sync_path target linkName createShortcut w c a :
  configInstance w = Some c →
  util.GetAbsPath E target = (a, None) →
  path_exists E w a →
  let name := if decide (linkName = EmptyString) then GetDefaultLinkName a
              else linkName in
  Links c !! name = None →
  DefaultSyncPath (CfgSettings c) = EmptyString →
  cmd.runLinkCommand E target linkName EmptyString createShortcut w
  = (Some (inl cmd.SyncPathUnspecified), w, [Sys (sys_stat a) None]).
Proof.
  intros Hc Habs Hex name Hl Hd.
  assert (HG := GetConfig_loaded E _ _ Hc).
  assert (HL := GetLink_loaded _ _ name Hc). rewrite Hl in HL.
  assert (HP := PathExists_found a w Hex).
  rewrite (run_eta (cmd.runLinkCommand E target linkName EmptyString createShortcut w)).
  unfold cmd.runLinkCommand. run_with HG. rewrite Habs. run_with HP. cbn [negb].
  fold name. run_with HL.
  destruct (decide (EmptyString = EmptyString)) as [_|Hn]; [|contradiction].
  unfold config.GetSettings. go. rewrite Hc, Hd.
  destruct (decide (EmptyString = EmptyString)) as [_|Hn]; [|contradiction].
  go. reflexivity.
Qed.

(** A target that does not exist is refused by the command and by the
    engine, for both kinds, and the world stays as it is. *)
Theorem missing_target_is_refused target linkName syncPath isShortcut w c a :
  configInstance w = Some c →
  util.GetAbsPath E target = (a, None) →
  result_of (util.PathExists E a w) = (false, None) →
  let r := cmd.runLinkCommand E target linkName syncPath isShortcut w in
  let r' := link.CreateLinkOrShortcut E target linkName syncPath isShortcut w in
  result_of r = Some (inl cmd.TargetPathMissing)
  ∧ world_of r = w
  ∧ is_Some (result_of r')
  ∧ world_of r' = w
  ∧ (isShortcut = false → result_of r' = Some (New MTargetMissing)).
Proof.
  intros Hc Habs Hex r r'.
  assert (HG := GetConfig_loaded E _ _ Hc).
  assert (HP := PathExists_run E a w). rewrite Hex in HP.
  split; [|split].
  - subst r. unfold cmd.runLinkCommand. run_with HG. rewrite Habs. run_with HP.
    reflexivity.
  - subst r. unfold cmd.runLinkCommand. run_with HG. rewrite Habs. run_with HP.
    reflexivity.
  - subst r'. unfold link.CreateLinkOrShortcut. destruct isShortcut.
    + unfold link.CreateShortcutDelegate, link.GetStartMenuProgramsPathDelegate.
      destruct (windows E); [|repeat split; try discriminate; cbn; eauto].
      expose. rewrite !getStartMenu_world.
      destruct (result_of (link.getStartMenuProgramsPathWindows E w))
        as [sm [e|]]; tidy.
      { repeat split; try discriminate; cbn; eauto. }
      rewrite Habs. run_with HP. repeat split; try discriminate; cbn; eauto.
    + unfold link.CreateSymbolicLink. run_with HG. rewrite Habs. run_with HP.
      repeat split; cbn; eauto.
Qed.

End LinkCommand.

Section LinkCommandRuns.
Context (E : Env) (Hok : no_fault E) (Hsave : can_save E).

(** The link command with neither --name nor --sync-path: the target goes
    under the default sync path of the registry, in the directory files
    and under the name derived from the target, a symbolic link takes its
    place, and the record is registered under that name. *)
Theorem link_command_uses_defaults target w c a d :
  configInstance w = Some c →
  DefaultSyncPath (CfgSettings c) ≠ EmptyString →
  util.GetAbsPath E target = (a, None) →
  util.GetAbsPath E a = (a, None) →
  let name := GetDefaultLinkName a in
  let filesDir := filepath.Join (DefaultSyncPath (CfgSettings c)) "files" in
  let synced := filepath.Join filesDir name in
  Links c !! name = None →
  has_dirs w filesDir →
  fs w !! a = Some (File d) →
  fs w !! synced = None →
  let r := cmd.runLinkCommand E target EmptyString EmptyString false w in
  result_of r = None
  ∧ fs (world_of r)
    = <[a := Symlink synced]> (<[synced := File d]> (delete a (fs w)))
  ∧ result_of (config.GetLink name (world_of r))
    = (mkLinkInfo false a synced (now E), true).
Proof.
  intros Hc Hd Habs Habs2 name filesDir synced Hl Hdirs Ha Hs r.
  assert (HG := GetConfig_loaded E _ _ Hc).
  assert (HL := GetLink_loaded _ _ name Hc). rewrite Hl in HL.
  assert (HP := PathExists_plain E Hok _ _ _ Ha eq_refl).
  destruct (create_file_fresh E Hok Hsave a name
              (DefaultSyncPath (CfgSettings c)) w c a d Hc Hl Habs2 Hdirs Ha Hs)
    as (data & t & HC).
  fold filesDir synced in HC.
  assert (Hr : ∃ t', r = (None,
    set_disk (Some data)
      (set_configInstance
         (Some (set_Version CurrentVersion
                  (set_Links (<[name := mkLinkInfo false a synced (now E)]>
                                (Links c)) c)))
         (set_fs (<[a := Symlink synced]>
                    (<[synced := File d]> (delete a (fs w)))) w)), t')).
  { eexists. subst r.
    rewrite (run_eta (cmd.runLinkCommand E target EmptyString EmptyString false w)).
    unfold cmd.runLinkCommand. run_with HG. rewrite Habs. run_with HP. cbn [negb].
    destruct (decide (EmptyString = EmptyString)) as [_|Hn]; [|contradiction].
    fold name. run_with HL.
    unfold config.GetSettings. go. rewrite Hc.
    destruct (decide (DefaultSyncPath (CfgSettings c) = EmptyString));
      [contradiction|].
    go. run_with HC. reflexivity. }
  destruct Hr as (t' & Hr). rewrite Hr. cbn [result_of world_of fst snd].
  split; [reflexivity|]. split; [reflexivity|].
  unfold config.GetLink, config.GetLinks. go. cbn.
  rewrite lookup_insert_eq. reflexivity.
Qed.

End LinkCommandRuns.

Lemma link_command_refuses_registered_name_witness :
  cmd.runLinkCommand E0 "/sync/files/cfg" EmptyString "/sync" true w_linked
  = (Some (inl cmd.LinkNameExists), w_linked, [Sys (sys_stat "/sync/files/cfg") None]).
Proof.
  apply (link_command_refuses_registered_name E0 "/sync/files/cfg" EmptyString
           "/sync" true w_linked registry1 "/sync/files/cfg").
  - reflexivity.
  - reflexivity.
  - reflexivity.
  - exists cfg_record. reflexivity.
Defined.

Lemma link_command_needs_sync_path_witness :
  cmd.runLinkCommand E0 "/opt/tool.exe" "tool" EmptyString true w_nosync
  = (Some (inl cmd.SyncPathUnspecified), w_nosync, [Sys (sys_stat "/opt/tool.exe") None]).
Proof.
  apply (link_command_needs_sync_path E0 "/opt/tool.exe" "tool" true w_nosync
           (mkConfig (mkSettings EmptyString) ∅ "1.0") "/opt/tool.exe");
    reflexivity.
Defined.

Lemma missing_target_is_refused_witness :
  let r := cmd.runLinkCommand E0 "/nowhere" "cfg2" "/sync" false w_linked in
  let r' := link.CreateLinkOrShortcut E0 "/nowhere" "cfg2" "/sync" false w_linked in
  result_of r = Some (inl cmd.TargetPathMissing)
  ∧ world_of r = w_linked
  ∧ is_Some (result_of r')
  ∧ world_of r' = w_linked
  ∧ (false = false → result_of r' = Some (New MTargetMissing)).
Proof.
  apply (missing_target_is_refused E0 "/nowhere" "cfg2" "/sync" false w_linked
           registry1 "/nowhere"); reflexivity.
Defined.

Lemma link_command_uses_defaults_witness :
  let r := cmd.runLinkCommand E0 "/home/u/app.conf" EmptyString EmptyString false
             w_ready in
  result_of r = None
  ∧ fs (world_of r)
    = <["/home/u/app.conf" := Symlink "/sync/files/app.conf"]>
        (<["/sync/files/app.conf" := File "data"]>
           (delete "/home/u/app.conf" (fs w_ready)))
  ∧ result_of (config.GetLink "app.conf" (world_of r))
    = (mkLinkInfo false "/home/u/app.conf" "/sync/files/app.conf" 7, true).
Proof.
  apply (link_command_uses_defaults E0 no_fault_E0 can_save_E0
           "/home/u/app.conf" w_ready (mkConfig (mkSettings "/sync") ∅ "1.0")
           "/home/u/app.conf" "data"); try reflexivity.
  - discriminate.
  - repeat constructor.
Defined.

(** ** Copy and move *)

Lemma no_fault_renames E : no_fault E → only_renames_fail E.
Proof. intros H call _. apply H. Qed.

Lemma substring_length k d :
  (k ≤ String.length d)%nat → String.length (String.substring 0 k d) = k.
Proof.
  revert k. induction d as [|c d IH]; intros [|k] H; cbn in *; try lia.
  rewrite IH by lia. reflexivity.
Qed.


Section Copy.
Context (E : Env) (Hfault : only_renames_fail E).

Ltac ok := rewrite Hfault by exact I.

Lemma EnsureDirExists_here w dir :
  has_dirs w dir →
  util.EnsureDirExists E dir w = (None, w, [Sys (sys_mkdirall dir) None]).
Proof.
  intros H. unfold util.EnsureDirExists, util.EnsureDirExists_of, os.MkdirAll,
    os.perform, bind. ok.
  rewrite (mkdir_existing _ _ H). cbn. rewrite set_fs_same. reflexivity.
Qed.

Lemma Open_file p w d :
  fs w !! p = Some (File d) → os.Open E p w = (inr p, w, [Sys (sys_open p) None]).
Proof.
  intros H. unfold os.Open, os.observe. ok.
  rewrite (resolve_plain _ _ _ _ H eq_refl). reflexivity.
Qed.

Lemma FStat_file p w n :
  fs w !! p = Some n → os.FStat E p w = (inr n, w, [Sys (sys_fstat p) None]).
Proof. intros H. unfold os.FStat, os.observe. ok. rewrite H. reflexivity. Qed.

Lemma OpenTrunc_file p w :
  (∀ n, fs w !! p = Some n → is_regular n = true) →
  os.OpenTrunc E p w
  = (inr p, set_fs (<[p := File EmptyString]> (fs w)) w,
     [Sys (sys_opentrunc p) None]).
Proof.
  intros H. unfold os.OpenTrunc, os.perform. ok.
  destruct (fs w !! p) as [n|] eqn:Hp; [|reflexivity].
  specialize (H n eq_refl). destruct n; try discriminate.
  rewrite (resolve_plain _ _ _ _ Hp eq_refl). reflexivity.
Qed.

Lemma IoCopy_file src dst w d :
  fs w !! src = Some (File d) →
  let d' := match iocopy_short E dst with
            | Some n => String.substring 0 n d
            | None => d
            end in
  os.IoCopy E src dst w
  = (inr (String.length d'), set_fs (<[dst := File d']> (fs w)) w,
     [Sys (sys_iocopy src dst) None]).
Proof. intros H d'. unfold os.IoCopy, os.perform. ok. rewrite H. reflexivity. Qed.

Lemma Sync_ok p w : os.Sync E p w = (inr tt, w, [Sys (sys_fsync p) None]).
Proof. unfold os.Sync, os.observe. ok. reflexivity. Qed.

Lemma Chmod_ok p w n :
  fs w !! p = Some n → os.Chmod E p w = (inr tt, w, [Sys (sys_chmod p) None]).
Proof.
  intros H. unfold os.Chmod, os.perform. ok. rewrite H. cbn.
  rewrite set_fs_same. reflexivity.
Qed.

Lemma Remove_file p w n :
  fs w !! p = Some n → is_dir n = false →
  os.Remove E p w
  = (inr tt, set_fs (delete p (fs w)) w, [Sys (sys_remove p) None]).
Proof.
  intros H Hn. unfold os.Remove, os.perform. ok. rewrite H.
  destruct n; try discriminate; reflexivity.
Qed.

(** The run of a copy that is not cut short. *)
Lemma CopyFile_whole src dst w d :
  iocopy_short E dst = None →
  fs w !! src = Some (File d) → src ≠ dst →
  has_dirs w (filepath.Dir dst) →
  (∀ n, fs w !! dst = Some n → is_regular n = true) →
  ∃ t, util.CopyFile E src dst w
       = (None, set_fs (<[dst := File d]> (fs w)) w, t).
Proof.
  intros Hshort Hs Hne Hdirs Hd.
  assert (HED := EnsureDirExists_here w _ Hdirs).
  assert (HO := Open_file src w d Hs).
  assert (HF := FStat_file src w _ Hs).
  assert (HT := OpenTrunc_file dst w Hd).
  set (w1 := set_fs (<[dst := File EmptyString]> (fs w)) w) in *.
  assert (Hs1 : fs w1 !! src = Some (File d))
    by (cbn; rewrite lookup_insert_ne by done; exact Hs).
  assert (HC := IoCopy_file src dst w1 d Hs1). rewrite Hshort in HC.
  cbv zeta in HC.
  set (w2 := set_fs (<[dst := File d]> (fs w1)) w1) in *.
  assert (HM := Chmod_ok dst w2 (File d) ltac:(cbn; apply lookup_insert_eq)).
  assert (Hw2 : w2 = set_fs (<[dst := File d]> (fs w)) w).
  { subst w2 w1. cbn. rewrite insert_insert_eq. reflexivity. }
  eexists. rewrite (run_eta (util.CopyFile E src dst w)).
  unfold util.CopyFile. run_with HED. run_with HO. run_with HF. run_with HT.
  run_with HC. cbn [file_size]. rewrite Nat.eqb_refl. cbn [negb].
  run_with (Sync_ok dst w2). go. run_with HM. go.
  rewrite Hw2. reflexivity.
Qed.

(** Moving a regular file to another device ends with the tree a rename
    would have left: the content is at the destination and the source is
    gone. *)
Theorem move_file_across_devices src dst w d e :
  fault E (sys_rename src dst) = Some e →
  util.is_cross_device e = true →
  iocopy_short E dst = None →
  fs w !! src = Some (File d) →
  src ≠ dst →
  filepath.under src dst = false →
  map_Forall (λ k _, filepath.under src k = false) (fs w) →
  has_dirs w (filepath.Dir dst) →
  (∀ n, fs w !! dst = Some n → is_regular n = true) →
  let r := util.MoveFileOrDir E src dst w in
  result_of r = None
  ∧ fs (world_of r) = <[dst := File d]> (delete src (fs w))
  ∧ In (Sys (sys_rename src dst) (Some e)) (trace_of r).
Proof.
  intros Hr Hx Hshort Hs Hne Hu Hbelow Hdirs Hd r.
  assert (HRn : os.Rename E src dst w
                = (inl e, w, [Sys (sys_rename src dst) (Some e)])).
  { unfold os.Rename, os.perform. rewrite Hr. reflexivity. }
  assert (HSt : os.Stat E src w = (inr (File d), w, [Sys (sys_stat src) None])).
  { unfold os.Stat, os.observe. ok.
    rewrite (resolve_plain _ _ _ _ Hs eq_refl). reflexivity. }
  assert (HID := IsDir_of_stat E _ _ _ _ HSt). cbn [is_dir] in HID.
  destruct (CopyFile_whole src dst w d Hshort Hs Hne Hdirs Hd) as (t & HC).
  set (w1 := set_fs (<[dst := File d]> (fs w)) w) in *.
  assert (HRA : os.RemoveAll E src w1
                = (inr tt,
                   set_fs (filter (λ kn : string * node,
                                     os.inside src kn.1 = false) (fs w1)) w1,
                   [Sys (sys_removeall src) None])).
  { unfold os.RemoveAll, os.perform. ok. reflexivity. }
  assert (Hrun : r = (None,
                      set_fs (filter (λ kn : string * node,
                                        os.inside src kn.1 = false) (fs w1)) w1,
                      [Sys (sys_rename src dst) (Some e)]
                        ++ [Sys (sys_stat src) None] ++ t
                        ++ [Sys (sys_removeall src) None])).
  { subst r. rewrite (run_eta (util.MoveFileOrDir E src dst w)).
    unfold util.MoveFileOrDir. run_with HRn. rewrite Hx. cbn [negb].
    run_with HID. run_with HC. go. run_with HRA.
    rewrite ?app_nil_r. reflexivity. }
  rewrite Hrun. cbn [result_of world_of trace_of fst snd].
  split; [reflexivity|]. split; [|left; reflexivity].
  cbn [fs set_fs w1]. apply map_eq. intros i.
  destruct (decide (i = dst)) as [->|Hid].
  { rewrite lookup_insert_eq. apply map_lookup_filter_Some. split.
    - apply lookup_insert_eq.
    - cbn. unfold os.inside. rewrite Hu, bool_decide_eq_false_2 by done.
      reflexivity. }
  rewrite lookup_insert_ne by done.
  destruct (decide (i = src)) as [->|His].
  { rewrite lookup_delete_eq. apply map_lookup_filter_None. right.
    intros n _. cbn. unfold os.inside. rewrite bool_decide_eq_true_2 by done.
    discriminate. }
  rewrite lookup_delete_ne by done.
  destruct (filepath.under src i) eqn:Hui.
  - destruct (fs w !! i) as [n|] eqn:Hi.
    { pose proof (Hbelow i n Hi) as Hno. cbn in Hno. congruence. }
    apply map_lookup_filter_None. left.
    rewrite lookup_insert_ne by done. exact Hi.
  - destruct (fs w !! i) as [n|] eqn:Hi.
    + apply map_lookup_filter_Some. split.
      * rewrite lookup_insert_ne by done. exact Hi.
      * cbn. unfold os.inside. rewrite Hui, bool_decide_eq_false_2 by done.
        reflexivity.
    + apply map_lookup_filter_None. left.
      rewrite lookup_insert_ne by done. exact Hi.
Qed.

End Copy.

Section CopyFile.
Context (E : Env) (Hok : no_fault E).

(** A copy that succeeds leaves the content of the source at the
    destination, whether the destination was missing or a regular file,
    and changes nothing else; the source keeps its content. *)
Theorem copy_file_copies_content src dst w d :
  iocopy_short E dst = None →
  fs w !! src = Some (File d) →
  src ≠ dst →
  has_dirs w (filepath.Dir dst) →
  (∀ n, fs w !! dst = Some n → is_regular n = true) →
  let r := util.CopyFile E src dst w in
  result_of r = None
  ∧ fs (world_of r) = <[dst := File d]> (fs w).
Proof.
  intros Hshort Hs Hne Hdirs Hd r.
  destruct (CopyFile_whole E (no_fault_renames E Hok) src dst w d
              Hshort Hs Hne Hdirs Hd) as (t & H).
  subst r. rewrite H. split; reflexivity.
Qed.

(** A copy that is cut short fails with the size mismatch and removes the
    destination: nothing is left there, not even what it held before. *)
Theorem copy_file_cut_short src dst w d k :
  iocopy_short E dst = Some k →
  (k < String.length d)%nat →
  fs w !! src = Some (File d) →
  src ≠ dst →
  has_dirs w (filepath.Dir dst) →
  (∀ n, fs w !! dst = Some n → is_regular n = true) →
  let r := util.CopyFile E src dst w in
  result_of r = Some (New MCopySizeMismatch)
  ∧ fs (world_of r) = delete dst (fs w).
Proof.
  intros Hshort Hk Hs Hne Hdirs Hd r.
  pose proof (no_fault_renames E Hok) as Hf.
  assert (HED := EnsureDirExists_here E Hf w _ Hdirs).
  assert (HO := Open_file E Hf src w d Hs).
  assert (HF := FStat_file E Hf src w _ Hs).
  assert (HT := OpenTrunc_file E Hf dst w Hd).
  set (w1 := set_fs (<[dst := File EmptyString]> (fs w)) w) in *.
  assert (Hs1 : fs w1 !! src = Some (File d))
    by (cbn; rewrite lookup_insert_ne by done; exact Hs).
  assert (HC := IoCopy_file E Hf src dst w1 d Hs1). rewrite Hshort in HC.
  cbv zeta in HC. rewrite substring_length in HC by lia.
  set (w2 := set_fs (<[dst := File (String.substring 0 k d)]> (fs w1)) w1) in *.
  assert (HRm := Remove_file E Hf dst w2 _
                   ltac:(cbn; apply lookup_insert_eq) eq_refl).
  assert (Hrun : ∃ t, r = (Some (New MCopySizeMismatch),
                           set_fs (delete dst (fs w2)) w2, t)).
  { eexists. subst r. rewrite (run_eta (util.CopyFile E src dst w)).
    unfold util.CopyFile. run_with HED. run_with HO. run_with HF. run_with HT.
    run_with HC. cbn [file_size].
    rewrite (proj2 (Nat.eqb_neq k (String.length d))) by lia. cbn [negb].
    run_with HRm. reflexivity. }
  destruct Hrun as (t & Hrun). rewrite Hrun.
  split; [reflexivity|]. cbn.
  rewrite !delete_insert_eq. reflexivity.
Qed.


End CopyFile.

Lemma only_renames_fail_E_xdev : only_renames_fail E_xdev.
Proof. intros call H. destruct call; try reflexivity. contradiction. Qed.

Lemma move_file_across_devices_witness :
  let r := util.MoveFileOrDir E_xdev "/home/u/app.conf" "/sync/files/cfg"
             w_ready in
  result_of r = None
  ∧ fs (world_of r)
    = <["/sync/files/cfg" := File "data"]>
        (delete "/home/u/app.conf" (fs w_ready))
  ∧ In (Sys (sys_rename "/home/u/app.conf" "/sync/files/cfg") (Some EXDEV))
       (trace_of r).
Proof.
  apply (move_file_across_devices E_xdev only_renames_fail_E_xdev
           "/home/u/app.conf" "/sync/files/cfg" w_ready "data" EXDEV);
    try reflexivity.
  - discriminate.
  - refine (bool_decide_unpack _ _). vm_compute. exact I.
  - repeat constructor.
  - intros n Hn. discriminate.
Defined.

Lemma copy_file_copies_content_witness :
  let r := util.CopyFile E0 "/home/u/app.conf" "/sync/files/cfg" w_occupied in
  result_of r = None
  ∧ fs (world_of r) = <["/sync/files/cfg" := File "data"]> (fs w_occupied).
Proof.
  apply (copy_file_copies_content E0 no_fault_E0 "/home/u/app.conf"
           "/sync/files/cfg" w_occupied "data"); try reflexivity.
  - discriminate.
  - repeat constructor.
  - intros n Hn. injection Hn as <-. reflexivity.
Defined.

Lemma copy_file_cut_short_witness :
  let r := util.CopyFile E_short "/home/u/app.conf" "/sync/files/cfg"
             w_occupied in
  result_of r = Some (New MCopySizeMismatch)
  ∧ fs (world_of r) = delete "/sync/files/cfg" (fs w_occupied).
Proof.
  apply (copy_file_cut_short E_short (λ c, eq_refl) "/home/u/app.conf"
           "/sync/files/cfg" w_occupied "data" 2); try reflexivity.
  - cbn. lia.
  - discriminate.
  - repeat constructor.
  - intros n Hn. injection Hn as <-. reflexivity.
Defined.


(** ** The tally of the bulk relink *)

Section BulkRelink.
Context (E : Env).

(** Every Count step adds one to exactly one of the two counters. *)
Lemma run_schedule_sum sched c w :
  let c' := result_of (cmd.run_schedule E sched c w) in
  cmd.successCount c' + cmd.failureCount c'
  = cmd.successCount c + cmd.failureCount c
    + List.length (List.filter is_count sched).
Proof.
  revert c w. induction sched as [|s rest IH]; intros c w; cbn zeta.
  { cbn. lia. }
  cbn [cmd.run_schedule]. expose. cbv zeta in IH. rewrite IH.
  destruct s as [name|name]; cbn [List.filter is_count List.length cmd.run_step].
  - expose. tidy. cbn. lia.
  - destruct (cmd.lastErr c); expose; tidy; cbn; lia.
Qed.

Lemma sequential_counts names :
  List.length (List.filter is_count (cmd.sequential names)) = List.length names.
Proof.
  induction names as [|n names IH]; [reflexivity|].
  change (cmd.sequential (n :: names))
    with (cmd.Relink n :: cmd.Count n :: cmd.sequential names).
  cbn [List.filter is_count List.length]. rewrite IH. reflexivity.
Qed.

Lemma counts_permutation (l1 l2 : list cmd.step) :
  l1 ≡ₚ l2 →
  List.length (List.filter is_count l1) = List.length (List.filter is_count l2).
Proof.
  induction 1 as [|x l l' _ IH|x y l|l l' l'' _ IH1 _ IH2]; cbn.
  - reflexivity.
  - destruct (is_count x); cbn; congruence.
  - destruct (is_count x), (is_count y); reflexivity.
  - congruence.
Qed.

(** The tally of a bulk relink adds up: whatever the interleaving of the
    goroutines, the successes and the failures together are the number of
    registered links, and the command returns no error. *)
Theorem relink_all_tally_adds_up w c names sched :
  configInstance w = Some c →
  Links c ≠ ∅ →
  names ≡ₚ (map_to_list (Links c)).*1 →
  cmd.schedule_of names sched →
  let r := cmd.relinkAllLinks E sched w in
  result_of r = None
  ∧ ∃ s f, last (trace_of r) = Some (Tally (size (Links c)) s f)
           ∧ s + f = size (Links c).
Proof.
  intros Hc Hne Hnames [Hp _] r.
  assert (HL : config.GetLinks w = (Links c, w, [])).
  { unfold config.GetLinks. rewrite (run_eta (bind _ _ w)). go. rewrite Hc.
    reflexivity. }
  assert (Hsize : size (Links c) = List.length names).
  { rewrite (Permutation_length Hnames), length_fmap.
    symmetry. apply length_map_to_list. }
  assert (Hz : (size (Links c) =? 0)%nat = false).
  { apply Nat.eqb_neq. intros H. apply Hne, map_size_empty_inv, H. }
  pose proof (run_schedule_sum sched (cmd.mkCounters None 0 0) w) as Hsum.
  cbv zeta in Hsum. cbn [cmd.successCount cmd.failureCount] in Hsum.
  rewrite (counts_permutation _ _ Hp), sequential_counts, <- Hsize in Hsum.
  subst r. unfold cmd.relinkAllLinks. run_with HL. rewrite Hz. go.
  split; [reflexivity|].
  eexists _, _. split; [|exact Hsum].
  rewrite app_nil_r. apply last_snoc.
Qed.

End BulkRelink.

Lemma relink_all_tally_adds_up_witness :
  let r := cmd.relinkAllLinks E0 racy_schedule w_two in
  result_of r = None
  ∧ ∃ s f, last (trace_of r) = Some (Tally (size (Links registry3)) s f)
           ∧ s + f = size (Links registry3).
Proof.
  apply (relink_all_tally_adds_up E0 w_two registry3 ["notes"; "cfg"]
           racy_schedule eq_refl).
  - intros H. apply (f_equal (λ m : gmap string LinkInfo, m !! "cfg")) in H.
    discriminate H.
  - vm_compute. apply perm_swap.
  - exact racy_schedule_is_schedule.
Defined.
